(** * Honos-Sync: the reconciliation engine of the Obsidian sync plugin

    A shallow embedding of [SyncManager.ts] (the [SyncManager] and the
    [MetadataManager] classes) and of the [ConflictHandler] class, with the
    properties of the reconciliation pass, of the single-file operations and
    of the conflict resolver.

    The host application (the Obsidian vault), the transport
    ([NetworkClient]) and the clock are collaborators of the engine: the
    vault is modelled as a finite map from paths to files and folders, the
    transport and the clock as an oracle over an abstract environment. *)

From Stdlib Require Import ZArith Ascii String List Lia.
From stdpp Require Import base option gmap strings list fin_maps pretty.

Local Open Scope Z_scope.

(** ** JavaScript values and string primitives used by the source *)

Module JS.

(** [x || 0] and [x || y || 0] on a number that may be [undefined]:
    [undefined] and [0] are the falsy numbers. *)
Definition num_or (x : option Z) (d : Z) : Z :=
  match x with
  | Some v => if Z.eqb v 0 then d else v
  | None => d
  end.

(** [s || ''] on a string that may be [undefined]. *)
Definition str_or (x : option string) (d : string) : string :=
  match x with
  | Some v => if decide (v = EmptyString) then d else v
  | None => d
  end.

(** Truthiness of a string that may be [undefined]. *)
Definition truthy_str (x : option string) : bool :=
  match x with
  | Some v => negb (bool_decide (v = EmptyString))
  | None => false
  end.

(** [s.lastIndexOf(c)] for a one-character needle, [None] standing for
    the result [-1]. *)
Fixpoint lastIndexOf (c : ascii) (s : string) : option nat :=
  match s with
  | EmptyString => None
  | String a r =>
      match lastIndexOf c r with
      | Some i => Some (S i)
      | None => if Ascii.eqb a c then Some O else None
      end
  end.

(** [s.substring(0, s.lastIndexOf(c))]: a negative end index is clamped
    to [0]. *)
Definition before_last (c : ascii) (s : string) : string :=
  match lastIndexOf c s with
  | Some i => String.substring 0 i s
  | None => EmptyString
  end.

(** The part of [s] after the last [c], the whole of [s] without one. *)
Definition after_last (c : ascii) (s : string) : string :=
  match lastIndexOf c s with
  | Some i => String.substring (S i) (String.length s - S i) s
  | None => s
  end.

Definition is_ws (a : ascii) : bool :=
  match nat_of_ascii a with
  | 9%nat | 10%nat | 11%nat | 12%nat | 13%nat | 32%nat => true
  | _ => false
  end.

Fixpoint trimStart (s : string) : string :=
  match s with
  | EmptyString => EmptyString
  | String a r => if is_ws a then trimStart r else s
  end.

Fixpoint trimEnd (s : string) : string :=
  match s with
  | EmptyString => EmptyString
  | String a r =>
      match trimEnd r with
      | EmptyString => if is_ws a then EmptyString else String a EmptyString
      | r' => String a r'
      end
  end.

(** [s.trim()] on ASCII white space. *)
Definition trim (s : string) : string := trimEnd (trimStart s).

(** [s.replace(/[:.]/g, '-')]. *)
Fixpoint replace_colon_dot (s : string) : string :=
  match s with
  | EmptyString => EmptyString
  | String a r =>
      String (if Ascii.eqb a ":" || Ascii.eqb a "." then "-"%char else a)
             (replace_colon_dot r)
  end.

Definition lower (a : ascii) : ascii :=
  let n := nat_of_ascii a in
  if (65 <=? n)%nat && (n <=? 90)%nat then ascii_of_nat (n + 32) else a.

(** [s.toLowerCase()] on ASCII letters. *)
Fixpoint toLowerCase (s : string) : string :=
  match s with
  | EmptyString => EmptyString
  | String a r => String (lower a) (toLowerCase r)
  end.

Definition nl : string := String (ascii_of_nat 10) EmptyString.

End JS.

(** ** Data model

    The declarations of [types.ts] and the response types of
    [NetworkClient.ts] are not among the sources at hand: the records below
    have the fields the code reads and writes. A number that may be
    [undefined] is an [option Z], revisions and times being integers. *)

(** Modelled from the spec: [RemoteFile] of [types.ts], the descriptor of a
    remote file (path, revision, content hash, size), also the [file] field
    of an upload or download response, where the code reads its
    [parentRevision] too. *)
Record RemoteFile := {
  rf_path : string;
  rf_hash : string;
  rf_revision : option Z;
  rf_parentRevision : option Z;
  rf_size : Z
}.

(** Modelled from the spec: [LocalFileMetadata] of [types.ts], the record
    kept per path by the [MetadataManager] (hash, revision, parent revision,
    size, time of the last sync, device). The objects the manager stores are
    object literals built by spreading: a field that no operand of the
    spread has supplied is absent ([None]), and [indexed] is the string
    whose characters the object holds under the keys [0], [1], ... when a
    string was among the operands (empty otherwise). *)
Record LocalFileMetadata := {
  path : string;
  hash : option string;
  size : option Z;
  revision : option Z;
  parentRevision : option Z;
  lastSyncedAt : option Z;
  deviceId : option string;
  indexed : string
}.

(** [Partial<LocalFileMetadata>], the argument of [saveMetadata]: [None] is
    an absent key. *)
Record PartialMetadata := {
  p_hash : option string;
  p_size : option Z;
  p_revision : option Z;
  p_parentRevision : option Z;
  p_lastSyncedAt : option Z;
  p_deviceId : option string
}.

(** ** The object [metadata]

    [MetadataManager.metadata] is a plain object used as a map from paths to
    records. Reading [metadata[key]] finds an own property first and then
    what the object inherits: the properties of its prototype. The
    prototype is [Object.prototype], unless an assignment to the key
    [__proto__] has replaced it by the record assigned. *)

(** What [metadata[key]] evaluates to, when it is not [undefined]: a
    record; a string or a number, the value of a field of a record that has
    become the prototype; or a native object, which is a method of
    [Object.prototype] or [Object.prototype] itself. A native object is
    truthy, has none of the fields of a record and no enumerable property
    of its own. *)
Inductive JSValue :=
| VRecord (m : LocalFileMetadata)
| VString (s : string)
| VNumber (z : Z)
| VNative.

Module Obj.

Definition truthy (v : JSValue) : bool :=
  match v with
  | VRecord _ | VNative => true
  | VString s => negb (bool_decide (s = EmptyString))
  | VNumber z => negb (Z.eqb z 0)
  end.

(** [v || null] *)
Definition or_null (v : option JSValue) : option JSValue :=
  match v with
  | Some x => if truthy x then Some x else None
  | None => None
  end.

(** [v?.revision || 0]: only a record has a [revision]. *)
Definition revisionOf (v : option JSValue) : Z :=
  match v with
  | Some (VRecord m) => JS.num_or (revision m) 0
  | _ => 0
  end.

(** [mtime > v.lastSyncedAt]: false against [undefined]. *)
Definition olderThan (v : JSValue) (mtime : Z) : bool :=
  match v with
  | VRecord m =>
      match lastSyncedAt m with
      | Some t => Z.ltb t mtime
      | None => false
      end
  | _ => false
  end.

(** The property of the characters [s] under the key of the index [i]
    onwards: the key of an index is its decimal form. *)
Fixpoint indexedProperty (s : string) (i : nat) (key : string) : option string :=
  match s with
  | EmptyString => None
  | String c r =>
      if bool_decide (pretty i = key) then Some (String c EmptyString)
      else indexedProperty r (S i) key
  end.

(** The own property [key] of a record. *)
Definition property (m : LocalFileMetadata) (key : string) : option JSValue :=
  if bool_decide (key = "path") then Some (VString (path m))
  else if bool_decide (key = "hash") then VString <$> hash m
  else if bool_decide (key = "size") then VNumber <$> size m
  else if bool_decide (key = "revision") then VNumber <$> revision m
  else if bool_decide (key = "parentRevision") then VNumber <$> parentRevision m
  else if bool_decide (key = "lastSyncedAt") then VNumber <$> lastSyncedAt m
  else if bool_decide (key = "deviceId") then VString <$> deviceId m
  else VString <$> indexedProperty (indexed m) 0 key.

(** The methods of [Object.prototype]. *)
Definition objectPrototypeMethods : list string :=
  ["constructor"; "hasOwnProperty"; "isPrototypeOf"; "propertyIsEnumerable";
   "toLocaleString"; "toString"; "valueOf";
   "__defineGetter__"; "__defineSetter__"; "__lookupGetter__"; "__lookupSetter__"].

(** What an object without own property [key] finds under it, [proto]
    being the record that has replaced its prototype, if any: under
    [__proto__] the prototype itself, through the accessor of
    [Object.prototype] (no record has a property of that name); otherwise
    a property of that record, or else a method of [Object.prototype]. *)
Definition inherited (proto : option LocalFileMetadata) (key : string) : option JSValue :=
  if bool_decide (key = "__proto__")
  then Some (match proto with Some r => VRecord r | None => VNative end)
  else
    match proto ≫= (fun r => property r key) with
    | Some v => Some v
    | None => if bool_decide (key ∈ objectPrototypeMethods) then Some VNative else None
    end.

(** The field [get] of [{ ...current, ...meta }], [given] being the
    field of [meta]. *)
Definition field {A} (current : JSValue) (get : LocalFileMetadata -> option A)
    (given : option A) : option A :=
  match given with
  | Some x => Some x
  | None =>
      match current with
      | VRecord m => get m
      | _ => None
      end
  end.

End Obj.

(** Modelled from the spec: [ConflictInfo] of [types.ts], what a rejected
    upload carries: the server's current revision and the parent revision
    the upload claimed. *)
Record ConflictInfo := {
  currentRevision : Z;
  yourParentRevision : Z
}.

(** Modelled from the spec: [SyncPluginSettings] of [types.ts], of which
    the engine reads the token and the device identifier. *)
Record SyncPluginSettings := {
  token : string;
  settingsDeviceId : string
}.

(** Modelled from the spec: the response of [listFiles],
    [{success, files[] | error}]. *)
Record ListResult := {
  lr_success : bool;
  lr_files : option (list RemoteFile);
  lr_error : option string
}.

(** Modelled from the spec: the response of [uploadFile],
    [{success, file{hash,revision} | error, conflict?}]. *)
Record UploadResult := {
  ur_success : bool;
  ur_file : option RemoteFile;
  ur_error : option string;
  ur_conflict : option ConflictInfo
}.

(** Modelled from the spec: the response of [downloadFile],
    [{success, file{hash,revision,size,parentRevision}, content, isConflict?}]. *)
Record DownloadResult := {
  dr_success : bool;
  dr_file : option RemoteFile;
  dr_content : option string;
  dr_isConflict : bool
}.

(** Modelled from the spec: the response of [deleteFile],
    [{success, conflict?}]. *)
Record DeleteResult := {
  del_success : bool;
  del_conflict : option ConflictInfo
}.

(** Modelled from the spec: the response of [attemptAutoMerge],
    [{success, hasConflict, mergedContent?}]. *)
Record MergeResult := {
  mr_success : bool;
  mr_hasConflict : bool;
  mr_mergedContent : option string
}.

(** The options object of an upload or delete request. *)
Record RequestOptions := {
  o_parentRevision : Z;
  o_deviceId : string
}.

Record MergeRequest := {
  filePath : string;
  ourContent : string;
  ancestorRevision : Z;
  theirRevision : Z
}.

(** A node of the vault: [TFile] with its content and [stat.mtime], or
    [TFolder]. A [TFile] handle of the source is modelled by its path; its
    [stat] is read from the vault when it is used, as the live object's is. *)
Inductive TAbstractFile :=
| TFile (content : string) (mtime : Z)
| TFolder.

(** The calls the engine issues to the transport, in the order of issue
    (most recent first). *)
Inductive Request :=
| ReqList
| ReqUpload (p : string) (content : string) (o : RequestOptions)
| ReqDownload (p : string) (rev : option Z)
| ReqDelete (p : string) (o : RequestOptions)
| ReqMerge (m : MergeRequest).

(** The messages shown through [new Notice(...)]. *)
Inductive Notice :=
| NotAuthenticated                        (* 'Not authenticated. Please configure your API token.' *)
| SyncInProgress                          (* 'Sync already in progress...' *)
| SyncStarting                            (* 'Starting sync...' *)
| SyncCompleted (downloaded uploaded : nat) (* 'Sync completed: n downloaded, m uploaded' *)
| SyncUpToDate                            (* 'Sync completed: Up to date' *)
| SyncFailed (msg : string)               (* 'Sync failed: ...' *)
| ServerMarkedConflicted (p : string)     (* 'Server marked "p" as conflicted.' *)
| DeleteConflict (p : string)             (* 'Conflict when deleting "p"' *)
| ConflictNoInfo (p : string)             (* 'Conflict detected in "p", but no conflict info provided.' *)
| ConflictAutoMerging (p : string)        (* 'Conflict detected in "p". Attempting auto-merge...' *)
| AutoMerged (p : string)                 (* 'Auto-merged "p"' *)
| ConflictError (p : string)              (* 'Error handling conflict for "p"' *)
| ManualRequired (p : string)             (* 'Cannot auto-merge "p". Manual resolution required.' *)
| BackupSaved (p : string).               (* 'Conflict backup saved: p' *)

(** The result of an awaited call of a collaborator: a value, or a
    rejection. *)
Inductive Outcome (A : Type) :=
| Returned (a : A)
| Rejected (msg : string).
Arguments Returned {A} a.
Arguments Rejected {A} msg.

(** The transport. [NetworkClient.ts] is not among the sources at hand: its
    five calls are taken as an oracle over the environment [E], which
    answers each call with a response or a rejection and moves on. *)
Module NetworkClient.
Record t (E : Type) := {
  listFiles : E -> Outcome ListResult * E;
  uploadFile : string -> string -> RequestOptions -> E -> Outcome UploadResult * E;
  downloadFile : string -> option Z -> E -> Outcome DownloadResult * E;
  deleteFile : string -> RequestOptions -> E -> Outcome DeleteResult * E;
  attemptAutoMerge : MergeRequest -> E -> Outcome MergeResult * E
}.
Arguments listFiles {E}.
Arguments uploadFile {E}.
Arguments downloadFile {E}.
Arguments deleteFile {E}.
Arguments attemptAutoMerge {E}.
End NetworkClient.

(** The rest of the host: the clock behind [Date.now()] and [new Date()],
    the conditions under which the file system refuses an operation on a
    path, and the location of [metadata.json]. *)
Module Host.
Record t (E : Type) := {
  now : E -> Z;
  toISOString : Z -> string;
  refuses : E -> string -> bool;
  metadataPath : string
}.
Arguments now {E}.
Arguments toISOString {E}.
Arguments refuses {E}.
Arguments metadataPath {E}.
End Host.

(** ** The state the engine runs in *)

Record World (E : Type) := {
  metadata : gmap string LocalFileMetadata;  (* the own properties of MetadataManager.metadata *)
  prototype : option LocalFileMetadata;      (* its prototype, when a record has replaced Object.prototype *)
  persisted : gmap string LocalFileMetadata; (* the content of metadata.json *)
  vault : gmap string TAbstractFile;         (* app.vault *)
  isSyncing : bool;                          (* SyncManager.isSyncing *)
  settings : SyncPluginSettings;             (* what getSettings() returns *)
  notices : list Notice;                     (* most recent first *)
  console : list string;                     (* console.error, most recent first *)
  requests : list Request;                   (* calls of the transport, most recent first *)
  env : E
}.
Arguments metadata {E}.
Arguments prototype {E}.
Arguments persisted {E}.
Arguments vault {E}.
Arguments isSyncing {E}.
Arguments settings {E}.
Arguments notices {E}.
Arguments console {E}.
Arguments requests {E}.
Arguments env {E}.

(** The result of running a piece of the engine: a value, a thrown error, or
    no result within the recursion budget (see [uploadFile]). *)
Inductive Res (A : Type) :=
| Val (a : A)
| Exn (msg : string)
| OutOfFuel.
Arguments Val {A} a.
Arguments Exn {A} msg.
Arguments OutOfFuel {A}.

Section Engine.

Context {E : Type}.
Variable net : NetworkClient.t E.
Variable host : Host.t E.

(** *** A state and error monad for the awaited code *)

Definition M (A : Type) : Type := World E -> Res A * World E.

Definition ret {A} (a : A) : M A := fun w => (Val a, w).

Definition bind {A B} (m : M A) (k : A -> M B) : M B := fun w =>
  match m w with
  | (Val a, w') => k a w'
  | (Exn e, w') => (Exn e, w')
  | (OutOfFuel, w') => (OutOfFuel, w')
  end.

Definition throw {A} (msg : string) : M A := fun w => (Exn msg, w).

(** [try { m } catch (e) { h e }] *)
Definition try_catch {A} (m : M A) (h : string -> M A) : M A := fun w =>
  match m w with
  | (Exn e, w') => h e w'
  | r => r
  end.

(** [try { m } finally { f }], for an [f] that does not throw. *)
Definition try_finally {A} (m : M A) (f : World E -> World E) : M A := fun w =>
  match m w with
  | (OutOfFuel, w') => (OutOfFuel, w')
  | (r, w') => (r, f w')
  end.

Definition get {A} (f : World E -> A) : M A := fun w => (Val (f w), w).

Definition modify_world (f : World E -> World E) : M unit := fun w => (Val tt, f w).

Definition when (b : bool) (m : M unit) : M unit := if b then m else ret tt.

Notation "'let*' x ':=' m 'in' k" := (bind m (fun x => k))
  (at level 10, x name, m at level 100, k at level 200).
Notation "m ';;;' k" := (bind m (fun _ => k))
  (at level 100, k at level 200, right associativity).

(** *** Updates of the state *)

Definition set_metadata (m : gmap string LocalFileMetadata) (w : World E) : World E :=
  {| metadata := m; prototype := prototype w; persisted := persisted w; vault := vault w;
     isSyncing := isSyncing w; settings := settings w; notices := notices w;
     console := console w; requests := requests w; env := env w |}.

Definition set_prototype (r : option LocalFileMetadata) (w : World E) : World E :=
  {| metadata := metadata w; prototype := r; persisted := persisted w; vault := vault w;
     isSyncing := isSyncing w; settings := settings w; notices := notices w;
     console := console w; requests := requests w; env := env w |}.

Definition set_persisted (m : gmap string LocalFileMetadata) (w : World E) : World E :=
  {| metadata := metadata w; prototype := prototype w; persisted := m; vault := vault w;
     isSyncing := isSyncing w; settings := settings w; notices := notices w;
     console := console w; requests := requests w; env := env w |}.

Definition set_vault (v : gmap string TAbstractFile) (w : World E) : World E :=
  {| metadata := metadata w; prototype := prototype w; persisted := persisted w; vault := v;
     isSyncing := isSyncing w; settings := settings w; notices := notices w;
     console := console w; requests := requests w; env := env w |}.

Definition set_isSyncing (b : bool) (w : World E) : World E :=
  {| metadata := metadata w; prototype := prototype w; persisted := persisted w; vault := vault w;
     isSyncing := b; settings := settings w; notices := notices w;
     console := console w; requests := requests w; env := env w |}.

Definition add_notice (n : Notice) (w : World E) : World E :=
  {| metadata := metadata w; prototype := prototype w; persisted := persisted w; vault := vault w;
     isSyncing := isSyncing w; settings := settings w; notices := n :: notices w;
     console := console w; requests := requests w; env := env w |}.

Definition add_console (s : string) (w : World E) : World E :=
  {| metadata := metadata w; prototype := prototype w; persisted := persisted w; vault := vault w;
     isSyncing := isSyncing w; settings := settings w; notices := notices w;
     console := s :: console w; requests := requests w; env := env w |}.

Definition issue (r : Request) (e : E) (w : World E) : World E :=
  {| metadata := metadata w; prototype := prototype w; persisted := persisted w; vault := vault w;
     isSyncing := isSyncing w; settings := settings w; notices := notices w;
     console := console w; requests := r :: requests w; env := e |}.

(** [new Notice(n)] and [console.error(s)] *)
Definition notice (n : Notice) : M unit := modify_world (add_notice n).
Definition console_error (s : string) : M unit := modify_world (add_console s).

(** [Date.now()] *)
Definition Date_now : M Z := get (fun w => Host.now host (env w)).

(** An awaited call of the transport: the request is issued, the
    environment moves on, and the call returns or rejects. *)
Definition call {A} (r : Request) (f : E -> Outcome A * E) : M A := fun w =>
  match f (env w) with
  | (Returned a, e) => (Val a, issue r e w)
  | (Rejected msg, e) => (Exn msg, issue r e w)
  end.

(** *** The vault *)

(** [file.name]: the last segment of the path. *)
Definition name (p : string) : string := JS.after_last "/" p.

(** [file.extension]: what follows the last dot of the name. *)
Definition extension (p : string) : string :=
  match JS.lastIndexOf "." (name p) with
  | Some _ => JS.after_last "." (name p)
  | None => EmptyString
  end.

(** [file.stat.size] *)
Definition stat_size (w : World E) (p : string) : Z :=
  match vault w !! p with
  | Some (TFile c _) => Z.of_nat (String.length c)
  | _ => 0
  end.

(** [file.stat.mtime] *)
Definition stat_mtime (w : World E) (p : string) : Z :=
  match vault w !! p with
  | Some (TFile _ t) => t
  | _ => 0
  end.

Definition guard_fs (p : string) : M unit := fun w =>
  if Host.refuses host (env w) p then (Exn "EIO", w) else (Val tt, w).

(** [vault.read(file)] *)
Definition vault_read (p : string) : M string :=
  guard_fs p ;;;
  let* f := get (fun w => vault w !! p) in
  match f with
  | Some (TFile c _) => ret c
  | _ => throw "ENOENT"
  end.

(** [vault.modify(file, data)] *)
Definition vault_modify (p : string) (data : string) : M unit :=
  guard_fs p ;;;
  let* f := get (fun w => vault w !! p) in
  match f with
  | Some (TFile _ _) =>
      modify_world (fun w => set_vault (<[p := TFile data (Host.now host (env w))]> (vault w)) w)
  | _ => throw "ENOENT"
  end.

(** [vault.create(path, data)] *)
Definition vault_create (p : string) (data : string) : M unit :=
  guard_fs p ;;;
  let* f := get (fun w => vault w !! p) in
  match f with
  | None =>
      modify_world (fun w => set_vault (<[p := TFile data (Host.now host (env w))]> (vault w)) w)
  | Some _ => throw "File already exists."
  end.

(** [vault.createFolder(path)] *)
Definition vault_createFolder (p : string) : M unit :=
  guard_fs p ;;;
  let* f := get (fun w => vault w !! p) in
  match f with
  | None => modify_world (fun w => set_vault (<[p := TFolder]> (vault w)) w)
  | Some _ => throw "Folder already exists."
  end.

(** [vault.getAbstractFileByPath(path)] *)
Definition getAbstractFileByPath (p : string) : M (option TAbstractFile) :=
  get (fun w => vault w !! p).

Definition is_TFile (f : option TAbstractFile) : bool :=
  match f with Some (TFile _ _) => true | _ => false end.

(** [vault.getFiles()]: the paths of the files of the vault. *)
Definition getFiles (w : World E) : list string :=
  List.filter (fun p => is_TFile (vault w !! p)) (map_to_list (vault w)).*1.


(** *** MetadataManager *)

(** [this.metadata[key]] *)
Definition lookupProperty (w : World E) (key : string) : option JSValue :=
  match metadata w !! key with
  | Some m => Some (VRecord m)
  | None => Obj.inherited (prototype w) key
  end.

(** [this.metadata[key] = r]: an own property is overwritten; without
    one, the key [__proto__] reaches the setter of [Object.prototype],
    which makes [r] the prototype of the object; any other key becomes an
    own property. *)
Definition assign (key : string) (r : LocalFileMetadata) (w : World E) : World E :=
  if bool_decide (key = "__proto__") && negb (bool_decide (is_Some (metadata w !! key)))
  then set_prototype (Some r) w
  else set_metadata (<[key := r]> (metadata w)) w.

(** [delete this.metadata[key]]: only an own property is removed. *)
Definition remove (key : string) (w : World E) : World E :=
  set_metadata (delete key (metadata w)) w.

(** [save()]: [adapter.write(metadataPath, JSON.stringify(metadata))];
    the own properties are what [JSON.stringify] writes. *)
Definition save : M unit :=
  guard_fs (Host.metadataPath host) ;;;
  modify_world (fun w => set_persisted (metadata w) w).

(** [getMetadata(path)]: [this.metadata[path] || null] *)
Definition getMetadata (p : string) : M (option JSValue) :=
  get (fun w => Obj.or_null (lookupProperty w p)).

(** The record [saveMetadata] starts from when [this.metadata[path]] is
    falsy. *)
Definition blank (p : string) : LocalFileMetadata :=
  {| path := p; hash := Some EmptyString; size := Some 0; revision := Some 0;
     parentRevision := Some 0; lastSyncedAt := Some 0; deviceId := None;
     indexed := EmptyString |}.

(** [{ ...current, ...meta, path }]: the spread of a record gives its
    fields, the spread of a string its characters, the spread of a number
    or of a native object nothing. *)
Definition spread (current : JSValue) (meta : PartialMetadata) (p : string)
  : LocalFileMetadata :=
  {| path := p;
     hash := Obj.field current hash (p_hash meta);
     size := Obj.field current size (p_size meta);
     revision := Obj.field current revision (p_revision meta);
     parentRevision := Obj.field current parentRevision (p_parentRevision meta);
     lastSyncedAt := Obj.field current lastSyncedAt (p_lastSyncedAt meta);
     deviceId := Obj.field current deviceId (p_deviceId meta);
     indexed := match current with
                | VRecord m => indexed m
                | VString s => s
                | _ => EmptyString
                end |}.

(** [saveMetadata(path, meta)] *)
Definition saveMetadata (p : string) (meta : PartialMetadata) : M unit :=
  let* current := get (fun w => default (VRecord (blank p))
                                  (Obj.or_null (lookupProperty w p))) in
  modify_world (assign p (spread current meta p)) ;;;
  save.

(** [deleteMetadata(path)] *)
Definition deleteMetadata (p : string) : M unit :=
  let* m := get (fun w => Obj.or_null (lookupProperty w p)) in
  match m with
  | Some _ =>
      modify_world (remove p) ;;;
      save
  | None => ret tt
  end.

(** The partial record without fields. *)
Definition nothing : PartialMetadata :=
  {| p_hash := None; p_size := None; p_revision := None; p_parentRevision := None;
     p_lastSyncedAt := None; p_deviceId := None |}.

(** [{ ...v, path: p }] *)
Definition with_path (v : JSValue) (p : string) : LocalFileMetadata := spread v nothing p.

(** [renameMetadata(oldPath, newPath)] *)
Definition renameMetadata (oldPath newPath : string) : M unit :=
  let* m := get (fun w => Obj.or_null (lookupProperty w oldPath)) in
  match m with
  | Some v =>
      modify_world (assign newPath (with_path v newPath)) ;;;
      modify_world (remove oldPath) ;;;
      save
  | None => ret tt
  end.

(** *** ConflictHandler *)

(** The document written over the local file: the template literal of
    [handleManualConflict] before [.trim()]. *)
Definition conflictTemplate (localContent serverContent backupPath : string) : string :=
  JS.nl +:+ "<<<<<<< LOCAL (Your Version)" +:+ JS.nl
  +:+ localContent +:+ JS.nl
  +:+ "=======" +:+ JS.nl
  +:+ serverContent +:+ JS.nl
  +:+ ">>>>>>> SERVER (Remote Version)" +:+ JS.nl
  +:+ JS.nl
  +:+ "<!-- Conflict detected. Please resolve manually and re-sync. -->" +:+ JS.nl
  +:+ "<!-- A backup of the server version has been saved to: " +:+ backupPath +:+ " -->"
  +:+ JS.nl.

(** [handleManualConflict(file, localContent, serverContent)] *)
Definition handleManualConflict (file localContent serverContent : string) : M unit :=
  notice (ManualRequired file) ;;;
  let* t := Date_now in
  let timestamp := JS.replace_colon_dot (Host.toISOString host t) in
  let conflictFileName := file +:+ ".conflict-" +:+ timestamp +:+ ".md" in
  let* backupPath :=
    try_catch
      (vault_create conflictFileName serverContent ;;; ret conflictFileName)
      (fun _ =>
         let backupPath := "conflict-" +:+ timestamp +:+ "-" +:+ name file in
         vault_create backupPath serverContent ;;; ret backupPath) in
  let markedContent := JS.trim (conflictTemplate localContent serverContent backupPath) in
  vault_modify file markedContent ;;;
  notice (BackupSaved backupPath).

(** [handleConflict(file, conflictData)], for the handler built with the
    callback [onMergeSuccess]. *)
Definition handleConflict (onMergeSuccess : string -> M bool)
    (file : string) (conflictData : UploadResult) : M unit :=
  match ur_conflict conflictData with
  | None => notice (ConflictNoInfo file)
  | Some conflict =>
      notice (ConflictAutoMerging file) ;;;
      try_catch
        (let* serverResponse :=
           call (ReqDownload file (Some (currentRevision conflict)))
                (NetworkClient.downloadFile net file (Some (currentRevision conflict))) in
         let serverContent := JS.str_or (dr_content serverResponse) EmptyString in
         let* ancestorContent :=
           if Z.ltb 0 (yourParentRevision conflict) then
             let* ancestorResponse :=
               call (ReqDownload file (Some (yourParentRevision conflict)))
                    (NetworkClient.downloadFile net file (Some (yourParentRevision conflict))) in
             ret (Some (JS.str_or (dr_content ancestorResponse) EmptyString))
           else ret None in
         let* localContent := vault_read file in
         let* merged :=
           match ancestorContent with
           | Some _ =>
               let request :=
                 {| filePath := file; ourContent := localContent;
                    ancestorRevision := yourParentRevision conflict;
                    theirRevision := currentRevision conflict |} in
               let* mergeResult :=
                 call (ReqMerge request) (NetworkClient.attemptAutoMerge net request) in
               if mr_success mergeResult && negb (mr_hasConflict mergeResult)
                  && JS.truthy_str (mr_mergedContent mergeResult)
               then
                 notice (AutoMerged file) ;;;
                 vault_modify file (default EmptyString (mr_mergedContent mergeResult)) ;;;
                 onMergeSuccess file ;;;
                 ret true
               else ret false
           | None => ret false
           end in
         if merged then ret tt
         else handleManualConflict file localContent serverContent)
        (fun error =>
           console_error ("Error handling conflict: " +:+ error) ;;;
           notice (ConflictError file))
  end.

(** *** SyncManager *)

(** [getSettings().deviceId] *)
Definition getDeviceId : M string := get (fun w => settingsDeviceId (settings w)).

(** [result.error === 'Conflict detected' && result.conflict] *)
Definition isConflictRejection (result : UploadResult) : bool :=
  bool_decide (ur_error result = Some "Conflict detected")
  && bool_decide (is_Some (ur_conflict result)).

(** [uploadFile(file)]. The conflict handler is built with [uploadFile]
    itself as its callback, so a merged file is uploaded again, and again
    for as long as the server rejects and the merge succeeds: [fuel]
    bounds the depth of that recursion. *)
Fixpoint uploadFile (fuel : nat) (file : string) : M bool :=
  match fuel with
  | O => fun w => (OutOfFuel, w)
  | S fuel' =>
      try_catch
        (let* content := vault_read file in
         let* localMeta := getMetadata file in
         let* device := getDeviceId in
         let options :=
           {| o_parentRevision := Obj.revisionOf localMeta;
              o_deviceId := device |} in
         let* result :=
           call (ReqUpload file content options)
                (NetworkClient.uploadFile net file content options) in
         if ur_success result then
           let* fileSize := get (fun w => stat_size w file) in
           let* t := Date_now in
           let* device := getDeviceId in
           saveMetadata file
             {| p_hash := Some (default EmptyString (rf_hash <$> ur_file result));
                p_revision := Some (JS.num_or (ur_file result ≫= rf_revision) 0);
                p_parentRevision := Some (JS.num_or (ur_file result ≫= rf_revision) 0);
                p_size := Some fileSize;
                p_lastSyncedAt := Some t;
                p_deviceId := Some device |} ;;;
           ret true
         else if isConflictRejection result then
           handleConflict (uploadFile fuel') file result ;;;
           ret false
         else
           console_error ("Failed to upload " +:+ file +:+ ": "
                          +:+ default "undefined" (ur_error result)) ;;;
           ret false)
        (fun e =>
           console_error ("Error uploading " +:+ file +:+ ": " +:+ e) ;;;
           ret false)
  end.

(** [downloadFile(path, revision?)] *)
Definition downloadFile (p : string) (rev : option Z) : M bool :=
  try_catch
    (let* result :=
       call (ReqDownload p rev) (NetworkClient.downloadFile net p rev) in
     match dr_success result, dr_file result, dr_content result with
     | true, Some rfile, Some content =>
         when (dr_isConflict result) (notice (ServerMarkedConflicted p)) ;;;
         let* file := getAbstractFileByPath p in
         let folderPath := JS.before_last "/" p in
         let* folder := getAbstractFileByPath folderPath in
         when (negb (bool_decide (folderPath = EmptyString))
               && negb (bool_decide (is_Some folder)))
              (vault_createFolder folderPath) ;;;
         let* file :=
           match file with
           | Some (TFile _ _) => vault_modify p content ;;; ret file
           | Some TFolder => ret file
           | None =>
               vault_create p content ;;;
               getAbstractFileByPath p
           end in
         (if is_TFile file then
            let* t := Date_now in
            let* device := getDeviceId in
            saveMetadata p
              {| p_hash := Some (rf_hash rfile);
                 p_revision := Some (JS.num_or (rf_revision rfile) 0);
                 p_parentRevision :=
                   Some (JS.num_or (rf_parentRevision rfile)
                                   (JS.num_or (rf_revision rfile) 0));
                 p_size := Some (rf_size rfile);
                 p_lastSyncedAt := Some t;
                 p_deviceId := Some device |}
          else ret tt) ;;;
         ret true
     | _, _, _ => ret false
     end)
    (fun e =>
       console_error ("Error downloading " +:+ p +:+ ": " +:+ e) ;;;
       ret false).

(** [deleteFile(path)] *)
Definition deleteFile (p : string) : M bool :=
  try_catch
    (let* localMeta := getMetadata p in
     let* device := getDeviceId in
     let options :=
       {| o_parentRevision := Obj.revisionOf localMeta;
          o_deviceId := device |} in
     let* result :=
       call (ReqDelete p options) (NetworkClient.deleteFile net p options) in
     when (bool_decide (is_Some (del_conflict result))) (notice (DeleteConflict p)) ;;;
     deleteMetadata p ;;;
     ret (del_success result))
    (fun e =>
       console_error ("Error deleting " +:+ p +:+ ": " +:+ e) ;;;
       ret false).

(** [shouldSyncFile(file)] *)
Definition shouldSyncFile (file : string) : bool :=
  let ext := JS.toLowerCase (extension file) in
  bool_decide (ext ∈ ["md"; "txt"; "json"; "css"; "js"; "html"; "xml"; "yaml"; "yml"]).

(** The loop of the downward phase of [syncVault], from the counter
    [downloaded]. *)
Fixpoint downwardSync (remoteFiles : list RemoteFile) (downloaded : nat) : M nat :=
  match remoteFiles with
  | [] => ret downloaded
  | remote :: rest =>
      let* localMeta := getMetadata (rf_path remote) in
      let remoteRev := JS.num_or (rf_revision remote) 0 in
      let localRev := Obj.revisionOf localMeta in
      if negb (bool_decide (is_Some localMeta)) || Z.ltb localRev remoteRev then
        let* success := downloadFile (rf_path remote) (Some remoteRev) in
        downwardSync rest (if success then S downloaded else downloaded)
      else downwardSync rest downloaded
  end.

(** The loop of the upward phase of [syncVault], from the counter
    [uploaded]. *)
Fixpoint upwardSync (fuel : nat) (localFiles : list string) (uploaded : nat) : M nat :=
  match localFiles with
  | [] => ret uploaded
  | file :: rest =>
      let* meta := getMetadata file in
      let* mtime := get (fun w => stat_mtime w file) in
      if match meta with
         | None => true
         | Some v => Obj.olderThan v mtime
         end
      then
        let* result := uploadFile fuel file in
        upwardSync fuel rest (if result then S uploaded else uploaded)
      else upwardSync fuel rest uploaded
  end.

(** The [try] block of [syncVault]; the counters are its result. (The
    source also builds [remoteMap] and looks each local file up in it,
    without using what it finds.) *)
Definition syncPass (fuel : nat) (silent : bool) : M (nat * nat) :=
  let* listResult := call ReqList (NetworkClient.listFiles net) in
  match lr_success listResult, lr_files listResult with
  | true, Some remoteFiles =>
      let* downloaded := downwardSync remoteFiles 0 in
      let* localFiles := get (fun w => List.filter shouldSyncFile (getFiles w)) in
      let* uploaded := upwardSync fuel localFiles 0 in
      when (negb silent)
           (if (0 <? downloaded)%nat || (0 <? uploaded)%nat
            then notice (SyncCompleted downloaded uploaded)
            else notice SyncUpToDate) ;;;
      ret (downloaded, uploaded)
  | _, _ =>
      throw (JS.str_or (lr_error listResult) "Failed to list remote files")
  end.

(** [syncVault(silent)] *)
Definition syncVault (fuel : nat) (silent : bool) : M unit :=
  let* settings := get settings in
  if bool_decide (token settings = EmptyString) then notice NotAuthenticated
  else
    let* syncing := get isSyncing in
    if syncing then notice SyncInProgress
    else
      modify_world (set_isSyncing true) ;;;
      when (negb silent) (notice SyncStarting) ;;;
      try_finally
        (try_catch
           (syncPass fuel silent ;;; ret tt)
           (fun error =>
              console_error ("Sync failed: " +:+ error) ;;;
              notice (SyncFailed error)))
        (set_isSyncing false).

End Engine.


(** ** Concrete hosts and states for the examples *)

Module Scenario.

(** A host whose environment is the clock, in milliseconds. *)
Definition clockHost : Host.t Z :=
  {| Host.now := fun e => e;
     Host.toISOString := fun _ => "2024-05-01T10:20:30.456Z"%string;
     Host.refuses := fun _ _ => false;
     Host.metadataPath := "plugins/honos-sync/metadata.json"%string |}.

(** A transport without state of its own: every call takes a millisecond
    and answers by the given functions. *)
Definition transport
    (listing : Outcome ListResult)
    (onUpload : string -> string -> RequestOptions -> Outcome UploadResult)
    (onDownload : string -> option Z -> Outcome DownloadResult)
    (onDelete : string -> RequestOptions -> Outcome DeleteResult)
    (onMerge : MergeRequest -> Outcome MergeResult) : NetworkClient.t Z :=
  {| NetworkClient.listFiles := fun e => (listing, e + 1);
     NetworkClient.uploadFile := fun p c o e => (onUpload p c o, e + 1);
     NetworkClient.downloadFile := fun p r e => (onDownload p r, e + 1);
     NetworkClient.deleteFile := fun p o e => (onDelete p o, e + 1);
     NetworkClient.attemptAutoMerge := fun m e => (onMerge m, e + 1) |}.

Definition listed (fs : list RemoteFile) : Outcome ListResult :=
  Returned {| lr_success := true; lr_files := Some fs; lr_error := None |}.

Definition descriptor (p : string) (rev parent : Z) : RemoteFile :=
  {| rf_path := p; rf_hash := "h"; rf_revision := Some rev;
     rf_parentRevision := Some parent; rf_size := 6 |}.

(** A server that serves every path at the revision asked for, the
    parent of revision [r] being [r - 1]. *)
Definition serve (p : string) (rev : option Z) : Outcome DownloadResult :=
  Returned {| dr_success := true;
              dr_file := Some (descriptor p (default 1 rev) (default 1 rev - 1));
              dr_content := Some "remote"%string;
              dr_isConflict := false |}.

(** A server that accepts every upload as the revision after the claimed
    parent. *)
Definition accept (p c : string) (o : RequestOptions) : Outcome UploadResult :=
  Returned {| ur_success := true;
              ur_file := Some (descriptor p (o_parentRevision o + 1) (o_parentRevision o));
              ur_error := None;
              ur_conflict := None |}.

(** A server that rejects every upload: its current revision is 5. *)
Definition reject (p c : string) (o : RequestOptions) : Outcome UploadResult :=
  Returned {| ur_success := false;
              ur_file := None;
              ur_error := Some "Conflict detected"%string;
              ur_conflict := Some {| currentRevision := 5;
                                     yourParentRevision := o_parentRevision o |} |}.

(** A server that refuses every upload for lack of space. *)
Definition refuse (p c : string) (o : RequestOptions) : Outcome UploadResult :=
  Returned {| ur_success := false;
              ur_file := None;
              ur_error := Some "Quota exceeded"%string;
              ur_conflict := None |}.

Definition deleted (conflict : option ConflictInfo) (p : string) (o : RequestOptions)
  : Outcome DeleteResult :=
  Returned {| del_success := true; del_conflict := conflict |}.

Definition unmergeable (m : MergeRequest) : Outcome MergeResult :=
  Returned {| mr_success := false; mr_hasConflict := true; mr_mergedContent := None |}.

Definition unreachable {A B : Type} (_ : A) : Outcome B := Rejected "Failed to fetch".
Definition unreachable2 {A B C : Type} (_ : A) (_ : B) : Outcome C := Rejected "Failed to fetch".
Definition unreachable3 {A B C D : Type} (_ : A) (_ : B) (_ : C) : Outcome D :=
  Rejected "Failed to fetch".

Definition settings0 : SyncPluginSettings :=
  {| token := "secret"; settingsDeviceId := "device-1" |}.

(** A state with the given records and vault, at time [1000]. *)
Definition world (m : gmap string LocalFileMetadata) (v : gmap string TAbstractFile)
  : World Z :=
  {| metadata := m; prototype := None; persisted := m; vault := v; isSyncing := false;
     settings := settings0; notices := []; console := []; requests := [];
     env := 1000 |}.

Definition record (p : string) (rev : Z) (syncedAt : Z) : LocalFileMetadata :=
  {| path := p; hash := Some "h"%string; size := Some 5; revision := Some rev;
     parentRevision := Some rev; lastSyncedAt := Some syncedAt;
     deviceId := Some "device-1"%string; indexed := EmptyString |}.


(** A server holding [a.md] at revision 5: it lists it, serves and
    accepts everything, deletes without conflict, merges nothing. *)
Definition server : NetworkClient.t Z :=
  transport (listed [descriptor "a.md" 5 4]) accept serve (deleted None) unmergeable.

(** The same server seen by a client with a stale parent: uploads are
    rejected for a conflict, deletions succeed with a conflict. *)
Definition contended : NetworkClient.t Z :=
  transport (listed [descriptor "a.md" 5 4]) reject serve
            (deleted (Some {| currentRevision := 5; yourParentRevision := 3 |}))
            unmergeable.

(** A server out of space. *)
Definition full : NetworkClient.t Z :=
  transport (listed [descriptor "a.md" 5 4]) refuse serve (deleted None) unmergeable.

(** No connection: every call rejects. *)
Definition offline : NetworkClient.t Z :=
  transport (Rejected "Failed to fetch") unreachable3 unreachable2 unreachable2 unreachable.

(** A server that lists the file [notes]. *)
Definition notesServer : NetworkClient.t Z :=
  transport (listed [descriptor "notes" 5 4]) accept serve (deleted None) unmergeable.

(** A server with nothing listed. *)
Definition emptyServer : NetworkClient.t Z :=
  transport (listed []) accept serve (deleted None) unmergeable.

(** Nothing synced yet, an empty vault. *)
Definition fresh : World Z := world ∅ ∅.

(** [a.md] synced at revision 5 at time 900 and not touched since. *)
Definition synced : World Z :=
  world {[ "a.md"%string := record "a.md" 5 900 ]} {[ "a.md"%string := TFile "local" 800 ]}.

(** [a.md] synced at revision 3 at time 900 and edited at time 950. *)
Definition edited : World Z :=
  world {[ "a.md"%string := record "a.md" 3 900 ]} {[ "a.md"%string := TFile "edited" 950 ]}.

(** A pass is in flight. *)
Definition busy : World Z := set_isSyncing true synced.

(** A pass is in flight and the token has been cleared. *)
Definition busyLoggedOut : World Z :=
  {| metadata := metadata synced; prototype := None; persisted := persisted synced;
     vault := vault synced;
     isSyncing := true;
     settings := {| token := EmptyString; settingsDeviceId := "device-1" |};
     notices := []; console := []; requests := []; env := 1000 |}.

(** A vault with a folder [notes] and nothing synced. *)
Definition withFolder : World Z := world ∅ {[ "notes"%string := TFolder ]}.

(** A new note whose modification time lies after the current time. *)
Definition postdated : World Z := world ∅ {[ "b.md"%string := TFile "draft" 5000 ]}.

(** The response of [contended] to an upload of [a.md] from [edited]. *)
Definition rejection : UploadResult :=
  {| ur_success := false; ur_file := None;
     ur_error := Some "Conflict detected"%string;
     ur_conflict := Some {| currentRevision := 5; yourParentRevision := 0 |} |}.


(** A server with a state: the clock and the revision it holds for each
    file. It lists what it holds, serves the revision asked for, accepts
    an upload whose parent is the revision it holds (0 for a new file) as
    the next revision and rejects any other for a conflict. *)
Record Cloud := {
  clock : Z;
  held : gmap string Z
}.

Definition tick (c : Cloud) : Cloud := {| clock := clock c + 1; held := held c |}.

Definition cloudHost : Host.t Cloud :=
  {| Host.now := clock;
     Host.toISOString := fun _ => "2024-05-01T10:20:30.456Z"%string;
     Host.refuses := fun _ _ => false;
     Host.metadataPath := "plugins/honos-sync/metadata.json"%string |}.

Definition cloudListing (c : Cloud) : list RemoteFile :=
  (fun pr => descriptor pr.1 pr.2 (pr.2 - 1)) <$> map_to_list (held c).

Definition cloudUpload (p : string) (o : RequestOptions) (c : Cloud)
  : Outcome UploadResult * Cloud :=
  let current := default 0 (held c !! p) in
  if Z.eqb (o_parentRevision o) current then
    (Returned {| ur_success := true;
                 ur_file := Some (descriptor p (current + 1) current);
                 ur_error := None; ur_conflict := None |},
     {| clock := clock c + 1; held := <[p := current + 1]> (held c) |})
  else
    (Returned {| ur_success := false; ur_file := None;
                 ur_error := Some "Conflict detected"%string;
                 ur_conflict := Some {| currentRevision := current;
                                        yourParentRevision := o_parentRevision o |} |},
     tick c).

Definition cloud : NetworkClient.t Cloud :=
  {| NetworkClient.listFiles := fun c => (listed (cloudListing c), tick c);
     NetworkClient.uploadFile := fun p _ o c => cloudUpload p o c;
     NetworkClient.downloadFile := fun p r c => (serve p r, tick c);
     NetworkClient.deleteFile := fun p _ c =>
       (Returned {| del_success := true; del_conflict := None |},
        {| clock := clock c + 1; held := delete p (held c) |});
     NetworkClient.attemptAutoMerge := fun m c => (unmergeable m, tick c) |}.

(** A state over the cloud holding [h], at time [1000]. *)
Definition cloudWorld (m : gmap string LocalFileMetadata) (v : gmap string TAbstractFile)
    (h : gmap string Z) : World Cloud :=
  {| metadata := m; prototype := None; persisted := m; vault := v; isSyncing := false;
     settings := settings0; notices := []; console := []; requests := [];
     env := {| clock := 1000; held := h |} |}.

(** The cloud holds [a.md] at revision 5; the vault has a new note. *)
Definition firstSync : World Cloud :=
  cloudWorld ∅ {[ "b.md"%string := TFile "draft" 900 ]} {[ "a.md"%string := 5 ]}.

(** The cloud holds the file [notes]; the vault has a folder [notes]. *)
Definition folderInTheWay : World Cloud :=
  cloudWorld ∅ {[ "notes"%string := TFolder ]} {[ "notes"%string := 5 ]}.

(** The cloud holds nothing; the vault has a note dated after the
    current time. *)
Definition postdatedNote : World Cloud :=
  cloudWorld ∅ {[ "b.md"%string := TFile "draft" 5000 ]} ∅.

(** A host on which no file can be written but [metadata.json]. *)
Definition readOnly : Host.t Z :=
  {| Host.now := fun e => e;
     Host.toISOString := fun _ => "2024-05-01T10:20:30.456Z"%string;
     Host.refuses := fun _ p => negb (String.eqb p "plugins/honos-sync/metadata.json");
     Host.metadataPath := "plugins/honos-sync/metadata.json"%string |}.

(** A server that keeps no hashes: it serves every path at the revision
    asked for, with an empty hash. *)
Definition serveBare (p : string) (rev : option Z) : Outcome DownloadResult :=
  Returned {| dr_success := true;
              dr_file := Some {| rf_path := p; rf_hash := EmptyString;
                                 rf_revision := Some (default 1 rev);
                                 rf_parentRevision := Some (default 1 rev - 1);
                                 rf_size := 6 |};
              dr_content := Some "remote"%string;
              dr_isConflict := false |}.

(** What the archive holds: a file named [hash] at revision 0 and a file
    named [__proto__] at revision 5. *)
Definition archived : gmap string Z :=
  <["hash"%string := 0]> {[ "__proto__"%string := 5 ]}.

(** The archive: it lists the two files, serves them without hash and
    refuses every upload. *)
Definition archive : NetworkClient.t Z :=
  transport (listed [ {| rf_path := "hash"; rf_hash := EmptyString;
                         rf_revision := Some 0; rf_parentRevision := None;
                         rf_size := 6 |};
                      {| rf_path := "__proto__"; rf_hash := EmptyString;
                         rf_revision := Some 5; rf_parentRevision := Some 4;
                         rf_size := 6 |} ])
            refuse serveBare (deleted None) unmergeable.

(** An empty vault and an empty store object whose prototype is the
    record of [__proto__] at revision 4, as an earlier download of that
    file has left it. *)
Definition polluted : World Z :=
  {| metadata := ∅; prototype := Some (record "__proto__" 4 900); persisted := ∅;
     vault := ∅; isSyncing := false; settings := settings0; notices := [];
     console := []; requests := []; env := 1000 |}.

End Scenario.


(** ** Vocabulary of the statements *)

Section Specification.

Context {E : Type}.
Variable net : NetworkClient.t E.
Variable host : Host.t E.

(** What [getMetadata(p)] returns in [w]. *)
Definition served (w : World E) (p : string) : option JSValue :=
  Obj.or_null (lookupProperty w p).

(** The revision the engine reads for [p] in [w]:
    [getMetadata(p)?.revision || 0]. *)
Definition storedRevision (w : World E) (p : string) : Z := Obj.revisionOf (served w p).

(** The request options of an upload or a delete of [p] from [w]. *)
Definition optionsFor (w : World E) (p : string) : RequestOptions :=
  {| o_parentRevision := storedRevision w p;
     o_deviceId := settingsDeviceId (settings w) |}.

(** What [downloadFile] records for the response file [rfile] at time [t]. *)
Definition downloadedMeta (w : World E) (rfile : RemoteFile) (t : Z) : PartialMetadata :=
  {| p_hash := Some (rf_hash rfile);
     p_revision := Some (JS.num_or (rf_revision rfile) 0);
     p_parentRevision :=
       Some (JS.num_or (rf_parentRevision rfile) (JS.num_or (rf_revision rfile) 0));
     p_size := Some (rf_size rfile);
     p_lastSyncedAt := Some t;
     p_deviceId := Some (settingsDeviceId (settings w)) |}.

(** What [uploadFile] records for the response [result] at time [t]. *)
Definition uploadedMeta (w : World E) (file : string) (result : UploadResult) (t : Z)
  : PartialMetadata :=
  {| p_hash := Some (default EmptyString (rf_hash <$> ur_file result));
     p_revision := Some (JS.num_or (ur_file result ≫= rf_revision) 0);
     p_parentRevision := Some (JS.num_or (ur_file result ≫= rf_revision) 0);
     p_size := Some (stat_size w file);
     p_lastSyncedAt := Some t;
     p_deviceId := Some (settingsDeviceId (settings w)) |}.

(** The document a manual resolution leaves in the local file: both
    versions between the conflict delimiters, and a comment naming the
    backup. *)
Definition markedDocument (localContent serverContent backupPath : string) : string :=
  "<<<<<<< LOCAL (Your Version)" +:+ JS.nl
  +:+ localContent +:+ JS.nl
  +:+ "=======" +:+ JS.nl
  +:+ serverContent +:+ JS.nl
  +:+ ">>>>>>> SERVER (Remote Version)" +:+ JS.nl
  +:+ JS.nl
  +:+ "<!-- Conflict detected. Please resolve manually and re-sync. -->" +:+ JS.nl
  +:+ "<!-- A backup of the server version has been saved to: " +:+ backupPath +:+ " -->".

(** The two names [handleManualConflict] tries for the backup at time [t]. *)
Definition conflictFileName (file : string) (t : Z) : string :=
  file +:+ ".conflict-" +:+ JS.replace_colon_dot (Host.toISOString host t) +:+ ".md".

Definition fallbackName (file : string) (t : Z) : string :=
  "conflict-" +:+ JS.replace_colon_dot (Host.toISOString host t) +:+ "-" +:+ name file.

(** The name [backupPath] is the one under which the backup of [file] can
    be created in [w]: the first name when it is free and accepted by the
    file system, the fallback name when the first is not and the fallback
    is. *)
Definition BackupCreatable (w : World E) (file backupPath : string) : Prop :=
  let t := Host.now host (env w) in
  (backupPath = conflictFileName file t
   ∧ Host.refuses host (env w) (conflictFileName file t) = false
   ∧ vault w !! conflictFileName file t = None)
  ∨ (backupPath = fallbackName file t
     ∧ (Host.refuses host (env w) (conflictFileName file t) = true
        ∨ is_Some (vault w !! conflictFileName file t))
     ∧ Host.refuses host (env w) (fallbackName file t) = false
     ∧ vault w !! fallbackName file t = None).

(** [MergeAttemptFails file conflict w localContent serverContent w']: from
    [w], the handler of [conflict] on [file] fetches the server's content,
    reads the local content and reaches [w'] without a merged document,
    because the upload claimed no ancestor or because the merge service
    answers with a failure, a residual conflict or an empty document. *)
Inductive MergeAttemptFails (file : string) (conflict : ConflictInfo) (w : World E)
  : string -> string -> World E -> Prop :=
| NoAncestor serverResponse e1 localContent mtime :
    yourParentRevision conflict ≤ 0 ->
    NetworkClient.downloadFile net file (Some (currentRevision conflict)) (env w)
    = (Returned serverResponse, e1) ->
    vault w !! file = Some (TFile localContent mtime) ->
    Host.refuses host e1 file = false ->
    MergeAttemptFails file conflict w
      localContent (JS.str_or (dr_content serverResponse) EmptyString)
      (issue (ReqDownload file (Some (currentRevision conflict))) e1
         (add_notice (ConflictAutoMerging file) w))
| MergeRefused serverResponse e1 ancestorResponse e2 localContent mtime mergeResult e3 :
    0 < yourParentRevision conflict ->
    NetworkClient.downloadFile net file (Some (currentRevision conflict)) (env w)
    = (Returned serverResponse, e1) ->
    NetworkClient.downloadFile net file (Some (yourParentRevision conflict)) e1
    = (Returned ancestorResponse, e2) ->
    vault w !! file = Some (TFile localContent mtime) ->
    Host.refuses host e2 file = false ->
    let request :=
      {| filePath := file; ourContent := localContent;
         ancestorRevision := yourParentRevision conflict;
         theirRevision := currentRevision conflict |} in
    NetworkClient.attemptAutoMerge net request e2 = (Returned mergeResult, e3) ->
    mr_success mergeResult = false
    ∨ mr_hasConflict mergeResult = true
    ∨ JS.truthy_str (mr_mergedContent mergeResult) = false ->
    MergeAttemptFails file conflict w
      localContent (JS.str_or (dr_content serverResponse) EmptyString)
      (issue (ReqMerge request) e3
         (issue (ReqDownload file (Some (yourParentRevision conflict))) e2
            (issue (ReqDownload file (Some (currentRevision conflict))) e1
               (add_notice (ConflictAutoMerging file) w)))).

(** The number of calls of the transport and of logged errors so far. *)
Definition activity (w : World E) : nat :=
  (length (requests w) + length (console w))%nat.

(** No file of the vault is dated after the current time. *)
Definition Dated (w : World E) : Prop :=
  ∀ p c t, vault w !! p = Some (TFile c t) -> t ≤ Host.now host (env w).

(** The store serves, for every file the server holds, a value read at
    a revision not below the server's, [view] giving the revisions the
    server holds: the downward loop downloads none of them. *)
Definition Covered (view : E -> gmap string Z) (w : World E) : Prop :=
  ∀ p r, view (env w) !! p = Some r ->
         is_Some (served w p) ∧ r ≤ storedRevision w p.

(** The store serves, for every file of [files], a value that the
    upward loop does not find older than the file. *)
Definition Settled (files : list string) (w : World E) : Prop :=
  ∀ p, p ∈ files ->
       ∃ v, served w p = Some v ∧ Obj.olderThan v (stat_mtime w p) = false.

(** [Busy m]: running [m] never lowers the activity. *)
Definition Busy {A} (m : @M E A) : Prop :=
  ∀ w r w', m w = (r, w') -> (activity w ≤ activity w')%nat.

(** [Within m1 m2]: whatever [m1] returns or throws, [m2] does too. *)
Definition Within {A} (m1 m2 : @M E A) : Prop :=
  ∀ w r w', m1 w = (r, w') -> r ≠ OutOfFuel -> m2 w = (r, w').

(** [Coherent view]: the transport behaves as a server that holds the
    revisions [view]: the listing reports every file it holds, at the
    revision it holds; a download changes nothing on the server and
    answers with the revision asked for; an accepted upload leaves the
    server holding the revision it reports; and the clock does not run
    backwards over a call. *)
Record Coherent (view : E -> gmap string Z) : Prop := {
  list_reports_view : ∀ e res e' fs,
    NetworkClient.listFiles net e = (Returned res, e') ->
    lr_success res = true -> lr_files res = Some fs ->
    view e' = view e
    ∧ (∀ f, f ∈ fs -> view e !! rf_path f = Some (JS.num_or (rf_revision f) 0))
    ∧ (∀ p, is_Some (view e !! p) -> ∃ f, f ∈ fs ∧ rf_path f = p);
  download_keeps_view : ∀ p rev e o e',
    NetworkClient.downloadFile net p rev e = (o, e') -> view e' = view e;
  download_answers_request : ∀ p r e res e' f,
    NetworkClient.downloadFile net p (Some r) e = (Returned res, e') ->
    dr_success res = true -> dr_file res = Some f ->
    JS.num_or (rf_revision f) 0 = r;
  upload_updates_view : ∀ p c o e res e',
    NetworkClient.uploadFile net p c o e = (Returned res, e') ->
    ur_success res = true ->
    view e' = <[p := JS.num_or (ur_file res ≫= rf_revision) 0]> (view e);
  clock_after_list : ∀ e o e',
    NetworkClient.listFiles net e = (o, e') -> Host.now host e ≤ Host.now host e';
  clock_after_download : ∀ p rev e o e',
    NetworkClient.downloadFile net p rev e = (o, e') ->
    Host.now host e ≤ Host.now host e';
  clock_after_upload : ∀ p c o e res e',
    NetworkClient.uploadFile net p c o e = (res, e') ->
    Host.now host e ≤ Host.now host e'
}.

(** The test of the downward loop on what the store serves for a
    descriptor at revision [remoteRev]. *)
Definition downloadDue (localMeta : option JSValue) (remoteRev : Z) : bool :=
  negb (bool_decide (is_Some localMeta)) || Z.ltb (Obj.revisionOf localMeta) remoteRev.

(** The notice of a call of [syncVault] that finds the flag set. *)
Definition busyNotice (w : World E) : Notice :=
  if bool_decide (token (settings w) = EmptyString) then NotAuthenticated
  else SyncInProgress.

(** The state in which [syncVault] enters its [try] block. *)
Definition started (silent : bool) (w : World E) : World E :=
  if silent then set_isSyncing true w
  else add_notice SyncStarting (set_isSyncing true w).

End Specification.


(** ** The rename handler *)

Section Handlers.

Context {E : Type}.
Variable net : NetworkClient.t E.
Variable host : Host.t E.

(** The handler of the vault's [rename] event in [main.ts], for the
    renamed entry [file] (a [TFile] when [isFile]) and its previous path.
    What it writes with [console.log] is not recorded. *)
Definition onRename (fuel : nat) (isFile : bool) (file oldPath : string) : M unit :=
  bind (get settings) (fun s =>
    if negb (bool_decide (token s = EmptyString)) && isFile then
      bind (deleteFile net host oldPath) (fun _ =>
      bind (uploadFile net host fuel file) (fun _ =>
      renameMetadata host oldPath file))
    else ret tt).

(** *** Vocabulary of the further statements *)

(** [Steps R m]: every run of [m] relates the state it starts from to the
    state it ends in by [R]. *)
Definition Steps {A} (R : World E -> World E -> Prop) (m : @M E A) : Prop :=
  ∀ w r w', m w = (r, w') -> R w w'.

(** The file a call of the transport made while uploading is about: the
    upload, a download of the conflict handler, or its merge. *)
Definition uploading (r : Request) : option string :=
  match r with
  | ReqUpload p _ _ | ReqDownload p _ => Some p
  | ReqMerge m => Some (filePath m)
  | ReqList | ReqDelete _ _ => None
  end.

(** Every record the store object has as a property of its own is stored
    under its own path. *)
Definition Keyed (w : World E) : Prop :=
  ∀ p m, metadata w !! p = Some m -> path m = p.

(** The file [metadata.json] holds the records the store object has as
    properties of its own, which is what [save] writes. *)
Definition Flushed (w : World E) : Prop := persisted w = metadata w.

(** [w'] has every entry of the vault of [w], the folders still folders. *)
Definition VaultKept (w w' : World E) : Prop :=
  ∀ p, (is_Some (vault w !! p) -> is_Some (vault w' !! p))
       ∧ (vault w !! p = Some TFolder -> vault w' !! p = Some TFolder).

(** [w'] has the calls of [w] and, after them, calls that satisfy [Q]. *)
Definition Asked (Q : Request -> Prop) (w w' : World E) : Prop :=
  ∃ l, requests w' = l ++ requests w ∧ Forall Q l.

(** [w'] has the records of [w] but for the paths that satisfy [P], and
    the prototype of the store object of [w] unless [__proto__] is one of
    them. *)
Definition RecordsKept (P : string -> Prop) (w w' : World E) : Prop :=
  (∀ q, ¬ P q -> metadata w' !! q = metadata w !! q)
  ∧ (¬ P "__proto__"%string -> prototype w' = prototype w).

(** The request for a merge the conflict handler sends for [file]. *)
Definition mergeRequestOf (file localContent : string) (conflict : ConflictInfo)
  : MergeRequest :=
  {| filePath := file; ourContent := localContent;
     ancestorRevision := yourParentRevision conflict;
     theirRevision := currentRevision conflict |}.

(** The state in which the conflict handler calls back after a
    successful merge: the two downloads and the merge have been asked at
    the environments [e1], [e2], [e3], and the merged document is
    written. *)
Definition merged_state (file localContent : string) (conflict : ConflictInfo)
    (merged : string) (e1 e2 e3 : E) (w : World E) : World E :=
  set_vault (<[file := TFile merged (Host.now host e3)]> (vault w))
    (add_notice (AutoMerged file)
       (issue (ReqMerge (mergeRequestOf file localContent conflict)) e3
          (issue (ReqDownload file (Some (yourParentRevision conflict))) e2
             (issue (ReqDownload file (Some (currentRevision conflict))) e1
                (add_notice (ConflictAutoMerging file) w))))).

(** [Keyed] carried from a state to the next. *)
Definition KeyedStep (w w' : World E) : Prop := Keyed w -> Keyed w'.

(** What a pass may ask of the server: the listing, downloads, and
    uploads and merges of files with an extension of the list; never a
    deletion. *)
Definition PassRequest (r : Request) : Prop :=
  match r with
  | ReqList | ReqDownload _ _ => True
  | ReqUpload p _ _ => shouldSyncFile p = true
  | ReqMerge m => shouldSyncFile (filePath m) = true
  | ReqDelete _ _ => False
  end.

(** The store, in memory (the object and its prototype) and on disk, is
    the same in both states. *)
Definition StoreKept (w w' : World E) : Prop :=
  metadata w' = metadata w ∧ prototype w' = prototype w ∧ persisted w' = persisted w.

(** The download the downward phase issues for a descriptor. *)
Definition downloadOf (f : RemoteFile) : Request :=
  ReqDownload (rf_path f) (Some (JS.num_or (rf_revision f) 0)).

End Handlers.

(** ** Further transports and states for the examples *)

Module Cases.

Import Scenario.

(** A merge service that always returns a merged document. *)
Definition mergeable (m : MergeRequest) : Outcome MergeResult :=
  Returned {| mr_success := true; mr_hasConflict := false;
              mr_mergedContent := Some "merged"%string |}.

(** A server holding [a.md] at revision 5 that rejects every upload for a
    conflict and merges every time. *)
Definition merging : NetworkClient.t Z :=
  transport (listed [descriptor "a.md" 5 4]) reject serve (deleted None) mergeable.

(** A server on which every deletion fails for lack of a connection, and
    which accepts uploads. *)
Definition undeletable : NetworkClient.t Z :=
  transport (listed [descriptor "a.md" 5 4]) accept serve unreachable2 unmergeable.

(** The file [old.md], synced at revision 5, has just been renamed to
    [new.md] in the vault. *)
Definition renamed : World Z :=
  world {[ "old.md"%string := record "old.md" 5 900 ]}
        {[ "new.md"%string := TFile "local" 800 ]}.

(** The rejection by [merging] of an upload that claims revision 3. *)
Definition staleRejection : UploadResult :=
  {| ur_success := false; ur_file := None;
     ur_error := Some "Conflict detected"%string;
     ur_conflict := Some {| currentRevision := 5; yourParentRevision := 3 |} |}.

(** The host of the scenarios with a metadata file that cannot be
    written. *)
Definition lockedStore : Host.t Z :=
  {| Host.now := fun e => e;
     Host.toISOString := fun _ => "2024-05-01T10:20:30.456Z"%string;
     Host.refuses := fun _ p => String.eqb p "plugins/honos-sync/metadata.json";
     Host.metadataPath := "plugins/honos-sync/metadata.json"%string |}.

(** A partial record that sets the revision only. *)
Definition revisionOnly (rev : Z) : PartialMetadata :=
  {| p_hash := None; p_size := None; p_revision := Some rev;
     p_parentRevision := None; p_lastSyncedAt := None; p_deviceId := None |}.

End Cases.

(** ** Properties *)

(** Unfolding of the monad and of the primitives, for the proofs by cases. *)
Ltac munfold :=
  unfold saveMetadata, deleteMetadata, save, getMetadata, vault_read, vault_modify,
    vault_create, vault_createFolder, getAbstractFileByPath, guard_fs, Date_now,
    getDeviceId, notice, console_error, call, when, try_catch, try_finally,
    bind, ret, throw, get, modify_world in *.

Ltac mrun := repeat (munfold; simpl in *; simplify_eq; try case_match).

Ltac wstep :=
  cbn [env vault metadata prototype persisted requests notices console isSyncing settings
       issue add_notice add_console set_vault set_metadata set_prototype set_persisted
       set_isSyncing fst snd].

Section Store.

Context {E : Type}.
Implicit Types w : World E.

(** *** The store object: reading after writing *)

(** An assignment and a removal touch the store object only. *)
Lemma assign_rest p r w :
  vault (assign p r w) = vault w ∧ env (assign p r w) = env w
  ∧ requests (assign p r w) = requests w ∧ notices (assign p r w) = notices w
  ∧ console (assign p r w) = console w ∧ settings (assign p r w) = settings w
  ∧ isSyncing (assign p r w) = isSyncing w ∧ persisted (assign p r w) = persisted w.
Proof. unfold assign. by case_match. Qed.

Lemma vault_assign p r w : vault (assign p r w) = vault w.
Proof. apply assign_rest. Qed.
Lemma env_assign p r w : env (assign p r w) = env w.
Proof. apply assign_rest. Qed.
Lemma requests_assign p r w : requests (assign p r w) = requests w.
Proof. apply assign_rest. Qed.
Lemma notices_assign p r w : notices (assign p r w) = notices w.
Proof. apply assign_rest. Qed.
Lemma console_assign p r w : console (assign p r w) = console w.
Proof. apply assign_rest. Qed.
Lemma settings_assign p r w : settings (assign p r w) = settings w.
Proof. apply assign_rest. Qed.
Lemma isSyncing_assign p r w : isSyncing (assign p r w) = isSyncing w.
Proof. apply assign_rest. Qed.
Lemma persisted_assign p r w : persisted (assign p r w) = persisted w.
Proof. apply assign_rest. Qed.

(** An assignment depends on the store object only. *)
Lemma assign_ext p r w1 w2 :
  metadata w1 = metadata w2 -> prototype w1 = prototype w2 ->
  metadata (assign p r w1) = metadata (assign p r w2)
  ∧ prototype (assign p r w1) = prototype (assign p r w2).
Proof. unfold assign. intros Hm Hp. rewrite Hm. case_match; simpl; by rewrite ?Hm, ?Hp. Qed.

(** Under any key but [__proto__], and under [__proto__] when the object
    has it as a property of its own, the record becomes a property of the
    object. *)
Lemma assign_own p r w :
  p ≠ "__proto__"%string ∨ is_Some (metadata w !! p) ->
  assign p r w = set_metadata (<[p := r]> (metadata w)) w.
Proof.
  intros H. unfold assign.
  destruct (bool_decide (p = "__proto__"%string)) eqn:Hp; [|done].
  apply bool_decide_eq_true in Hp. destruct H as [H|H]; [done|].
  by rewrite (bool_decide_eq_true_2 _ H).
Qed.

(** Under [__proto__], without such a property, it becomes the prototype. *)
Lemma assign_proto r w :
  metadata w !! "__proto__"%string = None ->
  assign "__proto__" r w = set_prototype (Some r) w.
Proof.
  intros H. unfold assign.
  rewrite (bool_decide_eq_true_2 ("__proto__"%string = "__proto__"%string)) by done.
  rewrite (bool_decide_eq_false_2 (is_Some (metadata w !! "__proto__"%string)))
    by (rewrite H; by intros [? ?]).
  done.
Qed.

Lemma assign_cases p r w :
  (assign p r w = set_metadata (<[p := r]> (metadata w)) w
   ∧ (p ≠ "__proto__"%string ∨ is_Some (metadata w !! p)))
  ∨ (assign p r w = set_prototype (Some r) w
     ∧ p = "__proto__"%string ∧ metadata w !! p = None).
Proof.
  destruct (decide (p = "__proto__"%string)) as [-> |Hne].
  - destruct (metadata w !! "__proto__"%string) as [own|] eqn:Hown.
    + assert (is_Some (metadata w !! "__proto__"%string)) by (rewrite Hown; eauto).
      left. split; [|by right]. apply assign_own. by right.
    + right. split; [|done]. by apply assign_proto.
  - left. split; [|by left]. apply assign_own. by left.
Qed.

(** The properties of the object proper under the other keys stay. *)
Lemma metadata_assign_ne p r w q :
  q ≠ p -> metadata (assign p r w) !! q = metadata w !! q.
Proof.
  intros Hne. destruct (assign_cases p r w) as [[-> _]|[-> _]]; simpl; [|done].
  by rewrite lookup_insert_ne.
Qed.

Lemma prototype_assign p r w :
  p ≠ "__proto__"%string ∨ is_Some (metadata w !! p) ->
  prototype (assign p r w) = prototype w.
Proof. intros H. by rewrite assign_own. Qed.

(** What is read under a key is what was assigned to it. *)
Lemma lookupProperty_assign p r w : lookupProperty (assign p r w) p = Some (VRecord r).
Proof.
  destruct (assign_cases p r w) as [[-> _]|(-> & -> & Hown)]; unfold lookupProperty; simpl.
  - by rewrite lookup_insert_eq.
  - by rewrite Hown.
Qed.

Lemma lookupProperty_ext w1 w2 q :
  metadata w1 !! q = metadata w2 !! q -> prototype w1 = prototype w2 ->
  lookupProperty w1 q = lookupProperty w2 q.
Proof. unfold lookupProperty. by intros -> ->. Qed.

Lemma lookupProperty_own w q m :
  metadata w !! q = Some m -> lookupProperty w q = Some (VRecord m).
Proof. unfold lookupProperty. by intros ->. Qed.

(** What is read under another key stays, unless the prototype of the
    object was replaced. *)
Lemma lookupProperty_assign_ne p r w q :
  q ≠ p ->
  p ≠ "__proto__"%string ∨ is_Some (metadata w !! p) ∨ is_Some (metadata w !! q) ->
  lookupProperty (assign p r w) q = lookupProperty w q.
Proof.
  intros Hne H. destruct (assign_cases p r w) as [[-> _]|(-> & -> & Hown)].
  - apply lookupProperty_ext; simpl; [by rewrite lookup_insert_ne|done].
  - destruct H as [H|[H|[m H]]]; [done|by rewrite Hown in H; destruct H|].
    unfold lookupProperty. simpl. by rewrite H.
Qed.

Lemma remove_rest p w :
  vault (remove p w) = vault w ∧ env (remove p w) = env w
  ∧ requests (remove p w) = requests w ∧ notices (remove p w) = notices w
  ∧ console (remove p w) = console w ∧ settings (remove p w) = settings w
  ∧ isSyncing (remove p w) = isSyncing w ∧ persisted (remove p w) = persisted w
  ∧ prototype (remove p w) = prototype w.
Proof. done. Qed.

(** After a removal the key reads what the object inherits. *)
Lemma lookupProperty_remove p w :
  lookupProperty (remove p w) p = Obj.inherited (prototype w) p.
Proof. unfold lookupProperty. simpl. by rewrite lookup_delete_eq. Qed.

Lemma lookupProperty_remove_ne p w q :
  q ≠ p -> lookupProperty (remove p w) q = lookupProperty w q.
Proof. intros. unfold lookupProperty. simpl. by rewrite lookup_delete_ne. Qed.

(** A record is truthy. *)
Lemma or_null_record m : Obj.or_null (Some (VRecord m)) = Some (VRecord m).
Proof. done. Qed.

(** When [this.metadata[p]] is falsy the object has no property [p] of
    its own. *)
Lemma or_null_none_own w p :
  Obj.or_null (lookupProperty w p) = None -> metadata w !! p = None.
Proof. unfold lookupProperty. by destruct (metadata w !! p). Qed.

End Store.

Ltac store :=
  repeat (progress (simpl in *;
    rewrite ?vault_assign, ?env_assign, ?requests_assign, ?notices_assign, ?console_assign,
      ?settings_assign, ?isSyncing_assign, ?persisted_assign in * )).

Section Properties.

Context {E : Type}.
Variable net : NetworkClient.t E.
Variable host : Host.t E.

Lemma served_ext (w1 w2 : World E) q :
  metadata w1 !! q = metadata w2 !! q -> prototype w1 = prototype w2 ->
  served w1 q = served w2 q.
Proof. intros. unfold served. by rewrite (lookupProperty_ext w1 w2). Qed.

Lemma served_own (w : World E) q m :
  metadata w !! q = Some m -> served w q = Some (VRecord m).
Proof. intros. unfold served. by rewrite (lookupProperty_own _ _ m). Qed.

Lemma served_assign p r (w : World E) : served (assign p r w) p = Some (VRecord r).
Proof. unfold served. by rewrite lookupProperty_assign. Qed.

Lemma served_assign_ne p r (w : World E) q :
  q ≠ p ->
  p ≠ "__proto__"%string ∨ is_Some (metadata w !! p) ∨ is_Some (metadata w !! q) ->
  served (assign p r w) q = served w q.
Proof. intros. unfold served. by rewrite lookupProperty_assign_ne. Qed.

Lemma served_none_own (w : World E) p : served w p = None -> metadata w !! p = None.
Proof. apply or_null_none_own. Qed.

(** *** The single-file operations, case by case *)

(** [saveMetadata], step by step. *)
Lemma saveMetadata_run p meta (w : World E) :
  let ws := assign p (spread (default (VRecord (blank p)) (served w p)) meta p) w in
  saveMetadata host p meta w
  = if Host.refuses host (env w) (Host.metadataPath host)
    then (Exn "EIO"%string, ws)
    else (Val tt, set_persisted (metadata ws) ws).
Proof.
  intros ws. unfold saveMetadata, save, guard_fs, bind, get, modify_world, served in *.
  fold ws. replace (env ws) with (env w) by (symmetry; apply env_assign).
  by destruct (Host.refuses host (env w) (Host.metadataPath host)).
Qed.

(** [downloadFile] always returns: it issues its one request, touches the
    record of no other path, removes no folder and changes no file but
    its own; when it returns true, the server's response was complete and
    either the path is a folder and the store is as before, or the file
    and its record are written. *)
Lemma downloadFile_spec p rev w :
  ∃ b w', downloadFile net host p rev w = (Val b, w')
    ∧ requests w' = ReqDownload p rev :: requests w
    ∧ env w' = (NetworkClient.downloadFile net p rev (env w)).2
    ∧ settings w' = settings w ∧ isSyncing w' = isSyncing w
    ∧ (console w' = console w ∨ ∃ s, console w' = s :: console w)
    ∧ (∀ q, q ≠ p -> metadata w' !! q = metadata w !! q)
    ∧ (p ≠ "__proto__"%string ∨ is_Some (metadata w !! p) -> prototype w' = prototype w)
    ∧ (∀ q, vault w !! q = Some TFolder -> vault w' !! q = Some TFolder)
    ∧ (∀ q c t, vault w' !! q = Some (TFile c t) ->
         vault w !! q = Some (TFile c t) ∨ (q = p ∧ t = Host.now host (env w')))
    ∧ (b = true ->
        ∃ result rfile content,
          (NetworkClient.downloadFile net p rev (env w)).1 = Returned result
          ∧ dr_success result = true ∧ dr_file result = Some rfile
          ∧ dr_content result = Some content
          ∧ console w' = console w
          ∧ ((vault w !! p = Some TFolder ∧ metadata w' = metadata w
              ∧ prototype w' = prototype w ∧ persisted w' = persisted w)
             ∨ (vault w !! p ≠ Some TFolder
                ∧ vault w' !! p = Some (TFile content (Host.now host (env w')))
                ∧ let ws := assign p (spread (default (VRecord (blank p)) (served w p))
                                        (downloadedMeta w rfile (Host.now host (env w'))) p) w in
                  metadata w' = metadata ws ∧ prototype w' = prototype ws
                  ∧ persisted w' = metadata w'))).
Proof.
  unfold downloadFile, downloadedMeta. munfold.
  destruct (NetworkClient.downloadFile net p rev (env w)) as [[result|msg] e'] eqn:Hnet;
    simpl.
  2: { eexists _, _; split_and!; try reflexivity; eauto; discriminate. }
  destruct (dr_success result) eqn:Hs;
    [|eexists _, _; split_and!; try reflexivity; eauto; discriminate].
  destruct (dr_file result) as [rfile|] eqn:Hf;
    [|eexists _, _; split_and!; try reflexivity; eauto; discriminate].
  destruct (dr_content result) as [content|] eqn:Hc;
    [|eexists _, _; split_and!; try reflexivity; eauto; discriminate].
  mrun.
  all: try (rewrite lookup_insert_eq in *; simpl in *; discriminate).
  all: eexists _, _; split_and!; try reflexivity; store; eauto; try discriminate.
  all: try (intros q Hq; by rewrite metadata_assign_ne).
  all: try (intros Hown; by rewrite prototype_assign).
  all: try (intros q Hq; rewrite !lookup_insert; repeat case_decide; congruence).
  all: try (intros ? ? ?; rewrite !lookup_insert; repeat case_decide;
            intros; simplify_eq; eauto).
  all: intros _; exists result, rfile, content; split_and!; try done.
  all: try (left; split_and!; [assumption|reflexivity..]).
  all: right; split_and!.
  all: try congruence.
  all: try (store; by rewrite lookup_insert_eq).
  all: try match goal with
           | |- metadata (assign _ ?r ?W) = _ =>
               exact (proj1 (assign_ext p r W w eq_refl eq_refl))
           | |- prototype (assign _ ?r ?W) = _ =>
               exact (proj2 (assign_ext p r W w eq_refl eq_refl))
           end.
Qed.

(** [uploadFile] throws nothing. *)
Lemma uploadFile_no_exn fuel file w msg w' :
  uploadFile net host fuel file w ≠ (Exn msg, w').
Proof.
  destruct fuel as [|fuel]; simpl; [discriminate|].
  unfold try_catch.
  match goal with |- context [match ?X with _ => _ end] => destruct X as [[?|?|] ?] end;
    try discriminate.
Qed.

(** An upload that returns true: the file was read, the server accepted
    it, and the state is the one after the request with the new record
    assigned and the store written. *)
Lemma uploadFile_true fuel file w w' :
  uploadFile net host fuel file w = (Val true, w') ->
  ∃ content mt result e',
    vault w !! file = Some (TFile content mt)
    ∧ Host.refuses host (env w) file = false
    ∧ NetworkClient.uploadFile net file content (optionsFor w file) (env w)
      = (Returned result, e')
    ∧ ur_success result = true
    ∧ w' = let ws := assign file
                       (spread (default (VRecord (blank file)) (served w file))
                          (uploadedMeta w file result (Host.now host e')) file)
                       (issue (ReqUpload file content (optionsFor w file)) e' w) in
           set_persisted (metadata ws) ws.
Proof.
  destruct fuel as [|fuel]; simpl; [discriminate|].
  unfold optionsFor, storedRevision, served, uploadedMeta, stat_size.
  intros H. mrun.
  all: eexists _, _, _, _; split_and!; eauto.
Qed.

Lemma deleteFile_total p w :
  ∃ b w', deleteFile net host p w = (Val b, w').
Proof. unfold deleteFile. mrun; eauto. Qed.

(** *** The downward loop *)

Lemma downloadDue_spec localMeta remoteRev :
  downloadDue localMeta remoteRev = true
  ↔ localMeta = None ∨ Obj.revisionOf localMeta < remoteRev.
Proof.
  unfold downloadDue. rewrite orb_true_iff, negb_true_iff, bool_decide_eq_false, Z.ltb_lt.
  split; (intros [H|H]; [left|by right]).
  - destruct localMeta; [|done]. destruct H. eauto.
  - subst. by intros [? ?].
Qed.

Lemma downloadDue_false localMeta remoteRev :
  downloadDue localMeta remoteRev = false
  ↔ is_Some localMeta ∧ remoteRev ≤ Obj.revisionOf localMeta.
Proof.
  unfold downloadDue. rewrite orb_false_iff, negb_false_iff, bool_decide_eq_true, Z.ltb_ge.
  done.
Qed.

Lemma downwardSync_cons remote rest n w :
  downwardSync net host (remote :: rest) n w
  = if downloadDue (served w (rf_path remote)) (JS.num_or (rf_revision remote) 0)
    then bind (downloadFile net host (rf_path remote)
                 (Some (JS.num_or (rf_revision remote) 0)))
           (fun success =>
              downwardSync net host rest (if success then S n else n)) w
    else downwardSync net host rest n w.
Proof.
  unfold downloadDue, served. simpl. unfold bind at 1, getMetadata, get.
  by destruct (_ || _).
Qed.

Lemma downwardSync_total remoteFiles : ∀ n w,
  ∃ n' w', downwardSync net host remoteFiles n w = (Val n', w').
Proof.
  induction remoteFiles as [|remote rest IH]; intros n w.
  - simpl. unfold ret; eauto.
  - rewrite downwardSync_cons. case_match; [|apply IH].
    unfold bind.
    destruct (downloadFile_spec (rf_path remote)
                (Some (JS.num_or (rf_revision remote) 0)) w) as (b & w1 & -> & _).
    apply IH.
Qed.

Lemma downwardSync_app pre post : ∀ n w n1 w1,
  downwardSync net host pre n w = (Val n1, w1) ->
  downwardSync net host (pre ++ post) n w = downwardSync net host post n1 w1.
Proof.
  induction pre as [|remote rest IH]; intros n w n1 w1.
  - simpl. unfold ret. by intros [= -> ->].
  - rewrite <- app_comm_cons, !downwardSync_cons. case_match; [|apply IH].
    unfold bind.
    destruct (downloadFile_spec (rf_path remote)
                (Some (JS.num_or (rf_revision remote) 0)) w) as (b & w2 & -> & _).
    apply IH.
Qed.

(** X24. In the downward loop a download of a remote descriptor is
    requested exactly when, at the moment the loop reaches the descriptor,
    [getMetadata] returns null for its path or what it returns is read at
    a revision below the remote revision, a value that is not a record
    being read at revision 0; otherwise the iteration changes nothing. In
    particular an equal revision requests no download, whatever the
    hashes are. *)
Theorem downward_download_served pre remote post n w :
  let remoteRev := JS.num_or (rf_revision remote) 0 in
  ∃ n1 w1 n2 w2,
    downwardSync net host pre n w = (Val n1, w1)
    ∧ downwardSync net host [remote] n1 w1 = (Val n2, w2)
    ∧ downwardSync net host (pre ++ remote :: post) n w = downwardSync net host post n2 w2
    ∧ ((served w1 (rf_path remote) = None ∨ storedRevision w1 (rf_path remote) < remoteRev)
       ↔ requests w2 = ReqDownload (rf_path remote) (Some remoteRev) :: requests w1)
    ∧ ((is_Some (served w1 (rf_path remote))
        ∧ remoteRev ≤ storedRevision w1 (rf_path remote))
       ↔ requests w2 = requests w1)
    ∧ (is_Some (served w1 (rf_path remote)) ->
       remoteRev ≤ storedRevision w1 (rf_path remote) -> w2 = w1 ∧ n2 = n1).
Proof.
  intros remoteRev.
  destruct (downwardSync_total pre n w) as (n1 & w1 & Hpre).
  destruct (downwardSync_total [remote] n1 w1) as (n2 & w2 & Hone).
  exists n1, w1, n2, w2. split; [done|]. split; [done|]. split.
  { rewrite (downwardSync_app pre (remote :: post) _ _ _ _ Hpre).
    change (remote :: post) with ([remote] ++ post).
    by rewrite (downwardSync_app [remote] post _ _ _ _ Hone). }
  revert Hone. rewrite downwardSync_cons. fold remoteRev. unfold storedRevision.
  destruct (downloadDue (served w1 (rf_path remote)) remoteRev) eqn:Hdue.
  - pose proof (proj1 (downloadDue_spec _ _) Hdue) as Hyes.
    unfold bind.
    destruct (downloadFile_spec (rf_path remote) (Some remoteRev) w1)
      as (b & w3 & -> & Hreq & _).
    simpl. unfold ret. intros [= <- <-]. split_and!.
    + done.
    + rewrite Hreq. split.
      * intros [Hsome Hle]. destruct Hyes as [Hnone|Hlt]; [|lia].
        rewrite Hnone in Hsome. by destruct Hsome.
      * intros Heq. apply (f_equal length) in Heq. simpl in Heq. lia.
    + intros Hsome Hle. destruct Hyes as [Hnone|Hlt]; [|lia].
      rewrite Hnone in Hsome. by destruct Hsome.
  - pose proof (proj1 (downloadDue_false _ _) Hdue) as [Hsome Hle].
    simpl. unfold ret. intros [= <- <-]. split_and!.
    + split.
      * intros [Hnone|Hlt]; [|lia]. rewrite Hnone in Hsome. by destruct Hsome.
      * intros Heq. apply (f_equal length) in Heq. simpl in Heq. lia.
    + done.
    + done.
Qed.

(** *** What a download and an upload record *)

Lemma num_or_idem x : JS.num_or (Some (JS.num_or x 0)) 0 = JS.num_or x 0.
Proof.
  unfold JS.num_or. destruct x as [r|]; [|done].
  destruct (Z.eqb_spec r 0) as [->|Hr]; [done|]. by destruct (Z.eqb_spec r 0).
Qed.

Lemma getMetadata_served p (w : World E) : getMetadata p w = (Val (served w p), w).
Proof. done. Qed.

Lemma spread_fields current meta p :
  path (spread current meta p) = p
  ∧ (∀ x, p_revision meta = Some x -> revision (spread current meta p) = Some x)
  ∧ (∀ x, p_parentRevision meta = Some x -> parentRevision (spread current meta p) = Some x)
  ∧ (∀ x, p_lastSyncedAt meta = Some x -> lastSyncedAt (spread current meta p) = Some x)
  ∧ (∀ x, p_hash meta = Some x -> hash (spread current meta p) = Some x)
  ∧ (∀ x, p_size meta = Some x -> size (spread current meta p) = Some x)
  ∧ (∀ x, p_deviceId meta = Some x -> deviceId (spread current meta p) = Some x).
Proof. split_and!; try done; intros x Hx; simpl; by rewrite Hx. Qed.

(** C2, as the code has it. After a download that succeeds on a path that
    is not a folder, the record the store serves for the path (a property
    of the store object itself, but for the path [__proto__]) has the
    revision of the file of the server's response (0 without one), as
    parent revision the response's parent revision when it has a non-zero
    one and the response's revision otherwise, and as [lastSyncedAt] the
    time of the write of the record. *)
Theorem download_records_response p rev w w' :
  downloadFile net host p rev w = (Val true, w') ->
  vault w !! p ≠ Some TFolder ->
  ∃ result e' rfile m,
    NetworkClient.downloadFile net p rev (env w) = (Returned result, e')
    ∧ dr_file result = Some rfile
    ∧ getMetadata p w' = (Val (Some (VRecord m)), w')
    ∧ (p ≠ "__proto__"%string ∨ is_Some (metadata w !! p) -> metadata w' !! p = Some m)
    ∧ revision m = Some (JS.num_or (rf_revision rfile) 0)
    ∧ parentRevision m
      = Some (JS.num_or (rf_parentRevision rfile) (JS.num_or (rf_revision rfile) 0))
    ∧ lastSyncedAt m = Some (Host.now host e')
    ∧ (JS.num_or (rf_parentRevision rfile) 0 = 0 -> parentRevision m = revision m).
Proof.
  intros Hrun Hfolder.
  destruct (downloadFile_spec p rev w)
    as (b & w1 & Heq & _ & Henv & _ & _ & _ & _ & _ & _ & _ & Htrue).
  rewrite Hrun in Heq. injection Heq as <- <-.
  destruct (Htrue eq_refl) as (result & rfile & content & Hres & _ & Hfile & _ & _ & Hcase).
  destruct (NetworkClient.downloadFile net p rev (env w)) as [o e'] eqn:Hnet.
  simpl in *. subst o. rewrite Henv in Hcase.
  destruct Hcase as [[? _]|(_ & _ & Hmeta & Hproto & _)]; [done|].
  exists result, e', rfile. eexists. split; [done|]. split; [done|]. split.
  { rewrite getMetadata_served, (served_ext w' _ p (f_equal (.!! p) Hmeta) Hproto).
    by rewrite served_assign. }
  split_and!; try done.
  - intros Hown. rewrite Hmeta, assign_own by done. simpl. apply lookup_insert_eq.
  - simpl. destruct (rf_parentRevision rfile) as [v|]; simpl; [|done].
    destruct (Z.eqb_spec v 0); [done|intros; lia].
Qed.

(** C4. After an upload that succeeds, the record the store serves for
    the file (a property of the store object itself, but for the path
    [__proto__]) has the revision the server's response carries (0 when
    it carries none) both as revision and as parent revision, and the time
    at which the response was handled as [lastSyncedAt]. *)
Theorem upload_records_revision fuel file w w' :
  uploadFile net host fuel file w = (Val true, w') ->
  ∃ content result e' m,
    NetworkClient.uploadFile net file content (optionsFor w file) (env w)
    = (Returned result, e')
    ∧ ur_success result = true
    ∧ getMetadata file w' = (Val (Some (VRecord m)), w')
    ∧ (file ≠ "__proto__"%string ∨ is_Some (metadata w !! file) ->
       metadata w' !! file = Some m)
    ∧ revision m = Some (JS.num_or (ur_file result ≫= rf_revision) 0)
    ∧ parentRevision m = Some (JS.num_or (ur_file result ≫= rf_revision) 0)
    ∧ lastSyncedAt m = Some (Host.now host e')
    ∧ (∀ f r, ur_file result = Some f -> rf_revision f = Some r ->
              revision m = Some r ∧ parentRevision m = Some r).
Proof.
  intros Hrun.
  destruct (uploadFile_true _ _ _ _ Hrun) as (content & mt & result & e' & _ & _ & Hnet & Hs & ->).
  exists content, result, e'. eexists. split; [done|]. split; [done|]. split.
  { rewrite getMetadata_served. cbv zeta.
    match goal with
    | |- (Val (served (set_persisted _ ?ws) _), _) = _ =>
        rewrite (served_ext (set_persisted (metadata ws) ws) ws file) by done
    end.
    by rewrite served_assign. }
  split_and!; try done.
  - intros Hown. simpl. rewrite assign_own by done. simpl. apply lookup_insert_eq.
  - intros f r Hf Hr. simpl. rewrite Hf. simpl. rewrite Hr. simpl.
    destruct (Z.eqb_spec r 0); split; congruence.
Qed.

(** C8, as the code has it. The stored revision of a path is the revision
    [getMetadata] serves for it, 0 without one. After a successful
    download onto a path that is not a folder, and after a successful
    upload, it is the revision the server's response to that very request
    carries (0 when it carries none), whatever it was before; after a
    download onto a folder it is what it was. So it is not below the
    previous stored revision whenever the revision of that response is
    not. *)
Theorem stored_revision_monotone p w w' :
  (∀ rev, downloadFile net host p rev w = (Val true, w') ->
     ∃ result e' rfile,
       NetworkClient.downloadFile net p rev (env w) = (Returned result, e')
       ∧ dr_success result = true
       ∧ dr_file result = Some rfile
       ∧ (vault w !! p ≠ Some TFolder ->
          storedRevision w' p = JS.num_or (rf_revision rfile) 0)
       ∧ (vault w !! p = Some TFolder -> storedRevision w' p = storedRevision w p)
       ∧ (storedRevision w p ≤ JS.num_or (rf_revision rfile) 0 ->
          storedRevision w p ≤ storedRevision w' p))
  ∧ (∀ fuel, uploadFile net host fuel p w = (Val true, w') ->
     ∃ content mt result e',
       vault w !! p = Some (TFile content mt)
       ∧ NetworkClient.uploadFile net p content (optionsFor w p) (env w)
         = (Returned result, e')
       ∧ ur_success result = true
       ∧ storedRevision w' p = JS.num_or (ur_file result ≫= rf_revision) 0
       ∧ (storedRevision w p ≤ JS.num_or (ur_file result ≫= rf_revision) 0 ->
          storedRevision w p ≤ storedRevision w' p)).
Proof.
  split.
  - intros rev Hrun.
    destruct (downloadFile_spec p rev w)
      as (b & w1 & Heq & _ & Henv & _ & _ & _ & _ & _ & _ & _ & Htrue).
    rewrite Hrun in Heq. injection Heq as <- <-.
    destruct (Htrue eq_refl) as (result & rfile & content & Hres & Hs & Hfile & _ & _ & Hcase).
    destruct (NetworkClient.downloadFile net p rev (env w)) as [o e'] eqn:Hnet.
    simpl in *. subst o.
    exists result, e', rfile. split; [done|]. split; [done|]. split; [done|].
    assert (Hstored :
      (vault w !! p ≠ Some TFolder ->
         storedRevision w' p = JS.num_or (rf_revision rfile) 0)
      ∧ (vault w !! p = Some TFolder -> storedRevision w' p = storedRevision w p)).
    { unfold storedRevision.
      destruct Hcase as [(Hfolder & Hmeta & Hproto & _)|(Hfolder & _ & Hmeta & Hproto & _)].
      - split; [done|]. intros _.
        by rewrite (served_ext w' w p (f_equal (.!! p) Hmeta) Hproto).
      - split; [|done]. intros _.
        rewrite (served_ext w' _ p (f_equal (.!! p) Hmeta) Hproto), served_assign.
        simpl. apply num_or_idem. }
    destruct Hstored as [Hfile' Hfolder']. split; [done|]. split; [done|].
    intros Hle. destruct Hcase as [[Hf _]|[Hf _]].
    + rewrite (Hfolder' Hf). lia.
    + by rewrite (Hfile' Hf).
  - intros fuel Hrun.
    destruct (uploadFile_true _ _ _ _ Hrun)
      as (content & mt & result & e' & Hfile & _ & Hnet & Hs & ->).
    exists content, mt, result, e'. split; [done|]. split; [done|]. split; [done|].
    assert (Hstored : ∀ ws : World E,
      storedRevision
        (set_persisted (metadata (assign p
           (spread (default (VRecord (blank p)) (served w p))
              (uploadedMeta w p result (Host.now host e')) p) ws))
           (assign p
           (spread (default (VRecord (blank p)) (served w p))
              (uploadedMeta w p result (Host.now host e')) p) ws)) p
      = JS.num_or (ur_file result ≫= rf_revision) 0).
    { intros ws. unfold storedRevision.
      rewrite (served_ext _ (assign p (spread (default (VRecord (blank p)) (served w p))
              (uploadedMeta w p result (Host.now host e')) p) ws) p) by done.
      rewrite served_assign. simpl. apply num_or_idem. }
    cbv zeta. rewrite Hstored. done.
Qed.

(** *** Deletion *)

(** [deleteMetadata], step by step. *)
Lemma deleteMetadata_run p (w : World E) :
  deleteMetadata host p w
  = match served w p with
    | Some _ =>
        if Host.refuses host (env w) (Host.metadataPath host)
        then (Exn "EIO"%string, remove p w)
        else (Val tt, set_persisted (metadata (remove p w)) (remove p w))
    | None => (Val tt, w)
    end.
Proof.
  unfold deleteMetadata, save, guard_fs, bind, get, modify_world, ret, served.
  destruct (Obj.or_null (lookupProperty w p)); [|done]. simpl.
  by destruct (Host.refuses host (env w) (Host.metadataPath host)).
Qed.

(** [deleteFile] after the server has answered. *)
Lemma deleteFile_returned p w result e' :
  NetworkClient.deleteFile net p (optionsFor w p) (env w) = (Returned result, e') ->
  ∃ w', deleteFile net host p w
        = (Val (match served w p with
                | Some _ => del_success result
                            && negb (Host.refuses host e' (Host.metadataPath host))
                | None => del_success result
                end), w')
    ∧ metadata w' !! p = None
    ∧ prototype w' = prototype w
    ∧ lookupProperty w' p = Obj.inherited (prototype w) p
    ∧ (Obj.inherited (prototype w) p = None -> getMetadata p w' = (Val None, w')).
Proof.
  unfold optionsFor, storedRevision, served. intros Hnet.
  assert (Hread : ∀ w' : World E,
    metadata w' !! p = None -> prototype w' = prototype w ->
    lookupProperty w' p = Obj.inherited (prototype w) p
    ∧ (Obj.inherited (prototype w) p = None -> getMetadata p w' = (Val None, w'))).
  { intros w' Hown Hproto.
    assert (Hl : lookupProperty w' p = Obj.inherited (prototype w) p)
      by (unfold lookupProperty; by rewrite Hown, Hproto).
    split; [done|]. intros Hnone. unfold getMetadata, get. by rewrite Hl, Hnone. }
  unfold deleteFile, try_catch, bind, getDeviceId, get, call, when. simpl.
  rewrite Hnet.
  destruct (bool_decide (is_Some (del_conflict result)));
    unfold notice, modify_world, ret; rewrite deleteMetadata_run;
    match goal with
    | |- context [served ?W p] => rewrite (served_ext W w p eq_refl eq_refl)
    end;
    (destruct (served w p) as [v|] eqn:Hserved;
     [destruct (Host.refuses host e' (Host.metadataPath host)) eqn:Hfs|]);
    simpl; pose proof Hserved as Hserved'; unfold served in Hserved';
    rewrite ?Hserved', ?Hfs, ?andb_true_r, ?andb_false_r;
    (eexists; split; [reflexivity|]).
  all: try (split; [simpl; apply lookup_delete_eq|]; split; [done|];
            apply Hread; simpl; done || apply lookup_delete_eq).
  all: pose proof (served_none_own _ _ Hserved) as Hown;
    (split; [done|]); (split; [done|]); by apply Hread.
Qed.

(** C7, as the code has it. Whenever the delete request returns a response,
    with or without a conflict and whether or not it reports success, the
    store object has no record of its own for the path and its prototype
    is as before: the store serves for the path what it inherits under
    that name, which is nothing for a path that is the name of no
    inherited property. *)
Theorem deleteFile_clears_metadata p w result e' :
  NetworkClient.deleteFile net p (optionsFor w p) (env w) = (Returned result, e') ->
  ∃ w', deleteFile net host p w
        = (Val (match served w p with
                | Some _ => del_success result
                            && negb (Host.refuses host e' (Host.metadataPath host))
                | None => del_success result
                end), w')
    ∧ metadata w' !! p = None
    ∧ prototype w' = prototype w
    ∧ lookupProperty w' p = Obj.inherited (prototype w) p
    ∧ (Obj.inherited (prototype w) p = None -> getMetadata p w' = (Val None, w')).
Proof. apply deleteFile_returned. Qed.

(** *** The in-flight flag *)

(** C9, as the code has it. While a pass is in flight [syncVault] only
    shows a notice, the one that a sync is in progress when a token is
    configured and the one that asks for a token when none is: it calls
    the transport for nothing and leaves the store, the vault and the
    flag as they are. *)
Theorem syncVault_busy fuel silent w :
  isSyncing w = true ->
  syncVault net host fuel silent w = (Val tt, add_notice (busyNotice w) w)
  ∧ (token (settings w) ≠ EmptyString -> busyNotice w = SyncInProgress)
  ∧ requests (add_notice (busyNotice w) w) = requests w
  ∧ metadata (add_notice (busyNotice w) w) = metadata w
  ∧ prototype (add_notice (busyNotice w) w) = prototype w
  ∧ persisted (add_notice (busyNotice w) w) = persisted w
  ∧ vault (add_notice (busyNotice w) w) = vault w
  ∧ env (add_notice (busyNotice w) w) = env w
  ∧ isSyncing (add_notice (busyNotice w) w) = true
  ∧ notices (add_notice (busyNotice w) w) = busyNotice w :: notices w.
Proof.
  intros Hs. unfold busyNotice. split_and!; try done.
  - unfold syncVault. munfold. simpl.
    case_bool_decide; [done|]. by rewrite Hs.
  - intros Ht. by rewrite bool_decide_eq_false_2.
Qed.

(** *** Rejected uploads *)

(** The conflict handler throws nothing, whatever its callback does. *)
Lemma handleConflict_no_exn onMergeSuccess file conflictData w msg w' :
  handleConflict net host onMergeSuccess file conflictData w ≠ (Exn msg, w').
Proof.
  unfold handleConflict.
  destruct (ur_conflict conflictData) as [conflict|]; [|discriminate].
  unfold bind at 1. unfold notice at 1, modify_world at 1. unfold try_catch.
  match goal with |- context [match ?X with _ => _ end] => destruct X as [[?|?|] ?] end;
    discriminate.
Qed.

(** C5. An upload the server answers with [success] false, the error
    'Conflict detected' and a conflict context is handed to the conflict
    handler, with the response and its context, and [uploadFile] returns
    false once the handler is done; any other unsuccessful response is
    logged as a failure of the file and nothing else happens. *)
Theorem uploadFile_rejection fuel file w content mt result e' :
  vault w !! file = Some (TFile content mt) ->
  Host.refuses host (env w) file = false ->
  NetworkClient.uploadFile net file content (optionsFor w file) (env w)
  = (Returned result, e') ->
  ur_success result = false ->
  let w1 := issue (ReqUpload file content (optionsFor w file)) e' w in
  (∀ conflict,
     ur_error result = Some "Conflict detected"%string ->
     ur_conflict result = Some conflict ->
     uploadFile net host (S fuel) file w
     = bind (handleConflict net host (uploadFile net host fuel) file result)
            (fun _ => ret false) w1)
  ∧ (ur_error result ≠ Some "Conflict detected"%string ∨ ur_conflict result = None ->
     uploadFile net host (S fuel) file w
     = (Val false,
        add_console ("Failed to upload " +:+ file +:+ ": "
                     +:+ default "undefined"%string (ur_error result)) w1)).
Proof.
  intros Hfile Hfs Hnet Hs w1. unfold optionsFor, storedRevision, served in *.
  assert (Hbody : ∀ k : UploadResult -> M bool,
    bind (vault_read host file) (fun content =>
      bind (getMetadata file) (fun localMeta =>
        bind getDeviceId (fun device =>
          bind (call (ReqUpload file content
                  {| o_parentRevision := Obj.revisionOf localMeta;
                     o_deviceId := device |})
                  (NetworkClient.uploadFile net file content
                  {| o_parentRevision := Obj.revisionOf localMeta;
                     o_deviceId := device |})) k))) w = k result w1).
  { intros k. munfold. simpl. rewrite Hfs, Hfile. simpl. by rewrite Hnet. }
  split.
  - intros conflict Herr Hc. simpl. unfold try_catch. rewrite Hbody. rewrite Hs.
    unfold isConflictRejection. rewrite Herr, Hc. simpl.
    unfold bind.
    destruct (handleConflict net host (uploadFile net host fuel) file result w1)
      as [[[]|msg|] w2] eqn:Hh; try done.
    by apply handleConflict_no_exn in Hh.
  - intros Hno. simpl. unfold try_catch. rewrite Hbody. rewrite Hs.
    replace (isConflictRejection result) with false; [done|].
    unfold isConflictRejection. destruct Hno as [Hne| ->].
    + by rewrite bool_decide_eq_false_2.
    + rewrite andb_comm. simpl. done.
Qed.

(** *** The budget of the recursion of [uploadFile] *)

Lemma Within_refl {A} (m : @M E A) : Within m m.
Proof. by intros w r w' H _. Qed.

Lemma Within_bind {A B} (m1 m2 : @M E A) (k1 k2 : A -> @M E B) :
  Within m1 m2 -> (∀ a, Within (k1 a) (k2 a)) -> Within (bind m1 k1) (bind m2 k2).
Proof.
  intros Hm Hk w r w'. unfold bind.
  destruct (m1 w) as [[a|msg|] w1] eqn:Hrun.
  - rewrite (Hm _ _ _ Hrun) by done. apply Hk.
  - rewrite (Hm _ _ _ Hrun) by done. done.
  - by intros [= <- <-].
Qed.

Lemma Within_try_catch {A} (m1 m2 : @M E A) (h : string -> @M E A) :
  Within m1 m2 -> Within (try_catch m1 h) (try_catch m2 h).
Proof.
  intros Hm w r w'. unfold try_catch.
  destruct (m1 w) as [[a|msg|] w1] eqn:Hrun.
  - rewrite (Hm _ _ _ Hrun) by done. done.
  - rewrite (Hm _ _ _ Hrun) by done. done.
  - by intros [= <- <-].
Qed.

Lemma Within_handleConflict cb1 cb2 file conflictData :
  (∀ f, Within (cb1 f) (cb2 f)) ->
  Within (handleConflict net host cb1 file conflictData)
         (handleConflict net host cb2 file conflictData).
Proof.
  intros Hcb. unfold handleConflict.
  destruct (ur_conflict conflictData) as [conflict|]; [|apply Within_refl].
  apply Within_bind; [apply Within_refl|]. intros _.
  apply Within_try_catch.
  apply Within_bind; [apply Within_refl|]. intros serverResponse.
  apply Within_bind; [apply Within_refl|]. intros ancestorContent.
  apply Within_bind; [apply Within_refl|]. intros localContent.
  apply Within_bind; [|intros ?; apply Within_refl].
  destruct ancestorContent; [|apply Within_refl].
  apply Within_bind; [apply Within_refl|]. intros mergeResult.
  case_match; [|apply Within_refl].
  apply Within_bind; [apply Within_refl|]. intros _.
  apply Within_bind; [apply Within_refl|]. intros _.
  apply Within_bind; [apply Hcb|]. intros _. apply Within_refl.
Qed.

Lemma uploadFile_fuel fuel : ∀ file,
  Within (uploadFile net host fuel file) (uploadFile net host (S fuel) file).
Proof.
  induction fuel as [|fuel IH]; intros file.
  - intros w r w' [= <- <-]. done.
  - simpl. apply Within_try_catch.
    apply Within_bind; [apply Within_refl|]. intros content.
    apply Within_bind; [apply Within_refl|]. intros localMeta.
    apply Within_bind; [apply Within_refl|]. intros device.
    apply Within_bind; [apply Within_refl|]. intros result.
    case_match; [apply Within_refl|].
    case_match; [|apply Within_refl].
    apply Within_bind; [|intros ?; apply Within_refl].
    by apply Within_handleConflict.
Qed.

(** What makes [downloadFile] return false. *)
Lemma downloadFile_failures p rev w :
  ∃ b w', downloadFile net host p rev w = (Val b, w')
    ∧ (∀ msg e', NetworkClient.downloadFile net p rev (env w) = (Rejected msg, e') ->
                 b = false)
    ∧ (∀ result e',
         NetworkClient.downloadFile net p rev (env w) = (Returned result, e') ->
         (dr_success result = false ∨ dr_file result = None ∨ dr_content result = None ->
          b = false)
         ∧ (JS.before_last "/" p ≠ EmptyString ->
            vault w !! JS.before_last "/" p = None ->
            Host.refuses host e' (JS.before_last "/" p) = true -> b = false)
         ∧ (vault w !! p ≠ Some TFolder -> Host.refuses host e' p = true -> b = false)
         ∧ (vault w !! p ≠ Some TFolder ->
            Host.refuses host e' (Host.metadataPath host) = true -> b = false)).
Proof.
  unfold downloadFile. munfold.
  destruct (NetworkClient.downloadFile net p rev (env w)) as [[result|msg] e'] eqn:Hnet;
    simpl.
  2: { eexists _, _; split_and!; try reflexivity; intros; simplify_eq; done. }
  destruct (dr_success result) eqn:Hs;
    [|eexists _, _; split_and!; try reflexivity; intros; simplify_eq; done].
  destruct (dr_file result) as [rfile|] eqn:Hf;
    [|eexists _, _; split_and!; try reflexivity; intros; simplify_eq; done].
  destruct (dr_content result) as [content|] eqn:Hc;
    [|eexists _, _; split_and!; try reflexivity; intros; simplify_eq; done].
  mrun.
  all: try (rewrite lookup_insert_eq in *; simpl in *; discriminate).
  all: store.
  all: eexists _, _; split; [reflexivity|]; split; [intros; simplify_eq|].
  all: intros ? ? [= <- <-]; split_and!; try done.
  all: try (intros [?|[?|?]]; congruence).
  all: try congruence.
  all: try (intros Hne Hnone; exfalso;
            match goal with
            | H : _ && _ = false |- _ =>
                apply andb_false_iff in H as [H|H];
                apply negb_false_iff, bool_decide_eq_true in H;
                [done|rewrite Hnone in H; by destruct H]
            end).
Qed.

(** C10. The single-file operations throw nothing: [downloadFile] and
    [deleteFile] always return a boolean, [uploadFile] returns a boolean
    unless the recursion through the conflict handler exceeds its budget,
    which only a rejection for a conflict starts, and what it returns
    within a budget it returns within every larger one; and a rejecting
    transport, a failure of the file tree (the read of the file to upload,
    the creation of the folder of a download, the write of the downloaded
    file) and a failure of the store (the write of [metadata.json] after
    an upload, a download or a deletion) make them return false. *)
Theorem single_file_operations_catch :
  (∀ fuel file w,
     (∃ b w', uploadFile net host fuel file w = (Val b, w'))
     ∨ (∃ w', uploadFile net host fuel file w = (OutOfFuel, w')))
  ∧ (∀ fuel file w w',
       uploadFile net host (S fuel) file w = (OutOfFuel, w') ->
       ∃ content result e',
         NetworkClient.uploadFile net file content (optionsFor w file) (env w)
         = (Returned result, e')
         ∧ isConflictRejection result = true)
  ∧ (∀ fuel file w b w',
       uploadFile net host fuel file w = (Val b, w') ->
       uploadFile net host (S fuel) file w = (Val b, w'))
  ∧ (∀ fuel file w msg,
       vault_read host file w = (Exn msg, w) ->
       ∃ w', uploadFile net host (S fuel) file w = (Val false, w'))
  ∧ (∀ fuel file w content msg e',
       vault_read host file w = (Val content, w) ->
       NetworkClient.uploadFile net file content (optionsFor w file) (env w)
       = (Rejected msg, e') ->
       ∃ w', uploadFile net host (S fuel) file w = (Val false, w'))
  ∧ (∀ fuel file w content result e',
       vault_read host file w = (Val content, w) ->
       NetworkClient.uploadFile net file content (optionsFor w file) (env w)
       = (Returned result, e') ->
       ur_success result = true ->
       Host.refuses host e' (Host.metadataPath host) = true ->
       ∃ w', uploadFile net host (S fuel) file w = (Val false, w'))
  ∧ (∀ p rev w,
       ∃ b w', downloadFile net host p rev w = (Val b, w')
         ∧ (∀ msg e', NetworkClient.downloadFile net p rev (env w)
                      = (Rejected msg, e') -> b = false)
         ∧ (∀ result e',
              NetworkClient.downloadFile net p rev (env w) = (Returned result, e') ->
              (dr_success result = false ∨ dr_file result = None
               ∨ dr_content result = None -> b = false)
              ∧ (JS.before_last "/" p ≠ EmptyString ->
                 vault w !! JS.before_last "/" p = None ->
                 Host.refuses host e' (JS.before_last "/" p) = true -> b = false)
              ∧ (vault w !! p ≠ Some TFolder ->
                 Host.refuses host e' p = true -> b = false)
              ∧ (vault w !! p ≠ Some TFolder ->
                 Host.refuses host e' (Host.metadataPath host) = true -> b = false)))
  ∧ (∀ p w,
       ∃ b w', deleteFile net host p w = (Val b, w')
               ∧ (∀ msg e', NetworkClient.deleteFile net p (optionsFor w p) (env w)
                            = (Rejected msg, e') -> b = false)
               ∧ (∀ result e', NetworkClient.deleteFile net p (optionsFor w p) (env w)
                               = (Returned result, e') ->
                               is_Some (served w p) ->
                               Host.refuses host e' (Host.metadataPath host) = true ->
                               b = false)).
Proof.
  split_and!.
  - intros fuel file w.
    destruct (uploadFile net host fuel file w) as [[b|msg|] w'] eqn:Hrun; eauto.
    by apply uploadFile_no_exn in Hrun.
  - intros fuel file w w'. simpl. unfold optionsFor, storedRevision, served.
    intros H. mrun; eauto.
  - intros fuel file w b w' Hrun. by apply (uploadFile_fuel fuel file).
  - intros fuel file w msg Hread. simpl. unfold try_catch, bind at 1.
    rewrite Hread. unfold console_error, modify_world, bind, ret. eauto.
  - intros fuel file w content msg e' Hread Hnet. simpl.
    unfold optionsFor, storedRevision, served in *.
    unfold try_catch, bind at 1. rewrite Hread. munfold. simpl. rewrite Hnet. eauto.
  - intros fuel file w content result e' Hread Hnet Hs Hfs. simpl.
    unfold optionsFor, storedRevision, served in *.
    unfold try_catch, bind at 1. rewrite Hread. munfold. simpl. rewrite Hnet, Hs. simpl.
    rewrite env_assign. simpl. rewrite Hfs. eauto.
  - apply downloadFile_failures.
  - intros p w.
    destruct (NetworkClient.deleteFile net p (optionsFor w p) (env w))
      as [[result|msg] e'] eqn:Hnet.
    + destruct (deleteFile_returned p w result e' Hnet) as (w' & Hrun & _).
      eexists _, w'. split; [exact Hrun|]. split; [done|].
      intros result' e'' [= <- <-] [v Hv] Hfs. rewrite Hv, Hfs. apply andb_false_r.
    + unfold optionsFor, storedRevision, served in Hnet.
      unfold deleteFile. munfold. simpl. rewrite Hnet.
      eexists _, _. split; [reflexivity|]. split; [done|]. intros; simplify_eq.
Qed.

(** *** Manual resolution *)

Lemma trimEnd_app a b :
  JS.trimEnd b ≠ EmptyString -> JS.trimEnd (a +:+ b) = a +:+ JS.trimEnd b.
Proof.
  intros Hb. induction a as [|c a IH]; [done|].
  simpl. rewrite IH. destruct a; simpl; [|done].
  by destruct (JS.trimEnd b).
Qed.

Lemma trimEnd_app_nonempty a b :
  JS.trimEnd b ≠ EmptyString -> JS.trimEnd (a +:+ b) ≠ EmptyString.
Proof.
  intros Hb. rewrite trimEnd_app by done.
  destruct a; [done|discriminate].
Qed.

Lemma trim_conflictTemplate localContent serverContent backupPath :
  JS.trim (conflictTemplate localContent serverContent backupPath)
  = markedDocument localContent serverContent backupPath.
Proof.
  unfold JS.trim, conflictTemplate, markedDocument.
  change (JS.trimStart (JS.nl +:+ ?s)) with (JS.trimStart s).
  change (JS.trimStart ("<<<<<<< LOCAL (Your Version)" +:+ ?s))
    with ("<<<<<<< LOCAL (Your Version)" +:+ s).
  set (tail := " -->" +:+ JS.nl).
  assert (Hend : JS.trimEnd tail = " -->"%string) by reflexivity.
  clearbody tail.
  rewrite !trimEnd_app; rewrite ?Hend; try done.
  all: repeat apply trimEnd_app_nonempty; by rewrite Hend.
Qed.

(** The manual resolution, when the backup can be created and the local
    file written. *)
Lemma handleManualConflict_spec file localContent serverContent w old mtime backupPath :
  vault w !! file = Some (TFile old mtime) ->
  Host.refuses host (env w) file = false ->
  BackupCreatable host w file backupPath ->
  handleManualConflict host file localContent serverContent w
  = (Val tt,
     add_notice (BackupSaved backupPath)
       (set_vault
          (<[file := TFile (markedDocument localContent serverContent backupPath)
                           (Host.now host (env w))]>
             (<[backupPath := TFile serverContent (Host.now host (env w))]> (vault w)))
          (add_notice (ManualRequired file) w))).
Proof.
  intros Hfile Hfs Hbackup.
  unfold BackupCreatable, conflictFileName, fallbackName in Hbackup.
  cbv zeta in Hbackup.
  assert (Hne : backupPath ≠ file).
  { intros Heq. destruct Hbackup as [(Hb & _ & Hfree)|(Hb & _ & _ & Hfree)];
      rewrite <- Hb, Heq in Hfree; congruence. }
  unfold handleManualConflict. munfold.
  wstep.
  destruct Hbackup as [(Hb & Hok & Hfree)|(Hb & Hfirst & Hok & Hfree)].
  - rewrite Hok. wstep. rewrite Hfree. wstep. rewrite <- Hb.
    rewrite Hfs. wstep. rewrite lookup_insert_ne by done. rewrite Hfile.
    rewrite trim_conflictTemplate. reflexivity.
  - destruct (Host.refuses host (env w) _) eqn:Hr in |- *.
    + wstep. rewrite Hok. wstep. rewrite Hfree. wstep. rewrite <- Hb.
      rewrite Hfs. wstep. rewrite lookup_insert_ne by done. rewrite Hfile.
      rewrite trim_conflictTemplate. reflexivity.
    + destruct Hfirst as [Hrefused|[x Hx]]; [congruence|]. wstep. rewrite Hx. wstep.
      rewrite Hok. wstep. rewrite Hfree. wstep. rewrite <- Hb.
      rewrite Hfs. wstep. rewrite lookup_insert_ne by done. rewrite Hfile.
      rewrite trim_conflictTemplate. reflexivity.
Qed.

(** C6, as the code has it. When the merge attempt fails (no ancestor, or
    the merge service reports a failure or a residual conflict) after the
    server's content was fetched and the local file read, the handler,
    if the backup can be created under its first or its fallback name
    and the local file written, creates that one backup with the server's
    content, overwrites the
    local file with the document that holds both contents between the
    conflict delimiters and ends with the comment naming the backup, and
    leaves the records of the store as they were. *)
Theorem manual_fallback onMergeSuccess file conflictData conflict w
    localContent serverContent w1 backupPath :
  ur_conflict conflictData = Some conflict ->
  MergeAttemptFails net host file conflict w localContent serverContent w1 ->
  BackupCreatable host w1 file backupPath ->
  Host.refuses host (env w1) file = false ->
  ∃ w', handleConflict net host onMergeSuccess file conflictData w = (Val tt, w')
    ∧ vault w !! backupPath = None
    ∧ vault w'
      = <[file := TFile (markedDocument localContent serverContent backupPath)
                        (Host.now host (env w1))]>
          (<[backupPath := TFile serverContent (Host.now host (env w1))]> (vault w))
    ∧ vault w' !! backupPath = Some (TFile serverContent (Host.now host (env w1)))
    ∧ dom (vault w') = {[backupPath]} ∪ dom (vault w)
    ∧ metadata w' = metadata w
    ∧ prototype w' = prototype w
    ∧ persisted w' = persisted w.
Proof.
  intros Hc Hfail Hbackup Hfs.
  assert (Hframe : vault w1 = vault w ∧ metadata w1 = metadata w
                   ∧ prototype w1 = prototype w
                   ∧ persisted w1 = persisted w
                   ∧ ∃ mtime, vault w !! file = Some (TFile localContent mtime)).
  { destruct Hfail; (split_and!; [reflexivity..|]); eexists; eassumption. }
  destruct Hframe as (Hv & Hmeta & Hproto & Hp & mtime & Hfile).
  assert (Hfree : vault w !! backupPath = None).
  { rewrite <- Hv. unfold BackupCreatable in Hbackup.
    by destruct Hbackup as [(-> & _ & ?)|(-> & _ & _ & ?)]. }
  assert (Hne : backupPath ≠ file) by congruence.
  pose proof (handleManualConflict_spec file localContent serverContent w1
                localContent mtime backupPath) as Hman.
  rewrite Hv in Hman. specialize (Hman Hfile Hfs Hbackup).
  match type of Hman with _ = (_, ?W) => exists W end. split.
  { unfold handleConflict. rewrite Hc.
    destruct Hfail as [sr e1 lc mt Hno Hd Hfile' Hfs'
                      |sr e1 ar e2 lc mt mr e3 Hanc Hd Hd2 Hfile' Hfs' request Hm Hbad].
    - munfold. wstep. rewrite Hd. wstep.
      destruct (Z.ltb_spec 0 (yourParentRevision conflict)); [lia|]. wstep.
      rewrite Hfs'. wstep. rewrite Hfile'. rewrite Hman. reflexivity.
    - munfold. wstep. rewrite Hd. wstep.
      destruct (Z.ltb_spec 0 (yourParentRevision conflict)); [|lia]. wstep.
      rewrite Hd2. wstep. rewrite Hfs'. wstep. rewrite Hfile'. subst request. wstep.
      rewrite Hm. wstep.
      replace (mr_success mr && negb (mr_hasConflict mr)
               && JS.truthy_str (mr_mergedContent mr)) with false.
      2: { destruct Hbad as [-> |[-> | ->]]; [done| |].
           - by rewrite andb_false_r.
           - by rewrite andb_false_r. }
      rewrite Hman. reflexivity. }
  wstep. split_and!; try done.
  - rewrite lookup_insert_ne by done. apply lookup_insert_eq.
  - rewrite !dom_insert_L.
    assert (Hin : file ∈ dom (vault w)) by (apply elem_of_dom; eauto).
    apply set_eq. intros x. rewrite !elem_of_union, !elem_of_singleton.
    intuition (subst; auto).
Qed.

(** *** The activity of a run never decreases *)

Lemma Busy_ret {A} (a : A) : Busy (@ret E A a).
Proof. intros w r w' [= <- <-]. lia. Qed.

Lemma Busy_throw {A} msg : Busy (@throw E A msg).
Proof. intros w r w' [= <- <-]. lia. Qed.

Lemma Busy_bind {A B} (m : @M E A) (k : A -> @M E B) :
  Busy m -> (∀ a, Busy (k a)) -> Busy (bind m k).
Proof.
  intros Hm Hk w r w'. unfold bind.
  destruct (m w) as [[a|msg|] w1] eqn:Hrun; specialize (Hm _ _ _ Hrun).
  - intros Hrun2. specialize (Hk _ _ _ _ Hrun2). lia.
  - intros [= <- <-]. done.
  - intros [= <- <-]. done.
Qed.

Lemma Busy_try_catch {A} (m : @M E A) (h : string -> @M E A) :
  Busy m -> (∀ e, Busy (h e)) -> Busy (try_catch m h).
Proof.
  intros Hm Hh w r w'. unfold try_catch.
  destruct (m w) as [[a|msg|] w1] eqn:Hrun; specialize (Hm _ _ _ Hrun).
  - intros [= <- <-]. done.
  - intros Hrun2. specialize (Hh _ _ _ _ Hrun2). lia.
  - intros [= <- <-]. done.
Qed.

Lemma Busy_get {A} (f : World E -> A) : Busy (get f).
Proof. intros w r w' [= <- <-]. lia. Qed.

Lemma Busy_notice n : Busy (@notice E n).
Proof. intros w r w' [= <- <-]. unfold activity. simpl. lia. Qed.

Lemma Busy_console_error s : Busy (@console_error E s).
Proof. intros w r w' [= <- <-]. unfold activity. simpl. lia. Qed.

Lemma Busy_call {A} r (f : E -> Outcome A * E) : Busy (call r f).
Proof.
  intros w res w'. unfold call. destruct (f (env w)) as [[a|msg] e];
    intros [= <- <-]; unfold activity; simpl; lia.
Qed.

Lemma Busy_guard_fs p : Busy (guard_fs host p).
Proof. intros w r w'. unfold guard_fs. case_match; intros [= <- <-]; lia. Qed.

Lemma Busy_vault_read p : Busy (vault_read host p).
Proof.
  apply Busy_bind; [apply Busy_guard_fs|]. intros _.
  apply Busy_bind; [apply Busy_get|]. intros [[]|]; first [apply Busy_ret|apply Busy_throw].
Qed.

Lemma Busy_vault_modify p data : Busy (vault_modify host p data).
Proof.
  apply Busy_bind; [apply Busy_guard_fs|]. intros _.
  apply Busy_bind; [apply Busy_get|]. intros [[]|]; try apply Busy_throw.
  intros w r w' [= <- <-]. unfold activity. simpl. lia.
Qed.

Lemma Busy_vault_create p data : Busy (vault_create host p data).
Proof.
  apply Busy_bind; [apply Busy_guard_fs|]. intros _.
  apply Busy_bind; [apply Busy_get|]. intros [[]|]; try apply Busy_throw.
  intros w r w' [= <- <-]. unfold activity. simpl. lia.
Qed.

Lemma Busy_handleManualConflict file localContent serverContent :
  Busy (handleManualConflict host file localContent serverContent).
Proof.
  unfold handleManualConflict.
  apply Busy_bind; [apply Busy_notice|]. intros _.
  apply Busy_bind; [apply Busy_get|]. intros t.
  apply Busy_bind.
  - apply Busy_try_catch.
    + apply Busy_bind; [apply Busy_vault_create|]. intros _. apply Busy_ret.
    + intros _. apply Busy_bind; [apply Busy_vault_create|]. intros _. apply Busy_ret.
  - intros backupPath.
    apply Busy_bind; [apply Busy_vault_modify|]. intros _. apply Busy_notice.
Qed.

Lemma Busy_handleConflict onMergeSuccess file conflictData :
  (∀ f, Busy (onMergeSuccess f)) ->
  Busy (handleConflict net host onMergeSuccess file conflictData).
Proof.
  intros Hcb. unfold handleConflict.
  destruct (ur_conflict conflictData) as [conflict|]; [|apply Busy_notice].
  apply Busy_bind; [apply Busy_notice|]. intros _.
  apply Busy_try_catch.
  2: { intros e. apply Busy_bind; [apply Busy_console_error|]. intros _. apply Busy_notice. }
  apply Busy_bind; [apply Busy_call|]. intros serverResponse.
  apply Busy_bind.
  { case_match; [|apply Busy_ret].
    apply Busy_bind; [apply Busy_call|]. intros ?. apply Busy_ret. }
  intros ancestorContent.
  apply Busy_bind; [apply Busy_vault_read|]. intros localContent.
  apply Busy_bind.
  { destruct ancestorContent; [|apply Busy_ret].
    apply Busy_bind; [apply Busy_call|]. intros mergeResult.
    case_match; [|apply Busy_ret].
    apply Busy_bind; [apply Busy_notice|]. intros _.
    apply Busy_bind; [apply Busy_vault_modify|]. intros _.
    apply Busy_bind; [apply Hcb|]. intros _. apply Busy_ret. }
  intros [|]; [apply Busy_ret|apply Busy_handleManualConflict].
Qed.

Lemma Busy_uploadFile fuel : ∀ file, Busy (uploadFile net host fuel file).
Proof.
  induction fuel as [|fuel IH]; intros file.
  - intros w r w' [= <- <-]. lia.
  - simpl. apply Busy_try_catch.
    2: { intros e. apply Busy_bind; [apply Busy_console_error|]. intros _. apply Busy_ret. }
    apply Busy_bind; [apply Busy_vault_read|]. intros content.
    apply Busy_bind; [apply Busy_get|]. intros localMeta.
    apply Busy_bind; [apply Busy_get|]. intros device.
    apply Busy_bind; [apply Busy_call|]. intros result.
    case_match.
    + apply Busy_bind; [apply Busy_get|]. intros ?.
      apply Busy_bind; [apply Busy_get|]. intros ?.
      apply Busy_bind; [apply Busy_get|]. intros ?.
      apply Busy_bind; [|intros _; apply Busy_ret].
      unfold saveMetadata.
      apply Busy_bind; [apply Busy_get|]. intros ?.
      apply Busy_bind.
      { intros w r w' [= <- <-]. unfold activity.
        rewrite requests_assign, console_assign. lia. }
      intros _. unfold save.
      apply Busy_bind; [apply Busy_guard_fs|]. intros _.
      intros w r w' [= <- <-]. unfold activity. simpl. lia.
    + case_match.
      * apply Busy_bind; [|intros _; apply Busy_ret].
        by apply Busy_handleConflict.
      * apply Busy_bind; [apply Busy_console_error|]. intros _. apply Busy_ret.
Qed.

(** An upload that returns false has called the transport or logged an
    error. *)
Lemma uploadFile_false_active fuel file w w' :
  uploadFile net host fuel file w = (Val false, w') ->
  (activity w < activity w')%nat.
Proof.
  destruct fuel as [|fuel]; simpl; [discriminate|].
  intros Hrun.
  pose proof (Busy_handleConflict (uploadFile net host fuel) file) as Hh.
  unfold activity in *. mrun.
  all: store.
  all: try lia.
  all: match goal with
       | H : handleConflict _ _ _ _ ?d ?w1 = _ |- _ =>
           specialize (Hh d (Busy_uploadFile fuel) _ _ _ H)
       end; unfold activity in Hh; simpl in *; lia.
Qed.

End Properties.

Section Idempotence.

Context {E : Type}.
Variable net : NetworkClient.t E.
Variable host : Host.t E.

(** *** Two passes in a row *)

Variable view : E -> gmap string Z.
Hypothesis coherent : Coherent net host view.

(** No file with an extension of the list is named [__proto__]. *)
Lemma shouldSyncFile_proto file : shouldSyncFile file = true -> file ≠ "__proto__"%string.
Proof. by intros H ->. Qed.

Lemma storedRevision_assign p current meta (w : World E) x :
  p_revision meta = Some x ->
  storedRevision (assign p (spread current meta p) w) p = JS.num_or (Some x) 0.
Proof.
  intros Hx. unfold storedRevision. rewrite served_assign. simpl. by rewrite Hx.
Qed.

(** The downward loop over descriptors none of which is named
    [__proto__]: the prototype of the store object stays, the counter
    grows by at most the activity, and by exactly the activity only if
    every download succeeded; in that case, and when no listed path is a
    folder, nothing the store serves loses revisions and every listed
    descriptor is covered by what the store serves. *)
Lemma downward_pass remoteFiles : ∀ d w d' w',
  downwardSync net host remoteFiles d w = (Val d', w') ->
  (∀ f, f ∈ remoteFiles -> rf_path f ≠ "__proto__"%string) ->
  view (env w') = view (env w)
  ∧ Host.now host (env w) ≤ Host.now host (env w')
  ∧ settings w' = settings w
  ∧ prototype w' = prototype w
  ∧ (∀ q, vault w !! q = Some TFolder -> vault w' !! q = Some TFolder)
  ∧ (Dated host w -> Dated host w')
  ∧ (d' + activity w ≤ d + activity w')%nat
  ∧ ((d' + activity w = d + activity w')%nat ->
     (∀ f, f ∈ remoteFiles -> vault w' !! rf_path f ≠ Some TFolder) ->
     (∀ q, is_Some (served w q) ->
           is_Some (served w' q) ∧ storedRevision w q ≤ storedRevision w' q)
     ∧ (∀ f, f ∈ remoteFiles ->
             is_Some (served w' (rf_path f))
             ∧ JS.num_or (rf_revision f) 0 ≤ storedRevision w' (rf_path f))).
Proof.
  induction remoteFiles as [|f rest IH]; intros d w d' w'.
  { simpl. intros [= <- <-] _. split_and!; try done; try lia.
    intros _ _. split; [intros q Hq; split; [done|lia]|].
    intros f Hf. by apply elem_of_nil in Hf. }
  rewrite downwardSync_cons. intros Hrun Hnames.
  assert (Hp : rf_path f ≠ "__proto__"%string) by (apply Hnames; by left).
  assert (Hnames' : ∀ g, g ∈ rest -> rf_path g ≠ "__proto__"%string)
    by (intros g Hg; apply Hnames; by right).
  revert Hrun Hp.
  set (p := rf_path f). set (r := JS.num_or (rf_revision f) 0).
  destruct (downloadDue (served w p) r) eqn:Hguard; intros Hrun Hp.
  - (* the descriptor is downloaded *)
    destruct (downloadFile_spec net host p (Some r) w)
      as (b & w1 & Hdl & Hreq & Henv & Hset & _ & Hcon & Hframe & Hproto & Hfold
          & Hvault & Htrue).
    unfold bind in Hrun. rewrite Hdl in Hrun.
    destruct (IH _ _ _ _ Hrun Hnames')
      as (Hview & Hclock & Hset' & Hproto' & Hfold' & Hdated & Hle & Heq).
    destruct (NetworkClient.downloadFile net p (Some r) (env w)) as [o e1] eqn:Hnet.
    simpl in Henv.
    assert (Hview1 : view (env w1) = view (env w))
      by (rewrite Henv; eapply download_keeps_view; eauto).
    assert (Hclock1 : Host.now host (env w) ≤ Host.now host (env w1))
      by (rewrite Henv; eapply clock_after_download; eauto).
    assert (Hact : (activity w + 1 ≤ activity w1)%nat).
    { unfold activity. rewrite Hreq. destruct Hcon as [-> |[s ->]]; simpl; lia. }
    assert (Hproto1 : prototype w1 = prototype w) by (apply Hproto; by left).
    split_and!.
    + congruence.
    + lia.
    + congruence.
    + congruence.
    + eauto.
    + intros Hd. apply Hdated. intros q c t Hq.
      destruct (Hvault q c t Hq) as [Hold|[_ ->]]; [|lia].
      specialize (Hd _ _ _ Hold). lia.
    + destruct b; lia.
    + intros Hall Hnofolder.
      destruct b; [|lia].
      assert (Hact1 : activity w1 = (activity w + 1)%nat) by lia.
      destruct (Htrue eq_refl) as (result & rfile & content & Hres & Hs & Hfile & _ & _ & Hcase).
      simpl in Hres. subst o.
      destruct (Heq ltac:(lia) ltac:(intros g Hg; apply Hnofolder; by right))
        as (Hmono & Hcover).
      destruct Hcase as [[Hisfolder _]|(_ & _ & Hmeta & _ & _)].
      { exfalso. apply (Hnofolder f); [by left|]. fold p. eauto. }
      assert (Hrev : JS.num_or (rf_revision rfile) 0 = r)
        by (eapply download_answers_request; eauto).
      assert (Hother : ∀ q, q ≠ p -> served w1 q = served w q).
      { intros q Hq. apply served_ext; [by apply Hframe|done]. }
      assert (Hp1 : is_Some (served w1 p) ∧ storedRevision w1 p = r).
      { unfold storedRevision.
        rewrite (served_ext w1 _ p (f_equal (.!! p) Hmeta)).
        - rewrite served_assign. split; [eauto|]. simpl. rewrite <- Hrev. apply num_or_idem.
        - rewrite Hproto1. symmetry. apply prototype_assign. by left. }
      destruct Hp1 as [Hsome1 Hrev1].
      assert (Hmono1 : ∀ q, is_Some (served w q) ->
                is_Some (served w1 q) ∧ storedRevision w q ≤ storedRevision w1 q).
      { intros q Hq. destruct (decide (q = p)) as [-> |Hne].
        - split; [done|]. rewrite Hrev1.
          apply downloadDue_spec in Hguard as [Hnone|Hlt].
          + rewrite Hnone in Hq. by destruct Hq.
          + unfold storedRevision. lia.
        - unfold storedRevision. rewrite (Hother q Hne). split; [done|lia]. }
      split.
      * intros q Hq. destruct (Hmono1 q Hq) as (Hq1 & Hle1).
        destruct (Hmono q Hq1) as (Hq' & Hle'). split; [done|lia].
      * intros g Hg. apply elem_of_cons in Hg as [-> |Hg]; [|by apply Hcover].
        fold p r. destruct (Hmono p Hsome1) as (Hq' & Hle'). split; [done|lia].
  - (* the descriptor is skipped *)
    destruct (IH _ _ _ _ Hrun Hnames')
      as (Hview & Hclock & Hset' & Hproto' & Hfold' & Hdated & Hle & Heq).
    split_and!; try done.
    intros Hall Hnofolder.
    destruct (Heq Hall ltac:(intros g Hg; apply Hnofolder; by right)) as (Hmono & Hcover).
    split; [done|].
    intros g Hg. apply elem_of_cons in Hg as [-> |Hg]; [|by apply Hcover].
    fold p r. apply downloadDue_false in Hguard as [Hsome Hr].
    destruct (Hmono p Hsome) as (Hq' & Hle'). split; [done|]. unfold storedRevision in *. lia.
Qed.

Lemma upwardSync_cons fuel file rest u (w : World E) :
  upwardSync net host fuel (file :: rest) u w
  = if match served w file with
       | None => true
       | Some v => Obj.olderThan v (stat_mtime w file)
       end
    then bind (uploadFile net host fuel file)
           (fun result => upwardSync net host fuel rest (if result then S u else u)) w
    else upwardSync net host fuel rest u w.
Proof.
  unfold served. simpl. unfold bind at 1, getMetadata, get. unfold bind at 1.
  by destruct (match Obj.or_null (lookupProperty w file) with
               | Some v => _ | None => _ end).
Qed.

(** The upward loop over files none of which is named [__proto__]: the
    counter grows by at most the activity, and by exactly the activity
    only if every upload succeeded; in that case the vault and the
    prototype of the store object are untouched, the store stays covered
    and every file of the loop is settled. *)
Lemma upward_pass fuel files : ∀ u w u' w',
  upwardSync net host fuel files u w = (Val u', w') ->
  (∀ f, f ∈ files -> f ≠ "__proto__"%string) ->
  (u' + activity w ≤ u + activity w')%nat
  ∧ ((u' + activity w = u + activity w')%nat ->
     NoDup files -> Dated host w ->
     vault w' = vault w
     ∧ settings w' = settings w
     ∧ prototype w' = prototype w
     ∧ (Covered view w -> Covered view w')
     ∧ Settled files w'
     ∧ (∀ q, q ∉ files -> served w' q = served w q)).
Proof.
  induction files as [|file rest IH]; intros u w u' w'.
  { simpl. intros [= <- <-] _. split; [lia|]. intros _ _ _. split_and!; try done.
    intros p Hp. by apply elem_of_nil in Hp. }
  rewrite upwardSync_cons. intros Hrun Hnames.
  assert (Hfile_name : file ≠ "__proto__"%string) by (apply Hnames; by left).
  assert (Hnames' : ∀ g, g ∈ rest -> g ≠ "__proto__"%string)
    by (intros g Hg; apply Hnames; by right).
  destruct (match served w file with
            | Some v => Obj.olderThan v (stat_mtime w file)
            | None => true
            end) eqn:Hguard.
  - (* the file is uploaded *)
    unfold bind in Hrun.
    destruct (uploadFile net host fuel file w) as [[b|msg|] w1] eqn:Hup; try discriminate.
    destruct (IH _ _ _ _ Hrun Hnames') as (Hle & Heq).
    destruct b.
    + destruct (uploadFile_true _ _ _ _ _ _ Hup)
        as (content & mt & result & e' & Hfile & _ & Hnet & Hs & Hw1).
      cbv zeta in Hw1.
      set (rec := spread (default (VRecord (blank file)) (served w file))
                    (uploadedMeta w file result (Host.now host e')) file) in Hw1.
      set (wi := issue (ReqUpload file content (optionsFor w file)) e' w) in Hw1.
      assert (Hact : activity w1 = (activity w + 1)%nat).
      { rewrite Hw1. unfold activity. simpl.
        rewrite requests_assign, console_assign. simpl. lia. }
      split; [lia|]. intros Hall Hnodup Hdated.
      apply NoDup_cons in Hnodup as [Hnotin Hnodup].
      assert (Hclock : Host.now host (env w) ≤ Host.now host e')
        by (eapply clock_after_upload; eauto).
      assert (Hv1 : vault w1 = vault w) by (rewrite Hw1; simpl; by rewrite vault_assign).
      assert (He1 : env w1 = e') by (rewrite Hw1; simpl; by rewrite env_assign).
      assert (Hset1 : settings w1 = settings w)
        by (rewrite Hw1; simpl; by rewrite settings_assign).
      assert (Hproto1 : prototype w1 = prototype w)
        by (rewrite Hw1; simpl; rewrite prototype_assign; [done|by left]).
      assert (Hdated1 : Dated host w1).
      { intros q c t. rewrite Hv1. intros Hq. specialize (Hdated _ _ _ Hq).
        rewrite He1. lia. }
      destruct (Heq ltac:(lia) Hnodup Hdated1)
        as (Hv & Hset & Hproto & Hcov & Hsettled & Hframe).
      assert (Hserved1 : served w1 file = Some (VRecord rec)).
      { rewrite Hw1. rewrite (served_ext _ (assign file rec wi) file) by done.
        apply served_assign. }
      assert (Hother : ∀ q, q ≠ file -> served w1 q = served w q).
      { intros q Hq. rewrite Hw1.
        rewrite (served_ext _ (assign file rec wi) q) by done.
        rewrite served_assign_ne; [done|done|by left]. }
      split_and!.
      * congruence.
      * congruence.
      * congruence.
      * intros Hc. apply Hcov. intros p r. rewrite He1.
        rewrite (upload_updates_view _ _ _ coherent _ _ _ _ _ _ Hnet Hs).
        destruct (decide (p = file)) as [-> |Hne].
        -- rewrite lookup_insert_eq. intros [= <-]. unfold storedRevision.
           rewrite Hserved1. split; [eauto|]. unfold rec. simpl.
           destruct (Z.eqb_spec (JS.num_or (ur_file result ≫= rf_revision) 0) 0); lia.
        -- rewrite lookup_insert_ne by done. intros Hp.
           unfold storedRevision. rewrite (Hother p Hne). by apply Hc.
      * intros p Hp. apply elem_of_cons in Hp as [-> |Hp]; [|by apply Hsettled].
        exists (VRecord rec). split; [by rewrite Hframe|].
        unfold stat_mtime. rewrite Hv, Hv1, Hfile. unfold rec. simpl.
        specialize (Hdated _ _ _ Hfile). apply Z.ltb_ge. lia.
      * intros q Hq. apply not_elem_of_cons in Hq as [Hne Hq].
        rewrite Hframe by done. by apply Hother.
    + pose proof (uploadFile_false_active _ _ _ _ _ _ Hup). split; lia.
  - (* the file is skipped *)
    destruct (IH _ _ _ _ Hrun Hnames') as (Hle & Heq).
    split; [done|]. intros Hall Hnodup Hdated.
    apply NoDup_cons in Hnodup as [Hnotin Hnodup].
    destruct (Heq Hall Hnodup Hdated) as (Hv & Hset & Hproto & Hcov & Hsettled & Hframe).
    split_and!; try done.
    + intros p Hp. apply elem_of_cons in Hp as [-> |Hp]; [|by apply Hsettled].
      rewrite Hframe by done.
      destruct (served w file) as [v|]; [|done]. exists v. split; [done|].
      unfold stat_mtime in *. by rewrite Hv.
    + intros q Hq. apply not_elem_of_cons in Hq as [Hne Hq]. by apply Hframe.
Qed.

(** A pass over a covered and settled state transfers nothing. *)
Lemma downward_noop remoteFiles : ∀ d w,
  (∀ f, f ∈ remoteFiles ->
        is_Some (served w (rf_path f))
        ∧ JS.num_or (rf_revision f) 0 ≤ storedRevision w (rf_path f)) ->
  downwardSync net host remoteFiles d w = (Val d, w).
Proof.
  induction remoteFiles as [|f rest IH]; intros d w Hcov; [done|].
  rewrite downwardSync_cons.
  rewrite (proj2 (downloadDue_false _ _) (Hcov f ltac:(by left))).
  apply IH. intros g Hg. apply Hcov. by right.
Qed.

Lemma upward_noop fuel files : ∀ u w,
  Settled files w -> upwardSync net host fuel files u w = (Val u, w).
Proof.
  induction files as [|file rest IH]; intros u w Hs; [done|].
  rewrite upwardSync_cons.
  destruct (Hs file ltac:(by left)) as (v & -> & ->).
  apply IH. intros g Hg. apply Hs. by right.
Qed.

Lemma Settled_ext files (w w' : World E) :
  metadata w' = metadata w -> prototype w' = prototype w -> vault w' = vault w ->
  Settled files w -> Settled files w'.
Proof.
  intros Hm Hp Hv Hs p Hpin. destruct (Hs p Hpin) as (v & Hmp & Hle).
  exists v. unfold stat_mtime in *. rewrite Hv.
  by rewrite (served_ext w' w p (f_equal (.!! p) Hm) Hp).
Qed.

Lemma getFiles_ext (w w' : World E) : vault w' = vault w -> getFiles w' = getFiles w.
Proof. unfold getFiles. by intros ->. Qed.

Lemma getFiles_NoDup (w : World E) : NoDup (List.filter shouldSyncFile (getFiles w)).
Proof.
  apply NoDup_ListNoDup. apply List.NoDup_filter. unfold getFiles.
  apply List.NoDup_filter. apply NoDup_ListNoDup, NoDup_fst_map_to_list.
Qed.

(** The [try] block of a pass over a covered and settled state. *)
Lemma syncPass_noop fuel silent w res e fs :
  NetworkClient.listFiles net (env w) = (Returned res, e) ->
  lr_success res = true -> lr_files res = Some fs ->
  (∀ f, f ∈ fs ->
        is_Some (served w (rf_path f))
        ∧ JS.num_or (rf_revision f) 0 ≤ storedRevision w (rf_path f)) ->
  Settled (List.filter shouldSyncFile (getFiles w)) w ->
  syncPass net host fuel silent w
  = (Val (0%nat, 0%nat),
     if silent then issue ReqList e w else add_notice SyncUpToDate (issue ReqList e w)).
Proof.
  intros Hlist Hs Hf Hcov Hsettled. unfold syncPass.
  unfold bind at 1. unfold call. rewrite Hlist, Hs, Hf.
  unfold bind at 1. rewrite downward_noop by done.
  unfold bind at 1. unfold get at 1. unfold bind at 1.
  rewrite upward_noop by (by apply (Settled_ext _ w)).
  by destruct silent.
Qed.

Lemma syncPass_aborts fuel silent w o e :
  NetworkClient.listFiles net (env w) = (o, e) ->
  (∀ res fs, o = Returned res -> lr_success res = true -> lr_files res = Some fs -> False) ->
  ∃ msg, syncPass net host fuel silent w = (Exn msg, issue ReqList e w).
Proof.
  intros Hlist Hbad. unfold syncPass. unfold bind at 1. unfold call. rewrite Hlist.
  destruct o as [res|msg]; [|eauto].
  destruct (lr_success res) eqn:Hs; [|unfold throw; eauto].
  destruct (lr_files res) as [fs|] eqn:Hf; [|unfold throw; eauto].
  destruct (Hbad res fs); done.
Qed.

Lemma syncVault_started fuel silent w :
  token (settings w) ≠ EmptyString ->
  isSyncing w = false ->
  syncVault net host fuel silent w
  = try_finally
      (try_catch (bind (syncPass net host fuel silent) (fun _ => ret tt))
         (fun error =>
            bind (console_error ("Sync failed: " +:+ error))
                 (fun _ => notice (SyncFailed error))))
      (set_isSyncing false) (started silent w).
Proof.
  intros Htoken Hidle. unfold syncVault, started.
  unfold bind at 1. unfold get at 1. rewrite bool_decide_eq_false_2 by done.
  unfold bind at 1. unfold get at 1. rewrite Hidle.
  unfold bind at 1. unfold modify_world at 1.
  unfold bind at 1. by destruct silent.
Qed.

(** C1, as the code has it. With a transport that lists every file at the
    revision it holds, answers a download with the requested revision and
    holds the revision it reports on an upload, a server that holds no
    file named [__proto__], and a clock that does not run backwards:
    after a first pass from a vault without files dated in the future,
    which logged no error, all of whose calls after the listing were the
    downloads and uploads counted in its summary, and which left no path
    of a remote file occupied by a folder, a second pass calls the
    transport for the listing only, and changes neither the store nor the
    vault; its summary, when it has one, reports no transfer. *)
Theorem reconcile_twice fuel silent w0 d u w1 :
  token (settings w0) ≠ EmptyString ->
  isSyncing w0 = false ->
  Dated host w0 ->
  view (env w0) !! "__proto__"%string = None ->
  syncPass net host fuel silent (started silent w0) = (Val (d, u), w1) ->
  console w1 = console w0 ->
  length (requests w1) = (length (requests w0) + 1 + d + u)%nat ->
  (∀ p, is_Some (view (env w0) !! p) -> vault w1 !! p ≠ Some TFolder) ->
  syncVault net host fuel silent w0 = (Val tt, set_isSyncing false w1)
  ∧ ∃ w2,
      syncVault net host fuel silent (set_isSyncing false w1) = (Val tt, w2)
      ∧ requests w2 = ReqList :: requests w1
      ∧ metadata w2 = metadata w1
      ∧ prototype w2 = prototype w1
      ∧ persisted w2 = persisted w1
      ∧ vault w2 = vault w1
      ∧ (∀ res e,
           NetworkClient.listFiles net (env w1) = (Returned res, e) ->
           lr_success res = true -> is_Some (lr_files res) ->
           console w2 = console w1
           ∧ notices w2
             = (if silent then [] else [SyncUpToDate; SyncStarting]) ++ notices w1).
Proof.
  intros Htoken Hidle Hdated Hnoproto Hpass Hconsole Hrequests Hnofolder.
  split.
  { rewrite syncVault_started by done.
    unfold try_finally, try_catch, bind. by rewrite Hpass. }
  (* the first pass, step by step *)
  unfold syncPass in Hpass. unfold bind at 1 in Hpass. unfold call at 1 in Hpass.
  replace (env (started silent w0)) with (env w0) in Hpass by (by destruct silent).
  destruct (NetworkClient.listFiles net (env w0)) as [[res0|msg0] e0] eqn:Hlist0;
    [|discriminate].
  destruct (lr_success res0) eqn:Hs0; [|discriminate].
  destruct (lr_files res0) as [fs1|] eqn:Hf0; [|discriminate].
  set (wl := issue ReqList e0 (started silent w0)) in Hpass.
  unfold bind at 1 in Hpass.
  destruct (downwardSync net host fs1 0 wl) as [[d1|?|] wd] eqn:Hdown; try discriminate.
  unfold bind at 1 in Hpass. unfold get at 1 in Hpass.
  unfold bind at 1 in Hpass.
  destruct (upwardSync net host fuel (List.filter shouldSyncFile (getFiles wd)) 0 wd)
    as [[u1|?|] wu] eqn:Hup; try discriminate.
  assert (Hend : d1 = d ∧ u1 = u ∧ metadata w1 = metadata wu ∧ vault w1 = vault wu
                 ∧ env w1 = env wu ∧ settings w1 = settings wu
                 ∧ persisted w1 = persisted wu ∧ prototype w1 = prototype wu
                 ∧ activity w1 = activity wu).
  { unfold bind, when, notice, modify_world, ret in Hpass.
    destruct silent; simpl in Hpass; [|destruct (_ || _) in Hpass];
      injection Hpass as <- <- <-; done. }
  destruct Hend as (-> & -> & Hm1 & Hv1 & He1 & Hset1 & Hp1 & Hproto1 & Hact1).
  destruct (list_reports_view _ _ _ coherent _ _ _ _ Hlist0 Hs0 Hf0) as (Hview0 & Hsound0 & Hcomplete0).
  pose proof (clock_after_list _ _ _ coherent _ _ _ Hlist0) as Hclock0.
  assert (Hnames : ∀ f, f ∈ fs1 -> rf_path f ≠ "__proto__"%string).
  { intros f Hf Heq. specialize (Hsound0 f Hf). rewrite Heq, Hnoproto in Hsound0. done. }
  assert (Hfiles : ∀ f, f ∈ List.filter shouldSyncFile (getFiles wd) ->
                        f ≠ "__proto__"%string).
  { intros f Hf. apply shouldSyncFile_proto.
    apply list_elem_of_In, List.filter_In in Hf. tauto. }
  destruct (downward_pass _ _ _ _ _ Hdown Hnames)
    as (Hviewd & Hclockd & Hsetd & Hprotod & Hfoldd & Hdatedd & Hled & Heqd).
  destruct (upward_pass _ _ _ _ _ _ Hup Hfiles) as (Hleu & Hequ).
  assert (Hactl : activity wl = (activity w0 + 1)%nat).
  { unfold activity, wl. destruct silent; simpl; lia. }
  assert (Hact : activity w1 = (activity w0 + 1 + d + u)%nat).
  { unfold activity. rewrite Hconsole, Hrequests. lia. }
  assert (Hdatedl : Dated host wl).
  { intros p c t Hp. unfold wl in *. simpl.
    assert (Hp0 : vault w0 !! p = Some (TFile c t)) by (by destruct silent).
    specialize (Hdated _ _ _ Hp0). lia. }
  destruct (Hequ ltac:(lia) (getFiles_NoDup wd) (Hdatedd Hdatedl))
    as (Hvu & Hsetu & Hprotou & Hcovu & Hsettled & _).
  destruct (Heqd ltac:(lia)) as (_ & Hcoverd).
  { intros f Hf. rewrite <- Hvu, <- Hv1. apply Hnofolder.
    rewrite (Hsound0 f Hf). eauto. }
  assert (Hcovered : Covered view w1).
  { intros p r. rewrite He1. intros Hp.
    assert (Hcd : Covered view wd).
    { intros p' r' Hp'. rewrite Hviewd in Hp'. unfold wl in Hp'. simpl in Hp'.
      rewrite Hview0 in Hp'.
      destruct (Hcomplete0 p' ltac:(eauto)) as (f & Hf & <-).
      rewrite (Hsound0 f Hf) in Hp'. injection Hp' as <-. by apply Hcoverd. }
    destruct (Hcovu Hcd p r Hp) as (Hsome & Hr).
    unfold storedRevision in *.
    by rewrite (served_ext w1 wu p (f_equal (.!! p) Hm1) Hproto1). }
  (* the second pass *)
  assert (Htoken1 : token (settings (set_isSyncing false w1)) ≠ EmptyString).
  { simpl. rewrite Hset1, Hsetu, Hsetd. unfold wl. by destruct silent. }
  rewrite syncVault_started by done.
  set (ws := started silent (set_isSyncing false w1)).
  assert (Hws : metadata ws = metadata w1 ∧ vault ws = vault w1 ∧ env ws = env w1
                ∧ persisted ws = persisted w1 ∧ requests ws = requests w1
                ∧ console ws = console w1 ∧ prototype ws = prototype w1
                ∧ notices ws = (if silent then [] else [SyncStarting]) ++ notices w1).
  { unfold ws, started. by destruct silent. }
  destruct Hws as (Hwm & Hwv & Hwe & Hwp & Hwr & Hwc & Hwproto & Hwn).
  destruct (NetworkClient.listFiles net (env w1)) as [o2 e2] eqn:Hlist2.
  rewrite <- Hwe in Hlist2.
  assert (Hcase : (∃ res fs, o2 = Returned res ∧ lr_success res = true
                             ∧ lr_files res = Some fs)
                  ∨ (∀ res fs, o2 = Returned res -> lr_success res = true ->
                               lr_files res = Some fs -> False)).
  { destruct o2 as [res|]; [|right; discriminate].
    destruct (lr_success res) eqn:Hs; [|right; intros ? ? [= <-]; congruence].
    destruct (lr_files res) as [fs|] eqn:Hf; [|right; intros ? ? [= <-]; congruence].
    left. eauto. }
  destruct Hcase as [(res2 & fs2 & -> & Hs2 & Hf2)|Hbad].
  - destruct (list_reports_view _ _ _ coherent _ _ _ _ Hlist2 Hs2 Hf2) as (_ & Hsound2 & _).
    rewrite Hwe in Hsound2.
    unfold try_finally, try_catch, bind.
    rewrite (syncPass_noop fuel silent ws res2 e2 fs2 Hlist2 Hs2 Hf2).
    + unfold ret. eexists. split; [reflexivity|].
      destruct silent; simpl; rewrite ?Hwr, ?Hwm, ?Hwp, ?Hwv, ?Hwc, ?Hwn, ?Hwproto;
        split_and!; done.
    + intros f Hf. unfold storedRevision.
      rewrite (served_ext ws w1 _ (f_equal (.!! rf_path f) Hwm) Hwproto).
      apply Hcovered. by apply Hsound2.
    + rewrite (getFiles_ext wd ws) by congruence.
      apply (Settled_ext _ wu); [congruence|congruence|congruence|done].
  - destruct (syncPass_aborts fuel silent ws o2 e2 Hlist2 Hbad) as (msg & Habort).
    unfold try_finally, try_catch, bind. rewrite Habort.
    unfold console_error, notice, modify_world. eexists. split; [reflexivity|].
    simpl. rewrite Hwr, Hwm, Hwp, Hwv, Hwproto. split_and!; try done.
    intros res e Hl Hs [fs Hf]. rewrite Hwe in Hlist2.
    assert (o2 = Returned res) by congruence. destruct (Hbad res fs); done.
Qed.

End Idempotence.

(** ** The statements on concrete runs *)

Section Examples.

Import Scenario.

(** C2: a download in the downward loop of [a.md], listed at revision 5,
    leaves the parent revision 4 of the server's response in the record,
    not 5. *)
Lemma download_parent_counterexample :
  let run := downwardSync server clockHost [descriptor "a.md" 5 4] 0 fresh in
  run.1 = Val 1%nat
  ∧ requests run.2 = [ReqDownload "a.md" (Some 5)]
  ∧ metadata run.2 !! "a.md" ≫= revision = Some 5
  ∧ metadata run.2 !! "a.md" ≫= parentRevision = Some 4
  ∧ metadata run.2 !! "a.md" ≫= parentRevision ≠ Some 5.
Proof. vm_compute. split_and!; try reflexivity. discriminate. Qed.

(** C2 on a run: what the record of [a.md] holds after the download. *)
Lemma download_records_response_witness :
  let w' := (downloadFile server clockHost "a.md" (Some 5) fresh).2 in
  downloadFile server clockHost "a.md" (Some 5) fresh = (Val true, w')
  ∧ vault fresh !! "a.md" ≠ Some TFolder
  ∧ ∃ result e' rfile m,
      NetworkClient.downloadFile server "a.md" (Some 5) (env fresh) = (Returned result, e')
      ∧ dr_file result = Some rfile
      ∧ getMetadata "a.md" w' = (Val (Some (VRecord m)), w')
      ∧ ("a.md"%string ≠ "__proto__"%string ∨ is_Some (metadata fresh !! "a.md") ->
         metadata w' !! "a.md" = Some m)
      ∧ revision m = Some (JS.num_or (rf_revision rfile) 0)
      ∧ parentRevision m
        = Some (JS.num_or (rf_parentRevision rfile) (JS.num_or (rf_revision rfile) 0))
      ∧ lastSyncedAt m = Some (Host.now clockHost e')
      ∧ (JS.num_or (rf_parentRevision rfile) 0 = 0 -> parentRevision m = revision m).
Proof.
  intros w'.
  assert (Hrun : downloadFile server clockHost "a.md" (Some 5) fresh = (Val true, w'))
    by (vm_compute; reflexivity).
  assert (Hfile : vault fresh !! "a.md" ≠ Some TFolder) by (vm_compute; discriminate).
  split; [exact Hrun|]. split; [exact Hfile|].
  exact (download_records_response server clockHost "a.md" (Some 5) fresh w' Hrun Hfile).
Defined.

(** C3. The server lists a file named [constructor] at revision 0, or
    without revision, and the store has no record for it, in memory or on
    disk: the downward loop reads the function [Object] that the store
    object inherits under that name, finds it truthy and without
    revision, and requests no download; for a file named [notes.md],
    listed likewise, it requests one. *)
Theorem downward_skips_inherited_name :
  let listed name revision :=
    {| rf_path := name; rf_hash := "h"; rf_revision := revision;
       rf_parentRevision := None; rf_size := 6 |} in
  metadata fresh = ∅
  ∧ persisted fresh = ∅
  ∧ prototype fresh = None
  ∧ requests fresh = []
  ∧ getMetadata "constructor" fresh = (Val (Some VNative), fresh)
  ∧ downwardSync server clockHost [listed "constructor" (Some 0)] 0 fresh
    = (Val 0%nat, fresh)
  ∧ downwardSync server clockHost [listed "constructor" None] 0 fresh
    = (Val 0%nat, fresh)
  ∧ requests (downwardSync server clockHost [listed "notes.md" (Some 0)] 0 fresh).2
    = [ReqDownload "notes.md" (Some 0)]
  ∧ requests (downwardSync server clockHost [listed "notes.md" None] 0 fresh).2
    = [ReqDownload "notes.md" (Some 0)].
Proof. vm_compute. split_and!; reflexivity. Qed.

(** C4 on a run: the edited [a.md] is accepted as revision 4. *)
Lemma upload_records_revision_witness :
  let w' := (uploadFile server clockHost 1 "a.md" edited).2 in
  uploadFile server clockHost 1 "a.md" edited = (Val true, w')
  ∧ ∃ content result e' m,
      NetworkClient.uploadFile server "a.md" content (optionsFor edited "a.md") (env edited)
      = (Returned result, e')
      ∧ ur_success result = true
      ∧ getMetadata "a.md" w' = (Val (Some (VRecord m)), w')
      ∧ ("a.md"%string ≠ "__proto__"%string ∨ is_Some (metadata edited !! "a.md") ->
         metadata w' !! "a.md" = Some m)
      ∧ revision m = Some (JS.num_or (ur_file result ≫= rf_revision) 0)
      ∧ parentRevision m = Some (JS.num_or (ur_file result ≫= rf_revision) 0)
      ∧ lastSyncedAt m = Some (Host.now clockHost e')
      ∧ (∀ f r, ur_file result = Some f -> rf_revision f = Some r ->
                revision m = Some r ∧ parentRevision m = Some r).
Proof.
  intros w'.
  assert (Hrun : uploadFile server clockHost 1 "a.md" edited = (Val true, w'))
    by (vm_compute; reflexivity).
  split; [exact Hrun|].
  exact (upload_records_revision server clockHost 1 "a.md" edited w' Hrun).
Defined.

(** C5 on a run: the rejection of the edited [a.md] for a conflict goes
    to the handler, a refusal for lack of space is logged. *)
Lemma uploadFile_rejection_witness :
  let result :=
    {| ur_success := false; ur_file := None;
       ur_error := Some "Conflict detected"%string;
       ur_conflict := Some {| currentRevision := 5; yourParentRevision := 3 |} |} in
  let w1 := issue (ReqUpload "a.md" "edited" (optionsFor edited "a.md")) 1001 edited in
  vault edited !! "a.md" = Some (TFile "edited" 950)
  ∧ Host.refuses clockHost (env edited) "a.md" = false
  ∧ NetworkClient.uploadFile contended "a.md" "edited" (optionsFor edited "a.md") (env edited)
    = (Returned result, 1001)
  ∧ ur_success result = false
  ∧ (∀ conflict,
       ur_error result = Some "Conflict detected"%string ->
       ur_conflict result = Some conflict ->
       uploadFile contended clockHost 2 "a.md" edited
       = bind (handleConflict contended clockHost (uploadFile contended clockHost 1)
                 "a.md" result)
              (fun _ => ret false) w1)
  ∧ (ur_error result ≠ Some "Conflict detected"%string ∨ ur_conflict result = None ->
     uploadFile contended clockHost 2 "a.md" edited
     = (Val false,
        add_console ("Failed to upload " +:+ "a.md" +:+ ": "
                     +:+ default "undefined"%string (ur_error result)) w1)).
Proof.
  intros result w1.
  assert (H1 : vault edited !! "a.md" = Some (TFile "edited" 950)) by (vm_compute; reflexivity).
  assert (H2 : Host.refuses clockHost (env edited) "a.md" = false) by reflexivity.
  assert (H3 : NetworkClient.uploadFile contended "a.md" "edited"
                 (optionsFor edited "a.md") (env edited) = (Returned result, 1001))
    by (vm_compute; reflexivity).
  assert (H4 : ur_success result = false) by reflexivity.
  split; [exact H1|]. split; [exact H2|]. split; [exact H3|]. split; [exact H4|].
  exact (uploadFile_rejection contended clockHost 1 "a.md" edited "edited" 950
           result 1001 H1 H2 H3 H4).
Defined.

(** C6: with the connection lost after the rejection, the handler of a
    conflict without ancestor creates no backup and leaves the local file
    as it was. *)
Lemma manual_fallback_counterexample :
  let run := handleConflict offline clockHost (uploadFile offline clockHost 1)
               "a.md" rejection edited in
  run.1 = Val tt
  ∧ vault run.2 = vault edited
  ∧ notices run.2 = [ConflictError "a.md"; ConflictAutoMerging "a.md"].
Proof. vm_compute. split_and!; reflexivity. Qed.

(** C6 on a run: no ancestor, the server's content is fetched, the backup
    goes under the first name. *)
Lemma manual_fallback_witness :
  let conflict := {| currentRevision := 5; yourParentRevision := 0 |} in
  let w1 := issue (ReqDownload "a.md" (Some 5)) 1001
              (add_notice (ConflictAutoMerging "a.md") edited) in
  let backupPath := conflictFileName clockHost "a.md" 1001 in
  ur_conflict rejection = Some conflict
  ∧ MergeAttemptFails contended clockHost "a.md" conflict edited "edited" "remote" w1
  ∧ BackupCreatable clockHost w1 "a.md" backupPath
  ∧ Host.refuses clockHost (env w1) "a.md" = false
  ∧ ∃ w', handleConflict contended clockHost (uploadFile contended clockHost 1)
            "a.md" rejection edited = (Val tt, w')
      ∧ vault edited !! backupPath = None
      ∧ vault w'
        = <["a.md"%string := TFile (markedDocument "edited" "remote" backupPath)
                                   (Host.now clockHost (env w1))]>
            (<[backupPath := TFile "remote" (Host.now clockHost (env w1))]> (vault edited))
      ∧ vault w' !! backupPath = Some (TFile "remote" (Host.now clockHost (env w1)))
      ∧ dom (vault w') = {[backupPath]} ∪ dom (vault edited)
      ∧ metadata w' = metadata edited
      ∧ prototype w' = prototype edited
      ∧ persisted w' = persisted edited.
Proof.
  intros conflict w1 backupPath.
  assert (H1 : ur_conflict rejection = Some conflict) by reflexivity.
  assert (H2 : MergeAttemptFails contended clockHost "a.md" conflict edited
                 "edited" "remote" w1).
  { exact (NoAncestor contended clockHost "a.md" conflict edited
             {| dr_success := true; dr_file := Some (descriptor "a.md" 5 4);
                dr_content := Some "remote"%string; dr_isConflict := false |}
             1001 "edited" 950
             ltac:(vm_compute; discriminate) ltac:(vm_compute; reflexivity)
             ltac:(vm_compute; reflexivity) ltac:(reflexivity)). }
  assert (H3 : BackupCreatable clockHost w1 "a.md" backupPath).
  { left. split; [reflexivity|]. split; [reflexivity|]. vm_compute. reflexivity. }
  assert (H4 : Host.refuses clockHost (env w1) "a.md" = false) by reflexivity.
  split; [exact H1|]. split; [exact H2|]. split; [exact H3|]. split; [exact H4|].
  exact (manual_fallback contended clockHost (uploadFile contended clockHost 1)
           "a.md" rejection conflict edited "edited" "remote" w1 backupPath H1 H2 H3 H4).
Defined.

(** C7: without a connection the delete request rejects and the record of
    [a.md] stays; and after a download of a file named [__proto__] has
    made its record the prototype of the store object, a deletion that
    the server accepts returns true and the store still serves the
    record. *)
Lemma deleteFile_keeps_metadata_counterexample :
  let run := deleteFile offline clockHost "a.md" synced in
  let downloaded := (downloadFile server clockHost "__proto__" (Some 5) fresh).2 in
  let run' := deleteFile server clockHost "__proto__" downloaded in
  (is_Some (metadata synced !! "a.md")
   ∧ run.1 = Val false
   ∧ metadata run.2 !! "a.md" = Some (record "a.md" 5 900))
  ∧ (served downloaded "__proto__"
     = Some (VRecord {| path := "__proto__"; hash := Some "h"%string; size := Some 6;
                        revision := Some 5; parentRevision := Some 4;
                        lastSyncedAt := Some 1001;
                        deviceId := Some "device-1"%string; indexed := EmptyString |})
     ∧ run'.1 = Val true
     ∧ served run'.2 "__proto__" = served downloaded "__proto__").
Proof. vm_compute. split_and!; try reflexivity; by eexists. Qed.

(** C7 on a run: the server reports a conflict on the delete, the record
    is gone. *)
Lemma deleteFile_clears_metadata_witness :
  let result :=
    {| del_success := true;
       del_conflict := Some {| currentRevision := 5; yourParentRevision := 3 |} |} in
  NetworkClient.deleteFile contended "a.md" (optionsFor synced "a.md") (env synced)
  = (Returned result, 1001)
  ∧ ∃ w', deleteFile contended clockHost "a.md" synced
          = (Val (match served synced "a.md" with
                  | Some _ => del_success result
                              && negb (Host.refuses clockHost 1001
                                         (Host.metadataPath clockHost))
                  | None => del_success result
                  end), w')
      ∧ metadata w' !! "a.md" = None
      ∧ prototype w' = prototype synced
      ∧ lookupProperty w' "a.md" = Obj.inherited (prototype synced) "a.md"
      ∧ (Obj.inherited (prototype synced) "a.md" = None ->
         getMetadata "a.md" w' = (Val None, w')).
Proof.
  intros result.
  assert (H1 : NetworkClient.deleteFile contended "a.md" (optionsFor synced "a.md")
                 (env synced) = (Returned result, 1001)) by (vm_compute; reflexivity).
  split; [exact H1|].
  exact (deleteFile_clears_metadata contended clockHost "a.md" synced result 1001 H1).
Defined.

(** C8: the standalone download of revision 3 of [a.md], stored at
    revision 5, succeeds and leaves revision 3 in the record. *)
Lemma stored_revision_regresses_counterexample :
  let run := downloadFile server clockHost "a.md" (Some 3) synced in
  metadata synced !! "a.md" ≫= revision = Some 5
  ∧ run.1 = Val true
  ∧ metadata run.2 !! "a.md" ≫= revision = Some 3
  ∧ storedRevision synced "a.md" = 5
  ∧ storedRevision run.2 "a.md" = 3.
Proof. vm_compute. split_and!; reflexivity. Qed.

(** C8 on a run: the download of revision 5 over the record at revision 3. *)
Lemma stored_revision_monotone_witness :
  let w' := (downloadFile server clockHost "a.md" (Some 5) edited).2 in
  downloadFile server clockHost "a.md" (Some 5) edited = (Val true, w')
  ∧ storedRevision edited "a.md" = 3
  ∧ ∃ result e' rfile,
      NetworkClient.downloadFile server "a.md" (Some 5) (env edited) = (Returned result, e')
      ∧ dr_success result = true
      ∧ dr_file result = Some rfile
      ∧ (vault edited !! "a.md" ≠ Some TFolder ->
         storedRevision w' "a.md" = JS.num_or (rf_revision rfile) 0)
      ∧ (vault edited !! "a.md" = Some TFolder ->
         storedRevision w' "a.md" = storedRevision edited "a.md")
      ∧ (storedRevision edited "a.md" ≤ JS.num_or (rf_revision rfile) 0 ->
         storedRevision edited "a.md" ≤ storedRevision w' "a.md").
Proof.
  intros w'.
  assert (H1 : downloadFile server clockHost "a.md" (Some 5) edited = (Val true, w'))
    by (vm_compute; reflexivity).
  split; [exact H1|]. split; [vm_compute; reflexivity|].
  exact (proj1 (stored_revision_monotone server clockHost "a.md" edited w') (Some 5) H1).
Defined.

(** C9: with the token cleared while a pass is in flight, [syncVault]
    shows the notice about the missing token, not the one about the pass
    in progress. *)
Lemma syncVault_busy_counterexample :
  let run := syncVault server clockHost 1 false busyLoggedOut in
  isSyncing busyLoggedOut = true
  ∧ run.1 = Val tt
  ∧ notices run.2 = [NotAuthenticated]
  ∧ SyncInProgress ∉ notices run.2.
Proof.
  vm_compute. split_and!; try reflexivity.
  intros H. apply list_elem_of_In in H. destruct H as [H|[]]. discriminate.
Qed.

(** C9 on a run. *)
Lemma syncVault_busy_witness :
  isSyncing busy = true
  ∧ busyNotice busy = SyncInProgress
  ∧ syncVault server clockHost 1 false busy = (Val tt, add_notice (busyNotice busy) busy)
  ∧ (token (settings busy) ≠ EmptyString -> busyNotice busy = SyncInProgress)
  ∧ requests (add_notice (busyNotice busy) busy) = requests busy
  ∧ metadata (add_notice (busyNotice busy) busy) = metadata busy
  ∧ prototype (add_notice (busyNotice busy) busy) = prototype busy
  ∧ persisted (add_notice (busyNotice busy) busy) = persisted busy
  ∧ vault (add_notice (busyNotice busy) busy) = vault busy
  ∧ env (add_notice (busyNotice busy) busy) = env busy
  ∧ isSyncing (add_notice (busyNotice busy) busy) = true
  ∧ notices (add_notice (busyNotice busy) busy) = busyNotice busy :: notices busy.
Proof.
  assert (H1 : isSyncing busy = true) by reflexivity.
  split; [exact H1|]. split; [vm_compute; reflexivity|].
  exact (syncVault_busy server clockHost 1 false busy H1).
Defined.

(** C10 on runs: without a connection the three operations return false;
    so does a download when the file cannot be written or the store
    cannot be saved. *)
Lemma single_file_operations_catch_witness :
  (∃ w', uploadFile offline clockHost 1 "a.md" edited = (Val false, w'))
  ∧ (∃ w', uploadFile offline clockHost 1 "gone.md" edited = (Val false, w'))
  ∧ (∃ w', downloadFile offline clockHost "a.md" None edited = (Val false, w'))
  ∧ (∃ w', deleteFile offline clockHost "a.md" edited = (Val false, w'))
  ∧ (∃ w', downloadFile server readOnly "a.md" (Some 5) edited = (Val false, w'))
  ∧ (∃ w', downloadFile server Cases.lockedStore "a.md" (Some 5) edited = (Val false, w'))
  ∧ (∃ w', deleteFile server Cases.lockedStore "a.md" edited = (Val false, w')).
Proof.
  destruct (single_file_operations_catch offline clockHost)
    as (_ & _ & _ & Hread & Hnet & _ & Hdown & Hdel).
  split_and!.
  - apply (Hnet 0%nat "a.md"%string edited "edited"%string "Failed to fetch"%string 1001);
      vm_compute; reflexivity.
  - apply (Hread 0%nat "gone.md"%string edited "ENOENT"%string). vm_compute. reflexivity.
  - destruct (Hdown "a.md"%string None edited) as (b & w' & Hrun & Hfalse & _).
    rewrite (Hfalse "Failed to fetch"%string 1001) in Hrun by (vm_compute; reflexivity).
    eauto.
  - destruct (Hdel "a.md"%string edited) as (b & w' & Hrun & Hfalse & _).
    rewrite (Hfalse "Failed to fetch"%string 1001) in Hrun by (vm_compute; reflexivity).
    eauto.
  - destruct (single_file_operations_catch server readOnly)
      as (_ & _ & _ & _ & _ & _ & Hdown' & _).
    destruct (Hdown' "a.md"%string (Some 5) edited) as (b & w' & Hrun & _ & Hfalse).
    destruct (Hfalse _ 1001 eq_refl) as (_ & _ & Hwrite & _).
    rewrite Hwrite in Hrun; [eauto|vm_compute; discriminate|reflexivity].
  - destruct (single_file_operations_catch server Cases.lockedStore)
      as (_ & _ & _ & _ & _ & _ & Hdown' & _).
    destruct (Hdown' "a.md"%string (Some 5) edited) as (b & w' & Hrun & _ & Hfalse).
    destruct (Hfalse _ 1001 eq_refl) as (_ & _ & _ & Hstore).
    rewrite Hstore in Hrun; [eauto|vm_compute; discriminate|reflexivity].
  - destruct (single_file_operations_catch server Cases.lockedStore)
      as (_ & _ & _ & _ & _ & _ & _ & Hdel').
    destruct (Hdel' "a.md"%string edited) as (b & w' & Hrun & _ & Hfalse).
    rewrite (Hfalse _ 1001 eq_refl) in Hrun;
      [eauto|vm_compute; eauto|reflexivity].
Defined.

(** The cloud of the scenarios is a coherent server. *)
Lemma cloud_coherent : Coherent cloud cloudHost held.
Proof.
  split.
  - intros e res e' fs [= <- <-] _ [= <-]. split; [done|]. split.
    + intros f Hf. apply list_elem_of_fmap in Hf as ([p r] & -> & Hin).
      apply elem_of_map_to_list in Hin. simpl. rewrite Hin. f_equal.
      destruct (Z.eqb_spec r 0); congruence.
    + intros p [r Hp]. exists (descriptor p r (r - 1)). split; [|done].
      apply list_elem_of_fmap. exists (p, r). split; [done|].
      by apply elem_of_map_to_list.
  - by intros p rev e o e' [= <- <-].
  - intros p r e res e' f [= <- <-] _ [= <-]. simpl.
    destruct (Z.eqb_spec r 0); congruence.
  - intros p c o e res e'. simpl. unfold cloudUpload.
    destruct (o_parentRevision o =? _); intros [= <- <-]; [|done].
    intros _. simpl. f_equal.
    destruct (Z.eqb_spec (default 0 (held e !! p) + 1) 0); congruence.
  - intros e o e' [= <- <-]. simpl. lia.
  - intros p rev e o e' [= <- <-]. simpl. lia.
  - intros p c o e res e'. simpl. unfold cloudUpload.
    destruct (o_parentRevision o =? _); intros [= <- <-]; simpl; lia.
Qed.

(** The archive of the scenarios is a coherent server. *)
Lemma archive_coherent : Coherent archive clockHost (fun _ => archived).
Proof.
  split.
  - intros e res e' fs [= <- <-] _ [= <-]. split; [done|]. split.
    + intros f Hf. apply list_elem_of_In in Hf. simpl in Hf.
      destruct Hf as [<- |[<- |[]]]; reflexivity.
    + intros p [r Hp]. unfold archived in Hp.
      apply lookup_insert_Some in Hp as [[<- _]|[_ Hp]].
      * eexists. split; [apply list_elem_of_In; left; reflexivity|done].
      * apply lookup_singleton_Some in Hp as [<- _].
        eexists. split; [apply list_elem_of_In; right; left; reflexivity|done].
  - done.
  - intros p r e res e' f [= <- <-] _ [= <-]. simpl.
    destruct (Z.eqb_spec r 0); congruence.
  - intros p c o e res e' [= <- <-]. done.
  - intros e o e' [= <- <-]. simpl. lia.
  - intros p rev e o e' [= <- <-]. simpl. lia.
  - intros p c o e res e' [= <- <-]. simpl. lia.
Qed.

(** C1: two passes in a row over a coherent server, each of them
    reporting a transfer and no error: the first scenario downloads the
    file [notes] onto the folder [notes] in both passes, the second
    uploads in both passes a note dated after the current time. In the
    third the server holds a file named [__proto__], whose record an
    earlier download has made the prototype of the store object, and a
    file named [hash] at revision 0: the first pass skips [hash], for
    which the store serves the hash of that record, and downloads the
    new revision of [__proto__], which comes without hash; the second
    pass then finds nothing under [hash] and downloads it. *)
Lemma reconcile_twice_counterexample :
  let first := syncVault cloud cloudHost 1 false folderInTheWay in
  let second := syncVault cloud cloudHost 1 false first.2 in
  let first' := syncVault cloud cloudHost 1 false postdatedNote in
  let second' := syncVault cloud cloudHost 1 false first'.2 in
  let first'' := syncVault archive clockHost 1 false polluted in
  let second'' := syncVault archive clockHost 1 false first''.2 in
  (first.1 = Val tt
   ∧ notices first.2 = [SyncCompleted 1 0; SyncStarting]
   ∧ console first.2 = []
   ∧ second.1 = Val tt
   ∧ requests second.2 = [ReqDownload "notes" (Some 5); ReqList] ++ requests first.2
   ∧ notices second.2 = [SyncCompleted 1 0; SyncStarting] ++ notices first.2)
  ∧ (first'.1 = Val tt
     ∧ notices first'.2 = [SyncCompleted 0 1; SyncStarting]
     ∧ console first'.2 = []
     ∧ second'.1 = Val tt
     ∧ requests second'.2
       = [ReqUpload "b.md" "draft" {| o_parentRevision := 1; o_deviceId := "device-1" |};
          ReqList] ++ requests first'.2
     ∧ notices second'.2 = [SyncCompleted 0 1; SyncStarting] ++ notices first'.2)
  ∧ (Coherent archive clockHost (fun _ => archived)
     ∧ vault polluted = ∅
     ∧ first''.1 = Val tt
     ∧ requests first''.2 = [ReqDownload "__proto__" (Some 5); ReqList]
     ∧ notices first''.2 = [SyncCompleted 1 0; SyncStarting]
     ∧ console first''.2 = []
     ∧ vault first''.2 !! "hash" = None
     ∧ second''.1 = Val tt
     ∧ requests second''.2 = [ReqDownload "hash" (Some 0); ReqList] ++ requests first''.2
     ∧ notices second''.2 = [SyncCompleted 1 0; SyncStarting] ++ notices first''.2).
Proof.
  split; [|split]; [vm_compute; split_and!; reflexivity..|].
  split; [exact archive_coherent|]. vm_compute. split_and!; reflexivity.
Qed.

(** C1 on a run: the first pass downloads [a.md] and uploads [b.md], the
    second one lists and transfers nothing. *)
Lemma reconcile_twice_witness :
  let w1 := (syncPass cloud cloudHost 1 false (started false firstSync)).2 in
  Coherent cloud cloudHost held
  ∧ token (settings firstSync) ≠ EmptyString
  ∧ isSyncing firstSync = false
  ∧ Dated cloudHost firstSync
  ∧ held (env firstSync) !! "__proto__"%string = None
  ∧ syncPass cloud cloudHost 1 false (started false firstSync) = (Val (1%nat, 1%nat), w1)
  ∧ console w1 = console firstSync
  ∧ length (requests w1) = (length (requests firstSync) + 1 + 1 + 1)%nat
  ∧ (∀ p, is_Some (held (env firstSync) !! p) -> vault w1 !! p ≠ Some TFolder)
  ∧ syncVault cloud cloudHost 1 false firstSync = (Val tt, set_isSyncing false w1)
  ∧ ∃ w2,
      syncVault cloud cloudHost 1 false (set_isSyncing false w1) = (Val tt, w2)
      ∧ requests w2 = ReqList :: requests w1
      ∧ metadata w2 = metadata w1
      ∧ prototype w2 = prototype w1
      ∧ persisted w2 = persisted w1
      ∧ vault w2 = vault w1
      ∧ (∀ res e,
           NetworkClient.listFiles cloud (env w1) = (Returned res, e) ->
           lr_success res = true -> is_Some (lr_files res) ->
           console w2 = console w1
           ∧ notices w2 = [SyncUpToDate; SyncStarting] ++ notices w1).
Proof.
  intros w1.
  assert (H1 : token (settings firstSync) ≠ EmptyString) by (vm_compute; discriminate).
  assert (H2 : isSyncing firstSync = false) by reflexivity.
  assert (H3 : Dated cloudHost firstSync).
  { intros p c t Hp. unfold firstSync, cloudWorld in Hp. cbn [vault] in Hp.
    apply lookup_singleton_Some in Hp as [_ Hp].
    injection Hp as <- <-. vm_compute. discriminate. }
  assert (H0 : held (env firstSync) !! "__proto__"%string = None)
    by (vm_compute; reflexivity).
  assert (H4 : syncPass cloud cloudHost 1 false (started false firstSync)
               = (Val (1%nat, 1%nat), w1)) by (vm_compute; reflexivity).
  assert (H5 : console w1 = console firstSync) by (vm_compute; reflexivity).
  assert (H6 : length (requests w1) = (length (requests firstSync) + 1 + 1 + 1)%nat)
    by (vm_compute; reflexivity).
  assert (H7 : ∀ p, is_Some (held (env firstSync) !! p) -> vault w1 !! p ≠ Some TFolder).
  { intros p [r Hp]. unfold firstSync, cloudWorld in Hp. cbn [env held] in Hp.
    apply lookup_singleton_Some in Hp as [<- _].
    vm_compute. discriminate. }
  split; [exact cloud_coherent|].
  split; [exact H1|]. split; [exact H2|]. split; [exact H3|]. split; [exact H0|].
  split; [exact H4|].
  split; [exact H5|]. split; [exact H6|]. split; [exact H7|].
  exact (reconcile_twice cloud cloudHost held cloud_coherent 1 false firstSync
           1%nat 1%nat w1 H1 H2 H3 H0 H4 H5 H6 H7).
Defined.

End Examples.


(** ** Further properties of the engine *)


Section Frame.

Context {E : Type}.
Variable net : NetworkClient.t E.
Variable host : Host.t E.

(** *** A frame rule for the engine

    [R] is a relation between the states before and after a run that the
    elementary updates of the engine satisfy, those of the store for the
    paths [P] and those of the transport for the calls [Q]. *)
Variable R : World E -> World E -> Prop.
Variable Q : Request -> Prop.
Variable P : string -> Prop.

Hypothesis R_refl : ∀ w, R w w.
Hypothesis R_trans : ∀ w1 w2 w3, R w1 w2 -> R w2 w3 -> R w1 w3.
Hypothesis R_notice : ∀ n w, R w (add_notice n w).
Hypothesis R_console : ∀ s w, R w (add_console s w).
Hypothesis R_issue : ∀ r e w, Q r -> R w (issue r e w).
Hypothesis R_write : ∀ p c t w,
  vault w !! p = None ∨ is_TFile (vault w !! p) = true ->
  R w (set_vault (<[p := TFile c t]> (vault w)) w).

Lemma Steps_ret {A} (a : A) : Steps R (@ret E A a).
Proof. intros w r w' [= <- <-]. apply R_refl. Qed.

Lemma Steps_throw {A} msg : Steps R (@throw E A msg).
Proof. intros w r w' [= <- <-]. apply R_refl. Qed.

Lemma Steps_get {A} (f : World E -> A) : Steps R (get f).
Proof. intros w r w' [= <- <-]. apply R_refl. Qed.

Lemma Steps_bind_get {A B} (f : World E -> A) (k : A -> @M E B) :
  (∀ w0, Steps R (k (f w0))) -> Steps R (bind (get f) k).
Proof. intros Hk w r w'. unfold bind, get. apply Hk. Qed.

Lemma Steps_bind {A B} (m : @M E A) (k : A -> @M E B) :
  Steps R m -> (∀ a, Steps R (k a)) -> Steps R (bind m k).
Proof.
  intros Hm Hk w r w'. unfold bind.
  destruct (m w) as [[a|msg|] w1] eqn:Hrun; specialize (Hm _ _ _ Hrun).
  - intros Hrun2. eapply R_trans; [done|]. by eapply Hk.
  - by intros [= <- <-].
  - by intros [= <- <-].
Qed.

Lemma Steps_try_catch {A} (m : @M E A) (h : string -> @M E A) :
  Steps R m -> (∀ e, Steps R (h e)) -> Steps R (try_catch m h).
Proof.
  intros Hm Hh w r w'. unfold try_catch.
  destruct (m w) as [[a|msg|] w1] eqn:Hrun; specialize (Hm _ _ _ Hrun).
  - by intros [= <- <-].
  - intros Hrun2. eapply R_trans; [done|]. by eapply Hh.
  - by intros [= <- <-].
Qed.

Lemma Steps_notice n : Steps R (@notice E n).
Proof. intros w r w' [= <- <-]. apply R_notice. Qed.

Lemma Steps_console_error s : Steps R (@console_error E s).
Proof. intros w r w' [= <- <-]. apply R_console. Qed.

Lemma Steps_call {A} r (f : E -> Outcome A * E) : Q r -> Steps R (call r f).
Proof.
  intros Hq w res w'. unfold call.
  destruct (f (env w)) as [[a|msg] e]; intros [= <- <-]; by apply R_issue.
Qed.

Lemma Steps_guard_fs p : Steps R (guard_fs host p).
Proof. intros w r w'. unfold guard_fs. case_match; intros [= <- <-]; apply R_refl. Qed.

Lemma Steps_vault_read p : Steps R (vault_read host p).
Proof.
  apply Steps_bind; [apply Steps_guard_fs|]. intros _.
  apply Steps_bind; [apply Steps_get|].
  intros [[]|]; first [apply Steps_ret|apply Steps_throw].
Qed.

Lemma Steps_vault_modify p data : Steps R (vault_modify host p data).
Proof.
  intros w r w'. unfold vault_modify, bind, guard_fs, get, throw, modify_world.
  destruct (Host.refuses host (env w) p); [intros [= <- <-]; apply R_refl|].
  destruct (vault w !! p) as [[c t|]|] eqn:Hp; intros [= <- <-]; try apply R_refl.
  apply R_write. right. by rewrite Hp.
Qed.

Lemma Steps_vault_create p data : Steps R (vault_create host p data).
Proof.
  intros w r w'. unfold vault_create, bind, guard_fs, get, throw, modify_world.
  destruct (Host.refuses host (env w) p); [intros [= <- <-]; apply R_refl|].
  destruct (vault w !! p) as [f|] eqn:Hp; intros [= <- <-]; try apply R_refl.
  apply R_write. by left.
Qed.

Lemma Steps_handleManualConflict file localContent serverContent :
  Steps R (handleManualConflict host file localContent serverContent).
Proof.
  unfold handleManualConflict.
  apply Steps_bind; [apply Steps_notice|]. intros _.
  apply Steps_bind; [apply Steps_get|]. intros t.
  apply Steps_bind.
  - apply Steps_try_catch.
    + apply Steps_bind; [apply Steps_vault_create|]. intros _. apply Steps_ret.
    + intros _. apply Steps_bind; [apply Steps_vault_create|]. intros _. apply Steps_ret.
  - intros backupPath.
    apply Steps_bind; [apply Steps_vault_modify|]. intros _. apply Steps_notice.
Qed.

Lemma Steps_handleConflict onMergeSuccess file conflictData :
  (∀ r, uploading r = Some file -> Q r) ->
  Steps R (onMergeSuccess file) ->
  Steps R (handleConflict net host onMergeSuccess file conflictData).
Proof.
  intros Hq Hcb. unfold handleConflict.
  destruct (ur_conflict conflictData) as [conflict|]; [|apply Steps_notice].
  apply Steps_bind; [apply Steps_notice|]. intros _.
  apply Steps_try_catch.
  2: { intros e. apply Steps_bind; [apply Steps_console_error|]. intros _.
       apply Steps_notice. }
  apply Steps_bind; [by apply Steps_call, Hq|]. intros serverResponse.
  apply Steps_bind.
  { case_match; [|apply Steps_ret].
    apply Steps_bind; [by apply Steps_call, Hq|]. intros ?. apply Steps_ret. }
  intros ancestorContent.
  apply Steps_bind; [apply Steps_vault_read|]. intros localContent.
  apply Steps_bind.
  { destruct ancestorContent; [|apply Steps_ret].
    apply Steps_bind; [by apply Steps_call, Hq|]. intros mergeResult.
    case_match; [|apply Steps_ret].
    apply Steps_bind; [apply Steps_notice|]. intros _.
    apply Steps_bind; [apply Steps_vault_modify|]. intros _.
    apply Steps_bind; [apply Hcb|]. intros _. apply Steps_ret. }
  intros [|]; [apply Steps_ret|apply Steps_handleManualConflict].
Qed.

(** The updates of the store, of the folders and of the flag. *)
Hypothesis R_folder : ∀ p w,
  vault w !! p = None -> R w (set_vault (<[p := TFolder]> (vault w)) w).
Hypothesis R_record : ∀ p m w, P p -> path m = p -> R w (assign p m w).
Hypothesis R_forget : ∀ p w, P p -> R w (remove p w).
Hypothesis R_persist : ∀ w, R w (set_persisted (metadata w) w).
Hypothesis R_flag : ∀ b w, R w (set_isSyncing b w).

Lemma Steps_save : Steps R (save host).
Proof.
  apply Steps_bind; [apply Steps_guard_fs|]. intros _.
  intros w r w' [= <- <-]. apply R_persist.
Qed.

Lemma Steps_saveMetadata p meta : P p -> Steps R (saveMetadata host p meta).
Proof.
  intros Hp. unfold saveMetadata.
  apply Steps_bind; [apply Steps_get|]. intros current.
  apply Steps_bind; [|intros _; apply Steps_save].
  intros w r w' [= <- <-]. by apply R_record.
Qed.

Lemma Steps_deleteMetadata p : P p -> Steps R (deleteMetadata host p).
Proof.
  intros Hp. unfold deleteMetadata.
  apply Steps_bind; [apply Steps_get|]. intros [m|]; [|apply Steps_ret].
  apply Steps_bind; [|intros _; apply Steps_save].
  intros w r w' [= <- <-]. by apply R_forget.
Qed.

Lemma Steps_renameMetadata oldPath newPath :
  P oldPath -> P newPath -> Steps R (renameMetadata host oldPath newPath).
Proof.
  intros Ho Hn. unfold renameMetadata.
  apply Steps_bind; [apply Steps_get|]. intros [m|]; [|apply Steps_ret].
  apply Steps_bind; [intros w r w' [= <- <-]; by apply R_record|]. intros _.
  apply Steps_bind; [intros w r w' [= <- <-]; by apply R_forget|]. intros _.
  apply Steps_save.
Qed.

Lemma Steps_uploadFile fuel : ∀ file,
  P file -> (∀ r, uploading r = Some file -> Q r) ->
  Steps R (uploadFile net host fuel file).
Proof.
  induction fuel as [|fuel IH]; intros file Hp Hq.
  - intros w r w' [= <- <-]. apply R_refl.
  - simpl. apply Steps_try_catch.
    2: { intros e. apply Steps_bind; [apply Steps_console_error|]. intros _.
         apply Steps_ret. }
    apply Steps_bind; [apply Steps_vault_read|]. intros content.
    apply Steps_bind; [apply Steps_get|]. intros localMeta.
    apply Steps_bind; [apply Steps_get|]. intros device.
    apply Steps_bind; [by apply Steps_call, Hq|]. intros result.
    case_match.
    + apply Steps_bind; [apply Steps_get|]. intros ?.
      apply Steps_bind; [apply Steps_get|]. intros ?.
      apply Steps_bind; [apply Steps_get|]. intros ?.
      apply Steps_bind; [by apply Steps_saveMetadata|]. intros _. apply Steps_ret.
    + case_match.
      * apply Steps_bind; [|intros _; apply Steps_ret].
        apply Steps_handleConflict; [done|]. by apply IH.
      * apply Steps_bind; [apply Steps_console_error|]. intros _. apply Steps_ret.
Qed.

Lemma Steps_downloadFile p rev :
  P p -> Q (ReqDownload p rev) -> Steps R (downloadFile net host p rev).
Proof.
  intros Hp Hq. unfold downloadFile. apply Steps_try_catch.
  2: { intros e. apply Steps_bind; [apply Steps_console_error|]. intros _.
       apply Steps_ret. }
  apply Steps_bind; [by apply Steps_call|]. intros result.
  destruct (dr_success result); [|apply Steps_ret].
  destruct (dr_file result) as [rfile|]; [|apply Steps_ret].
  destruct (dr_content result) as [content|]; [|apply Steps_ret].
  apply Steps_bind.
  { unfold when. case_match; [apply Steps_notice|apply Steps_ret]. }
  intros _. apply Steps_bind; [apply Steps_get|]. intros file.
  apply Steps_bind; [apply Steps_get|]. intros folder.
  apply Steps_bind.
  { unfold when. case_match eqn:Hw; [|apply Steps_ret].
    intros w r w'. unfold vault_createFolder, bind, guard_fs, get, throw, modify_world.
    destruct (Host.refuses host (env w) _); [intros [= <- <-]; apply R_refl|].
    destruct (vault w !! _) as [f|] eqn:Hf; intros [= <- <-]; try apply R_refl.
    by apply R_folder. }
  intros _. apply Steps_bind.
  { destruct file as [[c t|]|].
    - apply Steps_bind; [apply Steps_vault_modify|]. intros _. apply Steps_ret.
    - apply Steps_ret.
    - apply Steps_bind; [apply Steps_vault_create|]. intros _. apply Steps_get. }
  intros file'. apply Steps_bind; [|intros _; apply Steps_ret].
  case_match; [|apply Steps_ret].
  apply Steps_bind; [apply Steps_get|]. intros ?.
  apply Steps_bind; [apply Steps_get|]. intros ?.
  by apply Steps_saveMetadata.
Qed.

Lemma Steps_deleteFile p :
  P p -> (∀ o, Q (ReqDelete p o)) -> Steps R (deleteFile net host p).
Proof.
  intros Hp Hq. unfold deleteFile. apply Steps_try_catch.
  2: { intros e. apply Steps_bind; [apply Steps_console_error|]. intros _.
       apply Steps_ret. }
  apply Steps_bind; [apply Steps_get|]. intros localMeta.
  apply Steps_bind; [apply Steps_get|]. intros device.
  apply Steps_bind; [by apply Steps_call|]. intros result.
  apply Steps_bind.
  { unfold when. case_match; [apply Steps_notice|apply Steps_ret]. }
  intros _. apply Steps_bind; [by apply Steps_deleteMetadata|]. intros _.
  apply Steps_ret.
Qed.

Lemma Steps_downwardSync remoteFiles : ∀ n,
  (∀ f, f ∈ remoteFiles ->
        P (rf_path f) ∧ Q (ReqDownload (rf_path f) (Some (JS.num_or (rf_revision f) 0)))) ->
  Steps R (downwardSync net host remoteFiles n).
Proof.
  induction remoteFiles as [|f rest IH]; intros n Hall; simpl; [apply Steps_ret|].
  apply Steps_bind; [apply Steps_get|]. intros localMeta.
  assert (Hrest : ∀ g, g ∈ rest ->
            P (rf_path g) ∧ Q (ReqDownload (rf_path g) (Some (JS.num_or (rf_revision g) 0))))
    by (intros g Hg; apply Hall; by right).
  case_match; [|by apply IH].
  destruct (Hall f ltac:(by left)) as [Hp Hq].
  apply Steps_bind; [by apply Steps_downloadFile|]. intros success. by apply IH.
Qed.

Lemma Steps_upwardSync fuel files : ∀ n,
  (∀ p, p ∈ files -> P p ∧ ∀ r, uploading r = Some p -> Q r) ->
  Steps R (upwardSync net host fuel files n).
Proof.
  induction files as [|file rest IH]; intros n Hall; simpl; [apply Steps_ret|].
  apply Steps_bind; [apply Steps_get|]. intros meta.
  apply Steps_bind; [apply Steps_get|]. intros mtime.
  assert (Hrest : ∀ p, p ∈ rest -> P p ∧ ∀ r, uploading r = Some p -> Q r)
    by (intros p Hp; apply Hall; by right).
  case_match; [|by apply IH].
  destruct (Hall file ltac:(by left)) as [Hp Hq].
  apply Steps_bind; [by apply Steps_uploadFile|]. intros result. by apply IH.
Qed.

Lemma Steps_syncPass fuel silent :
  (∀ p, P p) -> Q ReqList -> (∀ p rev, Q (ReqDownload p rev)) ->
  (∀ p r, shouldSyncFile p = true -> uploading r = Some p -> Q r) ->
  Steps R (syncPass net host fuel silent).
Proof.
  intros Hp Hlist Hdown Hup. unfold syncPass.
  apply Steps_bind; [by apply Steps_call|]. intros listResult.
  destruct (lr_success listResult); [|apply Steps_throw].
  destruct (lr_files listResult) as [remoteFiles|]; [|apply Steps_throw].
  apply Steps_bind; [apply Steps_downwardSync; by auto|]. intros downloaded.
  apply Steps_bind_get. intros w0.
  apply Steps_bind.
  { apply Steps_upwardSync. intros p Hin. split; [done|]. intros r Hr.
    apply list_elem_of_In, filter_In in Hin as [_ Hs]. by eapply Hup. }
  intros uploaded. apply Steps_bind; [|intros _; apply Steps_ret].
  unfold when. destruct (negb silent); [|apply Steps_ret].
  case_match; apply Steps_notice.
Qed.

Lemma Steps_syncVault fuel silent :
  (∀ p, P p) -> Q ReqList -> (∀ p rev, Q (ReqDownload p rev)) ->
  (∀ p r, shouldSyncFile p = true -> uploading r = Some p -> Q r) ->
  Steps R (syncVault net host fuel silent).
Proof.
  intros Hp Hlist Hdown Hup. unfold syncVault.
  apply Steps_bind; [apply Steps_get|]. intros s.
  case_match; [apply Steps_notice|].
  apply Steps_bind; [apply Steps_get|]. intros syncing.
  destruct syncing; [apply Steps_notice|].
  apply Steps_bind; [intros w r w' [= <- <-]; apply R_flag|]. intros _.
  apply Steps_bind.
  { unfold when. destruct (negb silent); [apply Steps_notice|apply Steps_ret]. }
  intros _. intros w r w'. unfold try_finally.
  match goal with |- context [try_catch ?m ?h w] =>
    assert (Hbody : Steps R (try_catch m h)) end.
  { apply Steps_try_catch.
    - apply Steps_bind; [by apply Steps_syncPass|]. intros _. apply Steps_ret.
    - intros e. apply Steps_bind; [apply Steps_console_error|]. intros _.
      apply Steps_notice. }
  match goal with |- context [try_catch ?m ?h w] =>
    destruct (try_catch m h w) as [[a|msg|] w1] eqn:Hrun end;
    intros [= <- <-]; specialize (Hbody _ _ _ Hrun); try done;
    (eapply R_trans; [done|apply R_flag]).
Qed.

Lemma Steps_onRename fuel isFile file oldPath :
  P file -> P oldPath ->
  (∀ r, uploading r = Some file -> Q r) -> (∀ o, Q (ReqDelete oldPath o)) ->
  Steps R (onRename net host fuel isFile file oldPath).
Proof.
  intros Hf Ho Hq Hd. unfold onRename.
  apply Steps_bind; [apply Steps_get|]. intros s.
  case_match; [|apply Steps_ret].
  apply Steps_bind; [by apply Steps_deleteFile|]. intros _.
  apply Steps_bind; [by apply Steps_uploadFile|]. intros _.
  by apply Steps_renameMetadata.
Qed.

End Frame.


Section Invariants.

Context {E : Type}.
Variable net : NetworkClient.t E.
Variable host : Host.t E.


Lemma Keyed_insert p m (w : World E) :
  path m = p -> KeyedStep w (assign p m w).
Proof.
  intros Hp Hk q m'. destruct (assign_cases p m w) as [[-> _]|[-> _]]; [|apply Hk].
  simpl. rewrite lookup_insert.
  case_decide; [intros [= <-]; by subst | apply Hk].
Qed.

Lemma Keyed_delete p (w : World E) : KeyedStep w (remove p w).
Proof.
  intros Hk q m'. simpl. rewrite lookup_delete.
  case_decide; [done | apply Hk].
Qed.

Ltac keyed :=
  first [ by (intros; intros ?; assumption)
        | by (intros ??? H1 H2 ?; apply H2, H1; assumption)
        | by (intros; apply Keyed_insert)
        | by (intros; apply Keyed_delete)
        | done ].

(** X1. Every record of the store sits under its own path, and the pass,
    the three single-file operations and the rename handler keep it so. *)
Theorem Keyed_preserved fuel silent file p rev isFile oldPath w :
  Keyed w ->
  Keyed (syncVault net host fuel silent w).2
  ∧ Keyed (uploadFile net host fuel file w).2
  ∧ Keyed (downloadFile net host p rev w).2
  ∧ Keyed (deleteFile net host p w).2
  ∧ Keyed (onRename net host fuel isFile file oldPath w).2.
Proof.
  intros Hk. split_and!.
  - destruct (syncVault net host fuel silent w) as [r w'] eqn:Hrun.
    refine (Steps_syncVault net host KeyedStep (fun _ => True) (fun _ => True)
              _ _ _ _ _ _ _ _ _ _ fuel silent _ _ _ _ w r w' Hrun Hk); keyed.
  - destruct (uploadFile net host fuel file w) as [r w'] eqn:Hrun.
    refine (Steps_uploadFile net host KeyedStep (fun _ => True) (fun _ => True)
              _ _ _ _ _ _ _ _ fuel file _ _ w r w' Hrun Hk); keyed.
  - destruct (downloadFile net host p rev w) as [r w'] eqn:Hrun.
    refine (Steps_downloadFile net host KeyedStep (fun _ => True) (fun _ => True)
              _ _ _ _ _ _ _ _ _ p rev _ _ w r w' Hrun Hk); keyed.
  - destruct (deleteFile net host p w) as [r w'] eqn:Hrun.
    refine (Steps_deleteFile net host KeyedStep (fun _ => True) (fun _ => True)
              _ _ _ _ _ _ _ p _ _ w r w' Hrun Hk); keyed.
  - destruct (onRename net host fuel isFile file oldPath w) as [r w'] eqn:Hrun.
    refine (Steps_onRename net host KeyedStep (fun _ => True) (fun _ => True)
              _ _ _ _ _ _ _ _ _ fuel isFile file oldPath _ _ _ _ w r w' Hrun Hk); keyed.
Qed.

Lemma VaultKept_refl (w : World E) : VaultKept w w.
Proof. by intros p. Qed.

Lemma VaultKept_trans (w1 w2 w3 : World E) :
  VaultKept w1 w2 -> VaultKept w2 w3 -> VaultKept w1 w3.
Proof.
  intros H1 H2 p. destruct (H1 p) as [Ha Hb], (H2 p) as [Hc Hd]. split; auto.
Qed.

Lemma VaultKept_write p c t (w : World E) :
  vault w !! p = None ∨ is_TFile (vault w !! p) = true ->
  VaultKept w (set_vault (<[p := TFile c t]> (vault w)) w).
Proof.
  intros Hp q. simpl. rewrite lookup_insert. case_decide; [subst q|done].
  split; [by eauto|]. intros Hq. rewrite Hq in Hp. by destruct Hp.
Qed.

Lemma VaultKept_folder p (w : World E) :
  vault w !! p = None ->
  VaultKept w (set_vault (<[p := TFolder]> (vault w)) w).
Proof.
  intros Hp q. simpl. rewrite lookup_insert. case_decide; [subst q|done].
  split; [by eauto|done].
Qed.

Lemma VaultKept_same (w w' : World E) : vault w' = vault w -> VaultKept w w'.
Proof. intros Hv p. by rewrite Hv. Qed.

Ltac kept :=
  first [ by (intros; apply VaultKept_refl)
        | by (intros; apply VaultKept_same, vault_assign)
        | by (intros ???; apply VaultKept_trans)
        | by (intros; apply VaultKept_write)
        | by (intros; apply VaultKept_folder)
        | done ].

(** X2. Nothing leaves the vault and no folder becomes a file: a path
    that names a file or a folder before a pass, a single-file operation or
    the rename handler names one after it, and a folder is still a
    folder. *)
Theorem vault_entries_kept fuel silent file p rev isFile oldPath w :
  VaultKept w (syncVault net host fuel silent w).2
  ∧ VaultKept w (uploadFile net host fuel file w).2
  ∧ VaultKept w (downloadFile net host p rev w).2
  ∧ VaultKept w (deleteFile net host p w).2
  ∧ VaultKept w (onRename net host fuel isFile file oldPath w).2.
Proof.
  split_and!.
  - destruct (syncVault net host fuel silent w) as [r w'] eqn:Hrun.
    refine (Steps_syncVault net host VaultKept (fun _ => True) (fun _ => True)
              _ _ _ _ _ _ _ _ _ _ fuel silent _ _ _ _ w r w' Hrun); kept.
  - destruct (uploadFile net host fuel file w) as [r w'] eqn:Hrun.
    refine (Steps_uploadFile net host VaultKept (fun _ => True) (fun _ => True)
              _ _ _ _ _ _ _ _ fuel file _ _ w r w' Hrun); kept.
  - destruct (downloadFile net host p rev w) as [r w'] eqn:Hrun.
    refine (Steps_downloadFile net host VaultKept (fun _ => True) (fun _ => True)
              _ _ _ _ _ _ _ _ _ p rev _ _ w r w' Hrun); kept.
  - destruct (deleteFile net host p w) as [r w'] eqn:Hrun.
    refine (Steps_deleteFile net host VaultKept (fun _ => True) (fun _ => True)
              _ _ _ _ _ _ _ p _ _ w r w' Hrun); kept.
  - destruct (onRename net host fuel isFile file oldPath w) as [r w'] eqn:Hrun.
    refine (Steps_onRename net host VaultKept (fun _ => True) (fun _ => True)
              _ _ _ _ _ _ _ _ _ fuel isFile file oldPath _ _ _ _ w r w' Hrun); kept.
Qed.

End Invariants.


Section Footprint.

Context {E : Type}.
Variable net : NetworkClient.t E.
Variable host : Host.t E.

Lemma Asked_same Q (w w' : World E) : requests w' = requests w -> Asked Q w w'.
Proof. intros Hreq. by exists []. Qed.

Lemma Asked_trans Q (w1 w2 w3 : World E) :
  Asked Q w1 w2 -> Asked Q w2 w3 -> Asked Q w1 w3.
Proof.
  intros (l1 & H1 & F1) (l2 & H2 & F2). exists (l2 ++ l1). split.
  - by rewrite H2, H1, app_assoc.
  - by apply Forall_app.
Qed.

Lemma Asked_issue (Q : Request -> Prop) r e (w : World E) :
  Q r -> Asked Q w (issue r e w).
Proof. intros Hq. exists [r]. split; [done|]. by constructor. Qed.

Ltac asked :=
  first [ by (intros; apply Asked_same)
        | by (intros; apply Asked_same, requests_assign)
        | by (intros ???; apply Asked_trans)
        | by (intros; apply Asked_issue)
        | by (cbv beta; auto) ].

Lemma handleConflict_asks fuel file conflictData w r w' :
  handleConflict net host (uploadFile net host fuel) file conflictData w = (r, w') ->
  ∃ l, requests w' = l ++ requests w.
Proof.
  intros Hrun.
  assert (Hup : Steps (Asked (fun _ => True)) (uploadFile net host fuel file)).
  { refine (Steps_uploadFile net host _ (fun _ => True) (fun _ => True)
              _ _ _ _ _ _ _ _ fuel file _ _); asked. }
  destruct (Steps_handleConflict net host (Asked (fun _ => True)) (fun _ => True)
              ltac:(asked) ltac:(asked) ltac:(asked) ltac:(asked) ltac:(asked)
              ltac:(asked) (uploadFile net host fuel) file conflictData
              ltac:(asked) Hup w r w' Hrun) as (l & Hl & _).
  by exists l.
Qed.

(** X3. What a pass asks of the server: the requests of a call of
    [syncVault] come in front of those made before, and each is the
    listing, a download, or an upload or a merge of a file whose extension is
    on the list; a pass never asks for a deletion. *)
Theorem syncVault_requests fuel silent w :
  Asked PassRequest w (syncVault net host fuel silent w).2.
Proof.
  destruct (syncVault net host fuel silent w) as [r w'] eqn:Hrun.
  refine (Steps_syncVault net host (Asked PassRequest) PassRequest (fun _ => True)
            _ _ _ _ _ _ _ _ _ _ fuel silent _ _ _ _ w r w' Hrun); try asked.
  intros p [] Hs; simpl; try done; by intros [= ->].
Qed.

(** X4. What the single-file operations ask of the server: an upload asks
    only for the upload, the downloads and the merge of its own file, a
    download for its own download and nothing else, a deletion only for
    the deletion of its own path, and the rename handler only for the
    deletion of the old path and what the upload of the new one asks. *)
Theorem single_file_requests fuel file p rev isFile oldPath w :
  Asked (fun q => uploading q = Some file) w (uploadFile net host fuel file w).2
  ∧ requests (downloadFile net host p rev w).2 = ReqDownload p rev :: requests w
  ∧ Asked (fun q => ∃ o, q = ReqDelete p o) w (deleteFile net host p w).2
  ∧ Asked (fun q => uploading q = Some file ∨ ∃ o, q = ReqDelete oldPath o)
      w (onRename net host fuel isFile file oldPath w).2.
Proof.
  split_and!.
  - destruct (uploadFile net host fuel file w) as [r w'] eqn:Hrun.
    refine (Steps_uploadFile net host _ (fun q => uploading q = Some file)
              (fun _ => True) _ _ _ _ _ _ _ _ fuel file _ _ w r w' Hrun); asked.
  - destruct (downloadFile_spec net host p rev w) as (b & w1 & Heq & Hreq & _).
    by rewrite Heq.
  - destruct (deleteFile net host p w) as [r w'] eqn:Hrun.
    refine (Steps_deleteFile net host _ (fun q => ∃ o, q = ReqDelete p o)
              (fun _ => True) _ _ _ _ _ _ _ p _ _ w r w' Hrun); try asked.
    all: cbv beta; eauto.
  - destruct (onRename net host fuel isFile file oldPath w) as [r w'] eqn:Hrun.
    refine (Steps_onRename net host _
              (fun q => uploading q = Some file ∨ ∃ o, q = ReqDelete oldPath o)
              (fun _ => True) _ _ _ _ _ _ _ _ _ fuel isFile file oldPath
              _ _ _ _ w r w' Hrun); try asked.
    all: cbv beta; eauto.
Qed.

Lemma RecordsKept_same P (w w' : World E) :
  metadata w' = metadata w -> prototype w' = prototype w -> RecordsKept P w w'.
Proof. intros Hm Hp. split; [intros q _; by rewrite Hm|done]. Qed.

Lemma RecordsKept_trans P (w1 w2 w3 : World E) :
  RecordsKept P w1 w2 -> RecordsKept P w2 w3 -> RecordsKept P w1 w3.
Proof.
  intros [H1 H1'] [H2 H2']. split.
  - intros q Hq. by rewrite H2, H1.
  - intros Hp. by rewrite H2', H1'.
Qed.

Lemma RecordsKept_insert (P : string -> Prop) p m (w : World E) :
  P p -> RecordsKept P w (assign p m w).
Proof.
  intros Hp. split.
  - intros q Hq. apply metadata_assign_ne. by intros ->.
  - intros Hproto. apply prototype_assign. left. by intros ->.
Qed.

Lemma RecordsKept_delete (P : string -> Prop) p (w : World E) :
  P p -> RecordsKept P w (remove p w).
Proof.
  intros Hp. split; [|done].
  intros q Hq. simpl. rewrite lookup_delete_ne; [done|]. by intros ->.
Qed.

(** What the store serves for the paths a call does not touch is as
    before, when the call does not touch [__proto__]. *)
Lemma RecordsKept_served (P : string -> Prop) (w w' : World E) q :
  RecordsKept P w w' -> ¬ P q -> ¬ P "__proto__"%string -> served w' q = served w q.
Proof. intros [Hown Hproto] Hq Hp. apply served_ext; auto. Qed.

Ltac records :=
  first [ by (intros; apply RecordsKept_same)
        | by (intros ???; apply RecordsKept_trans)
        | by (intros; apply RecordsKept_insert)
        | by (intros; apply RecordsKept_delete)
        | by (cbv beta; auto) ].

Lemma uploadFile_records fuel file w r w' :
  uploadFile net host fuel file w = (r, w') -> RecordsKept (fun q => q = file) w w'.
Proof.
  intros Hrun.
  refine (Steps_uploadFile net host (RecordsKept (fun q => q = file))
            (fun _ => True) (fun q => q = file)
            _ _ _ _ _ _ _ _ fuel file _ _ w r w' Hrun); records.
Qed.

Lemma uploadFile_other_record fuel file w r w' q :
  uploadFile net host fuel file w = (r, w') -> q ≠ file ->
  metadata w' !! q = metadata w !! q.
Proof. intros Hrun Hq. by apply (proj1 (uploadFile_records _ _ _ _ _ Hrun)). Qed.

(** X5. The records a call touches: an upload, a download and a deletion
    leave the record of every path but their own as it was, the rename
    handler that of every path but the old and the new one, and the
    downward phase that of every path the listing does not name; and the
    prototype of the store object is as it was unless [__proto__] is one of
    these paths. *)
Theorem records_footprint fuel file p rev isFile oldPath remoteFiles n w :
  RecordsKept (fun q => q = file) w (uploadFile net host fuel file w).2
  ∧ RecordsKept (fun q => q = p) w (downloadFile net host p rev w).2
  ∧ RecordsKept (fun q => q = p) w (deleteFile net host p w).2
  ∧ RecordsKept (fun q => q = file ∨ q = oldPath) w
      (onRename net host fuel isFile file oldPath w).2
  ∧ RecordsKept (fun q => q ∈ map rf_path remoteFiles) w
      (downwardSync net host remoteFiles n w).2.
Proof.
  split_and!.
  - destruct (uploadFile net host fuel file w) as [r w'] eqn:Hrun.
    refine (Steps_uploadFile net host _ (fun _ => True) (fun q => q = file)
              _ _ _ _ _ _ _ _ fuel file _ _ w r w' Hrun); records.
  - destruct (downloadFile net host p rev w) as [r w'] eqn:Hrun.
    refine (Steps_downloadFile net host _ (fun _ => True) (fun q => q = p)
              _ _ _ _ _ _ _ _ _ p rev _ _ w r w' Hrun); records.
  - destruct (deleteFile net host p w) as [r w'] eqn:Hrun.
    refine (Steps_deleteFile net host _ (fun _ => True) (fun q => q = p)
              _ _ _ _ _ _ _ p _ _ w r w' Hrun); records.
  - destruct (onRename net host fuel isFile file oldPath w) as [r w'] eqn:Hrun.
    refine (Steps_onRename net host _ (fun _ => True)
              (fun q => q = file ∨ q = oldPath) _ _ _ _ _ _ _ _ _
              fuel isFile file oldPath _ _ _ _ w r w' Hrun); try records.
    all: cbv beta; auto.
  - destruct (downwardSync net host remoteFiles n w) as [r w'] eqn:Hrun.
    refine (Steps_downwardSync net host _ (fun _ => True)
              (fun q => q ∈ map rf_path remoteFiles) _ _ _ _ _ _ _ _ _
              remoteFiles n _ w r w' Hrun); try records.
    intros f Hf. split; [|done]. by apply list_elem_of_fmap_2.
Qed.

Lemma upwardSync_count fuel localFiles : ∀ n w n' w',
  upwardSync net host fuel localFiles n w = (Val n', w') ->
  (n ≤ n' ≤ n + length localFiles)%nat.
Proof.
  induction localFiles as [|file rest IH]; intros n w n' w'.
  - simpl. unfold ret. intros [= <- <-]. lia.
  - rewrite upwardSync_cons.
    destruct (match served w file with
              | Some v => Obj.olderThan v (stat_mtime w file)
              | None => true
              end).
    + unfold bind.
      destruct (uploadFile net host fuel file w) as [[b|msg|] w1]; try discriminate.
      intros Hrest. apply IH in Hrest. cbn [length]. destruct b; lia.
    + intros Hrest. apply IH in Hrest. cbn [length]. lia.
Qed.

(** X6. The upward loop of a pass: it asks the server only about the
    files of the list it was given, the files of the vault when the loop
    starts, so a backup created while it runs is not uploaded by the same
    pass; it touches the records of these files only (and the prototype of
    the store object only if [__proto__] is one of them); and the number of
    uploads it reports exceeds the count it starts from by no more than the
    length of the list. *)
Theorem upwardSync_footprint fuel localFiles n w :
  let run := upwardSync net host fuel localFiles n w in
  Asked (fun r => ∃ p, p ∈ localFiles ∧ uploading r = Some p) w run.2
  ∧ RecordsKept (fun q => q ∈ localFiles) w run.2
  ∧ ∀ n', run.1 = Val n' -> (n ≤ n' ≤ n + length localFiles)%nat.
Proof.
  intros run. subst run.
  destruct (upwardSync net host fuel localFiles n w) as [r w'] eqn:Hrun.
  split_and!.
  - refine (Steps_upwardSync net host _
              (fun r => ∃ p, p ∈ localFiles ∧ uploading r = Some p) (fun _ => True)
              _ _ _ _ _ _ _ _ fuel localFiles n _ w r w' Hrun); try asked.
    all: intros p Hp; (split; [done|]); intros q Hq; by exists p.
  - refine (Steps_upwardSync net host _ (fun _ => True) (fun q => q ∈ localFiles)
              _ _ _ _ _ _ _ _ fuel localFiles n _ w r w' Hrun); try records.
    all: intros p Hp; by split.
  - simpl. intros n' ->. by eapply upwardSync_count.
Qed.

Lemma StoreKept_trans (w1 w2 w3 : World E) :
  StoreKept w1 w2 -> StoreKept w2 w3 -> StoreKept w1 w3.
Proof. intros (H1 & H2 & H3) (H4 & H5 & H6). split_and!; congruence. Qed.

(** X7. The conflict handler does not touch the store: whatever the
    outcome of the downloads, of the merge and of the writes, the store
    object, its prototype and the records on disk after [handleConflict]
    are those before it, provided the callback of a successful merge leaves
    them alone. *)
Theorem handleConflict_keeps_store onMergeSuccess file conflictData w :
  (∀ w0, StoreKept w0 (onMergeSuccess file w0).2) ->
  StoreKept w (handleConflict net host onMergeSuccess file conflictData w).2.
Proof.
  intros Hcb.
  assert (Hsteps : Steps StoreKept (onMergeSuccess file)).
  { intros w0 r0 w1 Hrun. specialize (Hcb w0). by rewrite Hrun in Hcb. }
  destruct (handleConflict net host onMergeSuccess file conflictData w)
    as [r w'] eqn:Hrun.
  refine (Steps_handleConflict net host StoreKept (fun _ => True)
            _ _ _ _ _ _ onMergeSuccess file conflictData _ Hsteps w r w' Hrun);
    first [ by (intros; split_and!)
          | by (intros ???; apply StoreKept_trans)
          | done ].
Qed.

End Footprint.


Section Pass.

Context {E : Type}.
Variable net : NetworkClient.t E.
Variable host : Host.t E.

(** X8. [syncVault] never throws, and when it returns the flag of the
    pass in progress is what it was at the call: released after a pass
    that ran, whether or not it failed, and left set for the pass in
    flight by a call that found it set. *)
Theorem syncVault_flag fuel silent w :
  let run := syncVault net host fuel silent w in
  run.1 = OutOfFuel ∨ (run.1 = Val tt ∧ isSyncing run.2 = isSyncing w).
Proof.
  unfold syncVault. munfold. simpl.
  destruct (bool_decide (token (settings w) = "")); [by right|].
  destruct (isSyncing w) eqn:Hflag; [right; simpl; by rewrite Hflag|].
  destruct silent; simpl.
  all: destruct (syncPass net host fuel _ _) as [[[]| |] ?]; simpl; auto.
Qed.

(** X9. A pass whose listing rejects or comes back unusable stops
    there: the listing is its only request, the vault and the store are
    untouched, the error is logged and shown, in silent mode too, and the
    flag is released. *)
Theorem syncVault_listing_fails fuel silent w o e :
  token (settings w) ≠ EmptyString ->
  isSyncing w = false ->
  NetworkClient.listFiles net (env w) = (o, e) ->
  (∀ res fs, o = Returned res -> lr_success res = true -> lr_files res = Some fs -> False) ->
  let msg := match o with
             | Rejected m => m
             | Returned res => JS.str_or (lr_error res) "Failed to list remote files"
             end in
  ∃ w', syncVault net host fuel silent w = (Val tt, w')
        ∧ requests w' = ReqList :: requests w
        ∧ vault w' = vault w
        ∧ metadata w' = metadata w
        ∧ prototype w' = prototype w
        ∧ persisted w' = persisted w
        ∧ console w' = ("Sync failed: " +:+ msg)%string :: console w
        ∧ notices w' = SyncFailed msg :: notices (started silent w)
        ∧ isSyncing w' = false.
Proof.
  intros Htok Hidle Hlist Hbad msg. unfold syncVault, syncPass. munfold. simpl.
  rewrite bool_decide_eq_false_2 by done. rewrite Hidle.
  destruct silent; simpl; rewrite Hlist.
  all: destruct o as [res|m]; simpl.
  all: try (destruct (lr_success res) eqn:Hs, (lr_files res) as [fs|] eqn:Hf;
            [exfalso; by eapply Hbad|..]).
  all: simpl; eexists; split; [reflexivity|]; by split_and!.
Qed.

(** X10. The downward phase returns a count and asks for downloads only:
    read oldest first, its requests are the downloads of a selection of the
    listed descriptors, in the order of the listing, each at the listed
    revision and at most once per descriptor, and the count of downloads
    grows by no more than their number. *)
Theorem downwardSync_requests remoteFiles : ∀ n w,
  ∃ n' w' l,
    downwardSync net host remoteFiles n w = (Val n', w')
    ∧ requests w' = l ++ requests w
    ∧ rev l `sublist_of` map downloadOf remoteFiles
    ∧ (n ≤ n' ≤ n + length l)%nat.
Proof.
  induction remoteFiles as [|remote rest IH]; intros n w.
  - exists n, w, []. simpl. unfold ret. split_and!; try done. simpl. lia.
  - rewrite downwardSync_cons. cbn [map].
    destruct (downloadDue _ _).
    + unfold bind.
      destruct (downloadFile_spec net host (rf_path remote)
                  (Some (JS.num_or (rf_revision remote) 0)) w)
        as (b & w1 & -> & Hreq & _).
      destruct (IH (if b then S n else n) w1) as (n' & w' & l & -> & Hl & Hsub & Hn).
      exists n', w', (l ++ [downloadOf remote]). split_and!; try done.
      * rewrite Hl, Hreq. by rewrite <- app_assoc.
      * rewrite rev_app_distr. simpl. by apply sublist_skip.
      * destruct b; lia.
      * rewrite List.length_app. simpl. destruct b; lia.
    + destruct (IH n w) as (n' & w' & l & -> & Hl & Hsub & Hn).
      exists n', w', l. split_and!; try done; try lia. by apply sublist_cons.
Qed.

End Pass.

Section Single.

Context {E : Type}.
Variable net : NetworkClient.t E.
Variable host : Host.t E.

(** [deleteFile] after the server has answered, step by step. *)
Lemma deleteFile_run p (w : World E) result e' :
  NetworkClient.deleteFile net p (optionsFor w p) (env w) = (Returned result, e') ->
  let w1 := issue (ReqDelete p (optionsFor w p)) e' w in
  let w2 := if bool_decide (is_Some (del_conflict result))
            then add_notice (DeleteConflict p) w1 else w1 in
  deleteFile net host p w
  = match served w p with
    | Some _ =>
        if Host.refuses host e' (Host.metadataPath host)
        then (Val false,
              add_console ("Error deleting " +:+ p +:+ ": " +:+ "EIO") (remove p w2))
        else (Val (del_success result),
              set_persisted (metadata (remove p w2)) (remove p w2))
    | None => (Val (del_success result), w2)
    end.
Proof.
  intros Hnet w1 w2. subst w1 w2. revert Hnet.
  unfold optionsFor, storedRevision. intros Hnet.
  unfold deleteFile, try_catch, bind, getDeviceId, get, call, when.
  rewrite getMetadata_served. cbn [fst snd]. rewrite Hnet.
  destruct (bool_decide (is_Some (del_conflict result)));
    unfold notice, modify_world, ret; rewrite deleteMetadata_run;
    match goal with
    | |- context [served ?W p] => rewrite (served_ext W w p eq_refl eq_refl)
    end;
    (destruct (served w p) as [v|];
     [destruct (Host.refuses host e' (Host.metadataPath host)) eqn:Hfs|]);
    simpl; rewrite ?Hfs; reflexivity.
Qed.

(** The deletion when the request rejects: the store is as before. *)
Lemma deleteFile_rejected p (w : World E) msg e' :
  NetworkClient.deleteFile net p (optionsFor w p) (env w) = (Rejected msg, e') ->
  deleteFile net host p w
  = (Val false,
     add_console ("Error deleting " +:+ p +:+ ": " +:+ msg)
       (issue (ReqDelete p (optionsFor w p)) e' w)).
Proof.
  unfold optionsFor, storedRevision. intros Hnet.
  unfold deleteFile, try_catch, bind, getDeviceId, get, call.
  rewrite getMetadata_served. cbn [fst snd]. by rewrite Hnet.
Qed.

(** X11. A deletion that returns true: the server answered the request,
    which carried the revision the store serves for the path, with
    success; the store object has no record of its own for the path, its
    other records, its prototype and the vault are as they were, so that
    the store serves for the path what it inherits under that name; the
    file of the store is rewritten exactly when the store served something
    for the path before, a record of its own or an inherited value, and is
    as it was otherwise; a conflict reported with the success is shown and
    changes nothing else. *)
Theorem deleteFile_true p w w' :
  deleteFile net host p w = (Val true, w') ->
  ∃ result e',
    NetworkClient.deleteFile net p (optionsFor w p) (env w) = (Returned result, e')
    ∧ del_success result = true
    ∧ requests w' = ReqDelete p (optionsFor w p) :: requests w
    ∧ metadata w' = delete p (metadata w)
    ∧ prototype w' = prototype w
    ∧ served w' p = Obj.or_null (Obj.inherited (prototype w) p)
    ∧ (is_Some (served w p) -> persisted w' = metadata w')
    ∧ (served w p = None -> persisted w' = persisted w ∧ metadata w' = metadata w)
    ∧ vault w' = vault w
    ∧ console w' = console w
    ∧ notices w' = (if bool_decide (is_Some (del_conflict result))
                    then [DeleteConflict p] else []) ++ notices w.
Proof.
  intros Hrun.
  destruct (NetworkClient.deleteFile net p (optionsFor w p) (env w))
    as [[result|msg] e'] eqn:Hnet.
  2: { by rewrite (deleteFile_rejected _ _ _ _ Hnet) in Hrun. }
  exists result, e'. split; [done|].
  rewrite (deleteFile_run p w result e' Hnet) in Hrun. cbv zeta in Hrun.
  assert (Hserved : ∀ w0 : World E,
    metadata w0 = delete p (metadata w) -> prototype w0 = prototype w ->
    served w0 p = Obj.or_null (Obj.inherited (prototype w) p)).
  { intros w0 Hm Hp. unfold served, lookupProperty.
    by rewrite Hm, Hp, lookup_delete_eq. }
  destruct (served w p) as [v|] eqn:Hv.
  - destruct (Host.refuses host e' (Host.metadataPath host)); [done|].
    injection Hrun as Hs <-.
    destruct (bool_decide (is_Some (del_conflict result))); simpl;
      split_and!; try done; try (by apply Hserved); try (by intros [=]).
  - injection Hrun as Hs <-.
    pose proof (served_none_own _ _ Hv) as Hown.
    assert (Hdel : delete p (metadata w) = metadata w) by (by apply delete_id).
    destruct (bool_decide (is_Some (del_conflict result))); simpl;
      split_and!; try done; try (apply Hserved; simpl; by rewrite ?Hdel);
      try (by intros [? ?]).
Qed.

(** X12. A download that returns true. Onto a folder it writes nothing:
    the folder stays and the store is untouched. Otherwise the file holds
    the content of the response, whatever it held and however recent its
    modification, stamped with the time of the write; the store serves the
    new record for the path, and the file of the store holds the records
    the store object has of its own: the new record among them, except
    under the path [__proto__] when the object had no such property, for
    then the record is the prototype of the object and is not in the file.
    The path before the last slash, when there is one, names an entry of
    the vault; and every other path of the vault is as it was. *)
Theorem downloadFile_true p rev w w' :
  downloadFile net host p rev w = (Val true, w') ->
  ∃ result content,
    (NetworkClient.downloadFile net p rev (env w)).1 = Returned result
    ∧ dr_content result = Some content
    ∧ (vault w !! p = Some TFolder ->
       vault w' !! p = Some TFolder ∧ metadata w' = metadata w
       ∧ prototype w' = prototype w ∧ persisted w' = persisted w)
    ∧ (vault w !! p ≠ Some TFolder ->
       vault w' !! p = Some (TFile content (Host.now host (env w')))
       ∧ persisted w' = metadata w'
       ∧ ∃ m, served w' p = Some (VRecord m)
              ∧ (p ≠ "__proto__"%string ∨ is_Some (metadata w !! p) ->
                 persisted w' !! p = Some m ∧ prototype w' = prototype w)
              ∧ (p = "__proto__"%string -> metadata w !! p = None ->
                 persisted w' !! p = None ∧ prototype w' = Some m))
    ∧ (JS.before_last "/" p ≠ EmptyString -> is_Some (vault w' !! JS.before_last "/" p))
    ∧ (∀ q, q ≠ p -> q ≠ JS.before_last "/" p -> vault w' !! q = vault w !! q).
Proof.
  intros Hrun.
  assert (Hvault : ∃ result content,
    (NetworkClient.downloadFile net p rev (env w)).1 = Returned result
    ∧ dr_content result = Some content
    ∧ (JS.before_last "/" p ≠ EmptyString -> is_Some (vault w' !! JS.before_last "/" p))
    ∧ (∀ q, q ≠ p -> q ≠ JS.before_last "/" p -> vault w' !! q = vault w !! q)).
  { revert Hrun. unfold downloadFile. intros H. mrun.
    all: try match goal with
         | H : NetworkClient.downloadFile _ _ _ _ = _ |- _ => rewrite H
         end; simpl.
    all: eexists _, _; (split; [reflexivity|]); (split; [eassumption|]).
    all: store.
    all: split_and!; try done; try congruence.
    all: repeat match goal with
           | |- context [<[?a := _]> _ !! ?a] => rewrite lookup_insert_eq
           | |- ∀ q, _ => intros q ? ?
           | |- context [<[?a := _]> _ !! ?b] => rewrite (lookup_insert_ne _ a b) by done
           | |- _ -> _ => intros ?
           | |- _ ∧ _ => split
           end; try done; try congruence; eauto.
    all: repeat match goal with
           | H : _ && _ = false |- _ =>
               apply andb_false_iff in H as [H|H];
               apply negb_false_iff, bool_decide_eq_true in H
           end; try done.
    all: rewrite ?lookup_insert_is_Some'; eauto.
    all: try (rewrite lookup_insert_ne by congruence; done).
    all: rewrite lookup_insert_eq in *; simpl in *; discriminate. }
  destruct Hvault as (result & content & Hres & Hc & Hparent & Hothers).
  exists result, content. split; [done|]. split; [done|].
  destruct (downloadFile_spec net host p rev w)
    as (b & w1 & Heq & _ & _ & _ & _ & _ & _ & _ & Hfold & _ & Htrue).
  rewrite Hrun in Heq. injection Heq as <- <-.
  destruct (Htrue eq_refl) as (result' & rfile & content' & Hres' & _ & _ & Hc' & _ & Hcase).
  rewrite Hres in Hres'. injection Hres' as <-. rewrite Hc in Hc'. injection Hc' as <-.
  split_and!; try done.
  - intros Hf. destruct Hcase as [(_ & ? & ? & ?)|[? _]]; [|done]. split_and!; auto.
  - intros Hf. destruct Hcase as [[? _]|(_ & Hfile & Hmeta & Hproto & Hper)]; [done|].
    cbv zeta in Hmeta, Hproto.
    split; [done|]. split; [done|]. eexists. split.
    { rewrite (served_ext w' _ p (f_equal (.!! p) Hmeta) Hproto). apply served_assign. }
    split.
    + intros Hown. rewrite Hper, Hmeta, Hproto, assign_own by done. simpl.
      split; [apply lookup_insert_eq|done].
    + intros -> Hnone. rewrite Hper, Hmeta, Hproto, assign_proto by done. simpl.
      split; done.
Qed.

(** X13. An upload accepted by the server whose record cannot be written:
    when the write of the metadata file fails after the server has
    accepted the upload, [uploadFile] logs the error and returns false,
    the record in memory is already the new one, with the revision the
    server assigned, and the file still holds the old records. *)
Theorem accepted_upload_unwritten n file w content mtime result e' :
  vault w !! file = Some (TFile content mtime) ->
  Host.refuses host (env w) file = false ->
  NetworkClient.uploadFile net file content (optionsFor w file) (env w)
  = (Returned result, e') ->
  ur_success result = true ->
  Host.refuses host e' (Host.metadataPath host) = true ->
  let new := spread (default (VRecord (blank file)) (served w file))
               (uploadedMeta w file result (Host.now host e')) file in
  ∃ w', uploadFile net host (S n) file w = (Val false, w')
        ∧ served w' file = Some (VRecord new)
        ∧ (file ≠ "__proto__"%string ∨ is_Some (metadata w !! file) ->
           metadata w' !! file = Some new)
        ∧ persisted w' = persisted w
        ∧ requests w' = ReqUpload file content (optionsFor w file) :: requests w
        ∧ console w' = ("Error uploading " +:+ file +:+ ": " +:+ "EIO")%string :: console w.
Proof.
  intros Hfile Hfs Hnet Hs Hw new. subst new.
  unfold optionsFor, storedRevision, uploadedMeta, stat_size in *.
  simpl. unfold try_catch, bind at 1, vault_read, bind at 1, guard_fs.
  rewrite Hfs. unfold bind at 1, get at 1. rewrite Hfile. unfold ret at 1.
  unfold bind at 1. rewrite getMetadata_served. unfold bind at 1, getDeviceId, get at 1.
  unfold bind at 1, call. rewrite Hnet, Hs.
  unfold bind at 1, get at 1. unfold bind at 1, Date_now, get at 1.
  unfold bind at 1, get at 1. unfold bind at 1.
  rewrite saveMetadata_run. cbn [env issue]. rewrite Hw.
  unfold console_error, modify_world, bind, ret.
  eexists. split; [reflexivity|]. simpl.
  match goal with
  | |- context [assign file ?r ?W] =>
      assert (Hserved : served W file = served w file) by (by apply served_ext);
      assert (Hmeta : metadata W = metadata w) by done
  end.
  rewrite Hserved. unfold stat_size. cbn [vault issue]. rewrite Hfile.
  split_and!.
  - match goal with
    | |- served (add_console _ ?W) _ = _ =>
        rewrite (served_ext (add_console _ W) W file) by done
    end.
    apply served_assign.
  - intros Hown. rewrite assign_own by (by rewrite Hmeta). simpl. apply lookup_insert_eq.
  - by rewrite persisted_assign.
  - by rewrite requests_assign.
  - by rewrite console_assign.
Qed.

(** What [renameMetadata] does, step by step. *)
Lemma renameMetadata_run oldPath newPath (w : World E) :
  renameMetadata host oldPath newPath w
  = match served w oldPath with
    | Some v =>
        let ws := remove oldPath (assign newPath (with_path v newPath) w) in
        if Host.refuses host (env w) (Host.metadataPath host)
        then (Exn "EIO"%string, ws)
        else (Val tt, set_persisted (metadata ws) ws)
    | None => (Val tt, w)
    end.
Proof.
  unfold renameMetadata, save, guard_fs, bind, get, modify_world, ret, served.
  destruct (Obj.or_null (lookupProperty w oldPath)) as [v|]; [|done]. simpl.
  rewrite env_assign.
  by destruct (Host.refuses host (env w) (Host.metadataPath host)).
Qed.

(** X14. Write-through of the store object. When the file of the store
    holds the records the object has of its own, it still does after an
    upload, a download or a deletion that returned true, and after a
    rename of a record that returned. The record that an upload or a
    download has stored is among them, and so in the file, except under
    the path [__proto__] when the object had no such property: the record
    is then the prototype of the object, the store serves it, and the file
    does not hold it. *)
Theorem true_results_are_flushed fuel w :
  Flushed w ->
  (∀ file w', uploadFile net host fuel file w = (Val true, w') ->
     Flushed w'
     ∧ ∃ m, served w' file = Some (VRecord m)
            ∧ (file ≠ "__proto__"%string ∨ is_Some (metadata w !! file) ->
               persisted w' !! file = Some m)
            ∧ (file = "__proto__"%string -> metadata w !! file = None ->
               persisted w' !! file = None ∧ prototype w' = Some m))
  ∧ (∀ p rev w', downloadFile net host p rev w = (Val true, w') ->
       Flushed w'
       ∧ (vault w !! p ≠ Some TFolder ->
          ∃ m, served w' p = Some (VRecord m)
               ∧ (p ≠ "__proto__"%string ∨ is_Some (metadata w !! p) ->
                  persisted w' !! p = Some m)
               ∧ (p = "__proto__"%string -> metadata w !! p = None ->
                  persisted w' !! p = None ∧ prototype w' = Some m)))
  ∧ (∀ p w', deleteFile net host p w = (Val true, w') -> Flushed w')
  ∧ (∀ oldPath newPath w',
       renameMetadata host oldPath newPath w = (Val tt, w') -> Flushed w').
Proof.
  unfold Flushed. intros Hw. split_and!.
  - intros file w' Hrun.
    apply uploadFile_true in Hrun as (c & mt & result & e' & _ & _ & _ & _ & ->).
    cbv zeta. split; [reflexivity|].
    match goal with
    | |- context [set_persisted (metadata ?ws) ?ws] =>
        set (W := ws);
        assert (Hs : served (set_persisted (metadata W) W) file = served W file)
          by (by apply served_ext)
    end.
    eexists. rewrite Hs. subst W. split; [apply served_assign|]. split.
    + intros Hown. simpl. rewrite assign_own by done. simpl. apply lookup_insert_eq.
    + intros -> Hnone. simpl. rewrite assign_proto by done. simpl. done.
  - intros p rev w' Hrun.
    destruct (downloadFile_spec net host p rev w)
      as (b & w1 & Heq & _ & _ & _ & _ & _ & _ & _ & _ & _ & Htrue).
    rewrite Hrun in Heq. injection Heq as <- <-.
    destruct (Htrue eq_refl) as (? & ? & ? & _ & _ & _ & _ & _ & Hcase).
    destruct Hcase as [(Hf & Hm & _ & Hp)|(Hf & _ & Hmeta & Hproto & Hper)].
    + split; [congruence|done].
    + split; [done|]. intros _. cbv zeta in Hmeta, Hproto.
      eexists. split.
      { rewrite (served_ext w' _ p (f_equal (.!! p) Hmeta) Hproto). apply served_assign. }
      split.
      * intros Hown. rewrite Hper, Hmeta, assign_own by done. simpl.
        apply lookup_insert_eq.
      * intros -> Hnone. rewrite Hper, Hmeta, Hproto, assign_proto by done. simpl.
        split; done.
  - intros p w' Hrun.
    destruct (NetworkClient.deleteFile net p (optionsFor w p) (env w))
      as [[result|msg] e'] eqn:Hnet.
    2: { by rewrite (deleteFile_rejected _ _ _ _ Hnet) in Hrun. }
    rewrite (deleteFile_run p w result e' Hnet) in Hrun. cbv zeta in Hrun.
    destruct (served w p) as [v|].
    + destruct (Host.refuses host e' (Host.metadataPath host)); [done|].
      by injection Hrun as _ <-.
    + injection Hrun as _ <-.
      by destruct (bool_decide (is_Some (del_conflict result))).
  - intros oldPath newPath w'. rewrite renameMetadata_run.
    destruct (served w oldPath) as [v|]; [|by intros [= <-]].
    cbv zeta. destruct (Host.refuses host (env w) (Host.metadataPath host)); [done|].
    by intros [= <-].
Qed.

End Single.

Section StoreCalls.

Context {E : Type}.
Variable net : NetworkClient.t E.
Variable host : Host.t E.

(** *** The store *)

(** The store always serves something under [__proto__]. *)
Lemma served_proto (w : World E) : is_Some (served w "__proto__").
Proof.
  unfold served, lookupProperty.
  destruct (metadata w !! "__proto__"%string); [by eexists|].
  unfold Obj.inherited. simpl. by destruct (prototype w); eexists.
Qed.

(** X15. [saveMetadata] assigns the merged record to the store object,
    under its path, before it writes the file: whatever the outcome of the
    write, the store serves for the path what it served before (a record
    or a value inherited under that name; the blank record when it served
    nothing) overridden by the fields given. The record is a property of
    the object, except under the path [__proto__] when the object had no
    such property: it is then the prototype of the object. The other
    records are as before; the file holds the records the object has of
    its own when the call returns, and is as it was when the write
    fails. *)
Theorem saveMetadata_lookup p meta w r w' :
  saveMetadata host p meta w = (r, w') ->
  let new := spread (default (VRecord (blank p)) (served w p)) meta p in
  served w' p = Some (VRecord new)
  ∧ (p ≠ "__proto__"%string ∨ is_Some (metadata w !! p) ->
     metadata w' = <[p := new]> (metadata w) ∧ prototype w' = prototype w)
  ∧ (p = "__proto__"%string -> metadata w !! p = None ->
     metadata w' = metadata w ∧ prototype w' = Some new)
  ∧ (∀ q, q ≠ p -> metadata w' !! q = metadata w !! q)
  ∧ (r = Val tt -> persisted w' = metadata w')
  ∧ (r ≠ Val tt ->
     persisted w' = persisted w
     ∧ Host.refuses host (env w) (Host.metadataPath host) = true).
Proof.
  rewrite saveMetadata_run. cbv zeta.
  set (new := spread (default (VRecord (blank p)) (served w p)) meta p).
  destruct (Host.refuses host (env w) (Host.metadataPath host)) eqn:Hfs;
    intros [= <- <-].
  - split_and!; try done.
    + apply served_assign.
    + intros Hown. by rewrite assign_own.
    + intros -> Hnone. by rewrite assign_proto.
    + intros q Hq. by apply metadata_assign_ne.
    + intros _. split; [apply persisted_assign|done].
  - split_and!; try done.
    + rewrite (served_ext _ (assign p new w) p) by done. apply served_assign.
    + intros Hown. simpl. by rewrite assign_own.
    + intros -> Hnone. simpl. by rewrite assign_proto.
    + intros q Hq. simpl. by apply metadata_assign_ne.
Qed.

(** X16. [renameMetadata] does nothing when the store serves nothing for
    the old path. When it serves a value, a record or a value inherited
    under that name, the object is left without property of its own under
    the old path, also when the new path is the old one (a record is then
    lost); under a different new path the store serves that value spread
    into a record with the new path, a property of the object unless the
    new path is [__proto__] and the object has no such property; the
    records of the other paths are as before, and the file holds the
    records the object has of its own when the call returns. *)
Theorem renameMetadata_moves oldPath newPath w r w' :
  renameMetadata host oldPath newPath w = (r, w') ->
  (served w oldPath = None -> r = Val tt ∧ w' = w)
  ∧ (∀ v, served w oldPath = Some v ->
       metadata w' !! oldPath = None
       ∧ (oldPath ≠ newPath -> served w' newPath = Some (VRecord (with_path v newPath)))
       ∧ (oldPath ≠ newPath ->
          newPath ≠ "__proto__"%string ∨ is_Some (metadata w !! newPath) ->
          metadata w' !! newPath = Some (with_path v newPath)
          ∧ prototype w' = prototype w)
       ∧ (∀ q, q ≠ oldPath -> q ≠ newPath -> metadata w' !! q = metadata w !! q)
       ∧ (r = Val tt -> persisted w' = metadata w')).
Proof.
  rewrite renameMetadata_run.
  destruct (served w oldPath) as [v0|] eqn:Hold.
  2: { intros [= <- <-]. split; [done|]. by intros v. }
  cbv zeta.
  set (ws := remove oldPath (assign newPath (with_path v0 newPath) w)).
  assert (Hws : metadata ws !! oldPath = None
    ∧ (oldPath ≠ newPath -> served ws newPath = Some (VRecord (with_path v0 newPath)))
    ∧ (oldPath ≠ newPath ->
       newPath ≠ "__proto__"%string ∨ is_Some (metadata w !! newPath) ->
       metadata ws !! newPath = Some (with_path v0 newPath)
       ∧ prototype ws = prototype w)
    ∧ (∀ q, q ≠ oldPath -> q ≠ newPath -> metadata ws !! q = metadata w !! q)).
  { unfold ws. split_and!.
    - simpl. apply lookup_delete_eq.
    - intros Hne. unfold served. rewrite lookupProperty_remove_ne by done.
      by rewrite lookupProperty_assign.
    - intros Hne Hown. simpl. rewrite lookup_delete_ne by done.
      rewrite assign_own by done. simpl. split; [apply lookup_insert_eq|done].
    - intros q Ho Hn. simpl. rewrite lookup_delete_ne by done.
      by apply metadata_assign_ne. }
  destruct Hws as (H1 & H2 & H3 & H4).
  destruct (Host.refuses host (env w) (Host.metadataPath host)) eqn:Hfs;
    intros [= <- <-]; (split; [done|]); intros v [= <-].
  all: split_and!; done.
Qed.

(** X17. A record saved for a path for which the store served nothing
    and deleted again: the store object and its prototype are those before
    the two calls, and so are the records of the file when the second
    write succeeds and the file was in step. *)
Theorem save_then_delete_restores p meta w w1 r w2 :
  served w p = None ->
  saveMetadata host p meta w = (Val tt, w1) ->
  deleteMetadata host p w1 = (r, w2) ->
  metadata w2 = metadata w
  ∧ prototype w2 = prototype w
  ∧ (r = Val tt -> Flushed w -> persisted w2 = persisted w).
Proof.
  intros Hnone.
  assert (Hp : p ≠ "__proto__"%string).
  { intros ->. destruct (served_proto w) as [v Hv]. congruence. }
  pose proof (served_none_own _ _ Hnone) as Hown.
  rewrite saveMetadata_run, deleteMetadata_run. cbv zeta.
  rewrite assign_own by (by left).
  destruct (Host.refuses host (env w) (Host.metadataPath host)); [done|].
  intros [= <-].
  match goal with
  | |- context [served ?W p] =>
      replace (served W p) with (Some (VRecord
        (spread (default (VRecord (blank p)) (served w p)) meta p)))
        by (symmetry; apply served_own; simpl; apply lookup_insert_eq)
  end.
  unfold Flushed. simpl.
  destruct (Host.refuses host (env w) (Host.metadataPath host));
    intros [= <- <-]; simpl; rewrite delete_insert_id by done;
    split_and!; try done; congruence.
Qed.

End StoreCalls.

Section Rename.

Context {E : Type}.
Variable net : NetworkClient.t E.
Variable host : Host.t E.

(** X18. The rename handler does nothing without a token or for a
    folder. For a file, when the store object inherits nothing under the
    name of the old path, the new path is not [__proto__], and the server
    answers the deletion of the old path, the store serves nothing for the
    old path before the upload starts, so the handler is the deletion
    followed by the upload of the new path: the rename of the record that
    ends it finds nothing to move. *)
Theorem onRename_answered fuel file oldPath w :
  (token (settings w) = EmptyString ->
   ∀ isFile, onRename net host fuel isFile file oldPath w = (Val tt, w))
  ∧ onRename net host fuel false file oldPath w = (Val tt, w)
  ∧ (token (settings w) ≠ EmptyString -> oldPath ≠ file ->
     file ≠ "__proto__"%string ->
     Obj.or_null (Obj.inherited (prototype w) oldPath) = None ->
     ∀ result e',
       NetworkClient.deleteFile net oldPath (optionsFor w oldPath) (env w)
       = (Returned result, e') ->
       ∃ b w1,
         deleteFile net host oldPath w = (Val b, w1)
         ∧ metadata w1 !! oldPath = None
         ∧ served w1 oldPath = None
         ∧ onRename net host fuel true file oldPath w
           = bind (uploadFile net host fuel file) (fun _ => ret tt) w1).
Proof.
  split_and!.
  - intros Htok isFile. unfold onRename, bind, get, ret.
    by rewrite bool_decide_eq_true_2.
  - unfold onRename, bind, get, ret. by rewrite andb_false_r.
  - intros Htok Hne Hfile Hinh result e' Hdel.
    destruct (deleteFile_returned net host oldPath w result e' Hdel)
      as (w1 & Hrun & Hgone & Hproto & Hlook & _).
    assert (Hserved1 : served w1 oldPath = None) by (unfold served; by rewrite Hlook).
    eexists _, w1. split; [exact Hrun|]. split; [done|]. split; [done|].
    unfold onRename, bind, get. simpl.
    rewrite bool_decide_eq_false_2 by done. simpl. rewrite Hrun.
    destruct (uploadFile net host fuel file w1) as [r w2] eqn:Hup.
    destruct r as [b2|msg|]; [|by apply uploadFile_no_exn in Hup|done].
    rewrite renameMetadata_run.
    pose proof (uploadFile_records net host _ _ _ _ _ Hup) as Hkept.
    rewrite (RecordsKept_served _ w1 w2 oldPath Hkept) by (cbv beta; congruence).
    by rewrite Hserved1.
Qed.

(** X19. The rename handler when the deletion of the old path rejects:
    the record of the old path survives the deletion and the upload, and
    the rename of the record then puts it, with its path replaced, over
    the record the upload has just written for the new path, so the
    revision kept for the renamed file is the one the old path had, not
    the one the server assigned. *)
Theorem onRename_stale_record fuel file oldPath w m msg e' :
  token (settings w) ≠ EmptyString -> oldPath ≠ file ->
  metadata w !! oldPath = Some m ->
  NetworkClient.deleteFile net oldPath (optionsFor w oldPath) (env w) = (Rejected msg, e') ->
  let run := onRename net host fuel true file oldPath w in
  run.1 = OutOfFuel
  ∨ (served run.2 file = Some (VRecord (with_path (VRecord m) file))
     ∧ (file ≠ "__proto__"%string ->
        metadata run.2 !! file = Some (with_path (VRecord m) file))
     ∧ metadata run.2 !! oldPath = None).
Proof.
  intros Htok Hne Hold Hdel run. subst run.
  unfold onRename, bind, get. simpl.
  rewrite bool_decide_eq_false_2 by done. simpl.
  rewrite (deleteFile_rejected net host oldPath w msg e' Hdel).
  destruct (uploadFile net host fuel file _) as [r w2] eqn:Hup.
  destruct r as [b2|msg2|]; [|by apply uploadFile_no_exn in Hup|by left].
  right.
  pose proof (uploadFile_other_record net host _ _ _ _ _ oldPath Hup Hne) as Hkept.
  simpl in Hkept. rewrite Hold in Hkept.
  pose proof (renameMetadata_run host oldPath file w2) as Hren.
  rewrite (served_own w2 oldPath m Hkept) in Hren. cbv zeta in Hren.
  set (ws := remove oldPath (assign file (with_path (VRecord m) file) w2)) in Hren.
  assert (Hws : served ws file = Some (VRecord (with_path (VRecord m) file))
    ∧ (file ≠ "__proto__"%string ->
       metadata ws !! file = Some (with_path (VRecord m) file))
    ∧ metadata ws !! oldPath = None).
  { unfold ws. split_and!.
    - unfold served. rewrite lookupProperty_remove_ne by done.
      by rewrite lookupProperty_assign.
    - intros Hfile. simpl. rewrite lookup_delete_ne by done.
      rewrite assign_own by (by left). simpl. apply lookup_insert_eq.
    - simpl. apply lookup_delete_eq. }
  rewrite Hren.
  destruct (Host.refuses host (env w2) (Host.metadataPath host)); simpl; [done|].
  destruct Hws as (H1 & H2 & H3). split_and!; done.
Qed.

End Rename.


Section Merge.

Context {E : Type}.
Variable net : NetworkClient.t E.
Variable host : Host.t E.

(** An upload whose file is read asks first for the upload of what it
    read, with the stored revision as parent. *)
Lemma uploadFile_first_request n file w content mtime r w' :
  vault w !! file = Some (TFile content mtime) ->
  Host.refuses host (env w) file = false ->
  uploadFile net host (S n) file w = (r, w') ->
  ∃ l, requests w' = l ++ ReqUpload file content (optionsFor w file) :: requests w.
Proof.
  intros Hfile Hfs. simpl. unfold optionsFor, storedRevision, served. intros H. mrun.
  all: store.
  all: try (by exists []).
  all: match goal with
       | H : handleConflict _ _ _ _ _ _ = _ |- _ =>
           apply handleConflict_asks in H as (reqs & Hreqs)
       end; exists reqs; by rewrite Hreqs.
Qed.

(** The handler up to the callback, when the merge succeeds. *)
Lemma handleConflict_merged onMergeSuccess file conflictData conflict w
    serverResponse e1 ancestorResponse e2 localContent mtime mergeResult e3 merged :
  ur_conflict conflictData = Some conflict ->
  0 < yourParentRevision conflict ->
  NetworkClient.downloadFile net file (Some (currentRevision conflict)) (env w)
  = (Returned serverResponse, e1) ->
  NetworkClient.downloadFile net file (Some (yourParentRevision conflict)) e1
  = (Returned ancestorResponse, e2) ->
  vault w !! file = Some (TFile localContent mtime) ->
  Host.refuses host e2 file = false ->
  NetworkClient.attemptAutoMerge net (mergeRequestOf file localContent conflict) e2
  = (Returned mergeResult, e3) ->
  mr_success mergeResult = true ->
  mr_hasConflict mergeResult = false ->
  mr_mergedContent mergeResult = Some merged ->
  merged ≠ EmptyString ->
  Host.refuses host e3 file = false ->
  handleConflict net host onMergeSuccess file conflictData w
  = try_catch (bind (onMergeSuccess file) (fun _ => ret tt))
      (fun error =>
         bind (console_error ("Error handling conflict: " +:+ error))
              (fun _ => notice (ConflictError file)))
      (merged_state host file localContent conflict merged e1 e2 e3 w).
Proof.
  intros Hc Hanc Hd Hd2 Hfile Hfs Hm Hs Hh Hmc Hne Hfs3.
  unfold handleConflict, merged_state, mergeRequestOf in *. rewrite Hc.
  munfold. wstep. rewrite Hd. wstep.
  destruct (Z.ltb_spec 0 (yourParentRevision conflict)); [|lia]. wstep.
  rewrite Hd2. wstep. rewrite Hfs. wstep. rewrite Hfile. wstep.
  rewrite Hm. wstep. rewrite Hs, Hh, Hmc. unfold JS.truthy_str.
  rewrite bool_decide_eq_false_2 by done. cbn [andb negb]. wstep.
  rewrite Hfs3. wstep. rewrite Hfile. wstep. cbn [default].
  destruct (onMergeSuccess file _) as [[b|msg|] w5]; reflexivity.
Qed.

(** X20. A successful merge. With an ancestor claimed, both downloads
    answered, the local file read and a merged document returned without
    conflict, the handler of the manager, whose callback is [uploadFile],
    writes the merged document over the local file and is from there the
    upload of that file: no backup, no marked document; and since nothing
    of this touches the store, the upload it runs sends the merged document
    with the parent revision of the upload that has just been rejected. *)
Theorem merge_success_uploads_again fuel file conflictData conflict w
    serverResponse e1 ancestorResponse e2 localContent mtime mergeResult e3 merged :
  ur_conflict conflictData = Some conflict ->
  0 < yourParentRevision conflict ->
  NetworkClient.downloadFile net file (Some (currentRevision conflict)) (env w)
  = (Returned serverResponse, e1) ->
  NetworkClient.downloadFile net file (Some (yourParentRevision conflict)) e1
  = (Returned ancestorResponse, e2) ->
  vault w !! file = Some (TFile localContent mtime) ->
  Host.refuses host e2 file = false ->
  NetworkClient.attemptAutoMerge net (mergeRequestOf file localContent conflict) e2
  = (Returned mergeResult, e3) ->
  mr_success mergeResult = true ->
  mr_hasConflict mergeResult = false ->
  mr_mergedContent mergeResult = Some merged ->
  merged ≠ EmptyString ->
  Host.refuses host e3 file = false ->
  let w4 := merged_state host file localContent conflict merged e1 e2 e3 w in
  handleConflict net host (uploadFile net host fuel) file conflictData w
  = bind (uploadFile net host fuel file) (fun _ => ret tt) w4
  ∧ vault w4 = <[file := TFile merged (Host.now host e3)]> (vault w)
  ∧ metadata w4 = metadata w
  ∧ prototype w4 = prototype w
  ∧ ∀ n r w5,
      uploadFile net host (S n) file w4 = (r, w5) ->
      ∃ l, requests w5
           = l ++ ReqUpload file merged (optionsFor w file) :: requests w4.
Proof.
  intros Hc Hanc Hd Hd2 Hfile Hfs Hm Hs Hh Hmc Hne Hfs3 w4.
  split_and!; try reflexivity.
  - rewrite (handleConflict_merged (uploadFile net host fuel) file conflictData conflict w
               serverResponse e1 ancestorResponse e2 localContent mtime mergeResult e3
               merged) by assumption.
    fold w4. unfold try_catch, bind.
    destruct (uploadFile net host fuel file w4) as [[b|msg|] w5] eqn:Hup;
      [done| |done].
    by apply uploadFile_no_exn in Hup.
  - intros n r w5 Hup.
    apply (uploadFile_first_request n file w4 merged (Host.now host e3) r w5);
      [apply lookup_insert_eq|exact Hfs3|exact Hup].
Qed.

(** X21. An upload that cannot end. Let the server reject, for a
    conflict with an ancestor, every upload of the file that claims the
    stored revision, answer the downloads, and merge every time into a
    non-empty document without conflict, and let the local file be
    readable and writable throughout. Then no depth of recursion is enough
    for [uploadFile]: each rejection is merged and uploaded again with the
    same parent revision, and rejected again. *)
Theorem stale_parent_never_settles (Inv : E -> Prop) file w :
  is_TFile (vault w !! file) = true ->
  Inv (env w) ->
  (∀ e, Inv e -> Host.refuses host e file = false) ->
  (∀ content e, Inv e ->
     ∃ result conflict e',
       NetworkClient.uploadFile net file content (optionsFor w file) e
       = (Returned result, e')
       ∧ Inv e'
       ∧ ur_success result = false
       ∧ ur_error result = Some "Conflict detected"%string
       ∧ ur_conflict result = Some conflict
       ∧ 0 < yourParentRevision conflict) ->
  (∀ rev e, Inv e ->
     ∃ response e',
       NetworkClient.downloadFile net file rev e = (Returned response, e') ∧ Inv e') ->
  (∀ request e, Inv e ->
     ∃ mergeResult merged e',
       NetworkClient.attemptAutoMerge net request e = (Returned mergeResult, e')
       ∧ Inv e'
       ∧ mr_success mergeResult = true
       ∧ mr_hasConflict mergeResult = false
       ∧ mr_mergedContent mergeResult = Some merged
       ∧ merged ≠ EmptyString) ->
  ∀ fuel, (uploadFile net host fuel file w).1 = OutOfFuel.
Proof.
  intros Hfile Hinv Hfs Hup Hdown Hmerge fuel.
  assert (Hgen : ∀ w0,
            served w0 file = served w file ->
            settings w0 = settings w ->
            is_TFile (vault w0 !! file) = true ->
            Inv (env w0) ->
            (uploadFile net host fuel file w0).1 = OutOfFuel); [|by apply Hgen].
  clear Hfile Hinv.
  induction fuel as [|n IH]; intros w0 Hmeta Hset Hfile Hinv; [reflexivity|].
  destruct (vault w0 !! file) as [[content mtime| ]|] eqn:Hv; try discriminate.
  destruct (Hup content (env w0) Hinv)
    as (result & conflict & e0 & Hcall & Hinv0 & Hs & Herr & Hc & Hanc).
  destruct (Hdown (Some (currentRevision conflict)) e0 Hinv0)
    as (serverResponse & e1 & Hd1 & Hinv1).
  destruct (Hdown (Some (yourParentRevision conflict)) e1 Hinv1)
    as (ancestorResponse & e2 & Hd2 & Hinv2).
  destruct (Hmerge (mergeRequestOf file content conflict) e2 Hinv2)
    as (mergeResult & merged & e3 & Hm & Hinv3 & Hms & Hmh & Hmc & Hne).
  assert (Hopts : optionsFor w0 file = optionsFor w file).
  { unfold optionsFor, storedRevision. by rewrite Hmeta, Hset. }
  simpl uploadFile. fold (optionsFor w0 file).
  unfold try_catch at 1. unfold bind at 1. unfold vault_read.
  unfold bind at 1. unfold guard_fs. rewrite (Hfs _ Hinv).
  unfold bind at 1. unfold get at 1. rewrite Hv. unfold ret at 1.
  unfold bind at 1. rewrite getMetadata_served.
  unfold bind at 1. unfold getDeviceId at 1. unfold get at 1.
  unfold bind at 1. unfold call at 1.
  change {| o_parentRevision := Obj.revisionOf (served w0 file);
            o_deviceId := settingsDeviceId (settings w0) |}
    with (optionsFor w0 file).
  rewrite Hopts, Hcall, Hs.
  unfold isConflictRejection. rewrite Herr, Hc.
  rewrite bool_decide_eq_true_2 by done. rewrite bool_decide_eq_true_2 by eauto.
  cbn [andb]. unfold bind at 1.
  rewrite (handleConflict_merged (uploadFile net host n) file result conflict _
             serverResponse e1 ancestorResponse e2 content mtime mergeResult e3 merged);
    try done; try (by apply Hfs).
  unfold try_catch, bind.
  specialize (IH (merged_state host file content conflict merged e1 e2 e3
                    (issue (ReqUpload file content (optionsFor w file)) e0 w0))).
  destruct (uploadFile net host n file _) as [r w5].
  simpl in IH. rewrite IH; [done|done|done| |done].
  by rewrite lookup_insert_eq.
Qed.

End Merge.


Section Names.

Context {E : Type}.
Variable host : Host.t E.

(** *** Strings *)

Lemma string_app_cons a (s t : string) : String a s +:+ t = String a (s +:+ t).
Proof. reflexivity. Qed.

Lemma string_app_nil (t : string) : EmptyString +:+ t = t.
Proof. reflexivity. Qed.

Lemma string_app_assoc (s t u : string) : (s +:+ t) +:+ u = s +:+ (t +:+ u).
Proof.
  induction s as [|a s IH]; rewrite ?string_app_nil, ?string_app_cons; [done|].
  f_equal. exact IH.
Qed.

Lemma string_length_app (s t : string) :
  String.length (s +:+ t) = (String.length s + String.length t)%nat.
Proof.
  induction s as [|a s IH]; rewrite ?string_app_nil, ?string_app_cons; simpl; [done|].
  f_equal. exact IH.
Qed.

Lemma substring_all (s : string) : substring 0 (String.length s) s = s.
Proof. induction s as [|a s IH]; simpl; [done|]. f_equal. exact IH. Qed.

Lemma substring_skip (s t : string) n m :
  substring (String.length s + n) m (s +:+ t) = substring n m t.
Proof.
  induction s as [|a s IH]; rewrite ?string_app_nil, ?string_app_cons; simpl; [done|].
  apply IH.
Qed.

Lemma substring_app_tail (s t : string) : ∀ i, (i ≤ String.length s)%nat ->
  substring i (String.length s + String.length t - i) (s +:+ t)
  = substring i (String.length s - i) s +:+ t.
Proof.
  induction s as [|a s IH]; intros i Hi;
    rewrite ?string_app_nil, ?string_app_cons; simpl in *.
  - assert (i = 0%nat) as -> by lia. rewrite Nat.sub_0_r. simpl.
    destruct t; simpl; [done|]. by rewrite substring_all.
  - destruct i as [|i].
    + simpl. rewrite string_app_cons. f_equal.
      specialize (IH 0%nat). rewrite !Nat.sub_0_r in IH. apply IH. lia.
    + apply IH. lia.
Qed.

Lemma lastIndexOf_app c (s t : string) :
  JS.lastIndexOf c (s +:+ t)
  = match JS.lastIndexOf c t with
    | Some i => Some (String.length s + i)%nat
    | None => JS.lastIndexOf c s
    end.
Proof.
  induction s as [|a s IH]; rewrite ?string_app_nil, ?string_app_cons; simpl.
  - by destruct (JS.lastIndexOf c t).
  - rewrite IH. by destruct (JS.lastIndexOf c t).
Qed.

Lemma lastIndexOf_lt c (s : string) i :
  JS.lastIndexOf c s = Some i -> (i < String.length s)%nat.
Proof.
  revert i. induction s as [|a s IH]; intros i; simpl; [done|].
  destruct (JS.lastIndexOf c s) as [j|].
  - intros [= <-]. specialize (IH j eq_refl). lia.
  - destruct (Ascii.eqb a c); [|done]. intros [= <-]. lia.
Qed.

Lemma after_last_app c (s t : string) :
  JS.after_last c (s +:+ t)
  = match JS.lastIndexOf c t with
    | Some _ => JS.after_last c t
    | None => JS.after_last c s +:+ t
    end.
Proof.
  unfold JS.after_last. rewrite lastIndexOf_app.
  destruct (JS.lastIndexOf c t) as [i|] eqn:Ht.
  - rewrite string_length_app.
    replace (S (String.length s + i)) with (String.length s + S i)%nat by lia.
    rewrite substring_skip. f_equal. lia.
  - destruct (JS.lastIndexOf c s) as [i|] eqn:Hs; [|done].
    apply lastIndexOf_lt in Hs. rewrite string_length_app.
    apply substring_app_tail. lia.
Qed.

Lemma lastIndexOf_substring c (s : string) : ∀ n m,
  JS.lastIndexOf c s = None -> JS.lastIndexOf c (substring n m s) = None.
Proof.
  induction s as [|a s IH]; intros n m; simpl.
  - by destruct n, m.
  - destruct (JS.lastIndexOf c s) eqn:Hs; [done|].
    destruct (Ascii.eqb a c) eqn:Ha; [done|]. intros _.
    destruct n as [|n]; [destruct m as [|m]|]; simpl; [done| |by apply IH].
    by rewrite IH, Ha.
Qed.

Lemma lastIndexOf_after_last c (s : string) :
  JS.lastIndexOf c (JS.after_last c s) = None.
Proof.
  unfold JS.after_last.
  destruct (JS.lastIndexOf c s) as [i|] eqn:Hs; [|done].
  revert i Hs. induction s as [|a s IH]; intros i; simpl; [done|].
  destruct (JS.lastIndexOf c s) as [j|] eqn:Hj.
  - intros [= <-]. by apply IH.
  - destruct (Ascii.eqb a c); [|done]. intros [= <-].
    rewrite ?Nat.sub_0_r. by rewrite substring_all.
Qed.

Lemma lastIndexOf_after_last_other c d (s : string) :
  JS.lastIndexOf c s = None -> JS.lastIndexOf c (JS.after_last d s) = None.
Proof.
  intros Hs. unfold JS.after_last.
  destruct (JS.lastIndexOf d s); [|done]. by apply lastIndexOf_substring.
Qed.

Lemma lastIndexOf_replace_colon_dot (s : string) :
  JS.lastIndexOf "." (JS.replace_colon_dot s) = None.
Proof.
  induction s as [|a s IH]; simpl; [done|]. rewrite IH.
  destruct (Ascii.eqb a ":") eqn:Hc; simpl; [done|].
  destruct (Ascii.eqb a ".") eqn:Hd; simpl; [done|by rewrite Hd].
Qed.

Lemma backup_names_are_synced_aux file t :
  shouldSyncFile (conflictFileName host file t) = true
  ∧ shouldSyncFile (fallbackName host file t) = shouldSyncFile file.
Proof.
  assert (Hfb : extension (fallbackName host file t) = extension file).
  { unfold extension, fallbackName, name.
    set (ts := JS.replace_colon_dot (Host.toISOString host t)).
    rewrite <- !string_app_assoc.
    rewrite after_last_app, lastIndexOf_after_last.
    set (prefix := JS.after_last "/" (("conflict-" +:+ ts) +:+ "-")).
    assert (Hp : JS.lastIndexOf "." prefix = None).
    { apply lastIndexOf_after_last_other.
      rewrite !lastIndexOf_app. simpl. subst ts.
      by rewrite lastIndexOf_replace_colon_dot. }
    rewrite lastIndexOf_app, after_last_app, Hp.
    by destruct (JS.lastIndexOf "." (JS.after_last "/" file)). }
  split; [|unfold shouldSyncFile; by rewrite Hfb].
  unfold shouldSyncFile, extension, conflictFileName, name.
  rewrite <- !string_app_assoc.
  set (stem := (file +:+ ".conflict-") +:+ JS.replace_colon_dot (Host.toISOString host t)).
  assert (Hname : JS.after_last "/" (stem +:+ ".md") = JS.after_last "/" stem +:+ ".md")
    by (rewrite after_last_app; reflexivity).
  rewrite Hname, lastIndexOf_app, after_last_app. reflexivity.
Qed.

(** X22. The backups come back as files to synchronize. The first name
    of a backup always carries the extension [md], whatever the extension
    of the file in conflict and whatever the time stamp, and the fallback
    name carries the extension of the file in conflict: the upward phase
    of the next pass takes the backup of a file it synchronizes for a new
    file of the vault. *)
Theorem backup_names_are_synced file t :
  shouldSyncFile (conflictFileName host file t) = true
  ∧ extension (fallbackName host file t) = extension file
  ∧ shouldSyncFile (fallbackName host file t) = shouldSyncFile file.
Proof.
  assert (Hfb : extension (fallbackName host file t) = extension file).
  { unfold extension, fallbackName, name.
    set (ts := JS.replace_colon_dot (Host.toISOString host t)).
    rewrite <- !string_app_assoc.
    rewrite after_last_app, lastIndexOf_after_last.
    set (prefix := JS.after_last "/" (("conflict-" +:+ ts) +:+ "-")).
    assert (Hp : JS.lastIndexOf "." prefix = None).
    { apply lastIndexOf_after_last_other.
      rewrite !lastIndexOf_app. simpl. subst ts.
      by rewrite lastIndexOf_replace_colon_dot. }
    rewrite lastIndexOf_app, after_last_app, Hp.
    by destruct (JS.lastIndexOf "." (JS.after_last "/" file)). }
  split_and!; [|exact Hfb|unfold shouldSyncFile; by rewrite Hfb].
  unfold shouldSyncFile, extension, conflictFileName, name.
  rewrite <- !string_app_assoc.
  set (stem := (file +:+ ".conflict-") +:+ JS.replace_colon_dot (Host.toISOString host t)).
  assert (Hname : JS.after_last "/" (stem +:+ ".md") = JS.after_last "/" stem +:+ ".md")
    by (rewrite after_last_app; reflexivity).
  rewrite Hname, lastIndexOf_app, after_last_app. reflexivity.
Qed.

End Names.


Section Backup.

Context {E : Type}.
Variable host : Host.t E.

Lemma elem_of_getFiles (w : World E) p :
  is_TFile (vault w !! p) = true -> In p (getFiles w).
Proof.
  intros Hp. unfold getFiles. apply filter_In. split; [|done].
  destruct (vault w !! p) as [f|] eqn:Hv; [|done].
  apply list_elem_of_In, list_elem_of_fmap. exists (p, f). split; [done|].
  by apply elem_of_map_to_list.
Qed.

(** X23. When the manual fallback on an existing file returns, the
    backup has been created under one of its two names, which was free,
    with the content of the server and the time of the fallback; and for a
    file that is synchronized, the backup is among the files the upward
    phase goes through. *)
Theorem manual_backup_is_enumerated file localContent serverContent w w' :
  is_TFile (vault w !! file) = true ->
  shouldSyncFile file = true ->
  handleManualConflict host file localContent serverContent w = (Val tt, w') ->
  ∃ backupPath,
    BackupCreatable host w file backupPath
    ∧ vault w' !! backupPath = Some (TFile serverContent (Host.now host (env w)))
    ∧ In backupPath (List.filter shouldSyncFile (getFiles w')).
Proof.
  intros Hfile Hsync.
  pose proof (backup_names_are_synced_aux host file (Host.now host (env w)))
    as (Hfirst & Hsecond).
  rewrite Hsync in Hsecond. unfold conflictFileName, fallbackName in Hfirst, Hsecond.
  unfold handleManualConflict. intros H. mrun.
  all: try (rewrite lookup_insert_eq in *; simpl in *; discriminate).
  all: match goal with
       | |- context [<[_ := _]> (<[?b := _]> _)] => exists b
       end.
  all: assert (Hne : ∀ b, vault w !! b = None -> file ≠ b)
         by (intros b Hb <-; rewrite Hb in Hfile; discriminate).
  all: split_and!.
  all: try (rewrite lookup_insert_ne by (apply Hne; done); apply lookup_insert_eq).
  all: try (apply filter_In; split;
            [apply elem_of_getFiles; simpl;
             rewrite lookup_insert_ne by (apply Hne; done);
             by rewrite lookup_insert_eq
            |first [exact Hfirst | exact Hsecond]]).
  all: unfold BackupCreatable, conflictFileName, fallbackName; eauto 8.
Qed.

End Backup.




(** ** The further statements on concrete runs *)

Section FurtherExamples.

Import Scenario Cases.

Lemma synced_keyed : Keyed synced.
Proof.
  intros p m Hp. unfold synced, world in Hp. cbn [metadata] in Hp.
  apply lookup_singleton_Some in Hp as [<- <-]. reflexivity.
Qed.

(** X1 on a run: the records after a pass from [synced]. *)
Lemma Keyed_preserved_witness :
  Keyed synced ∧ Keyed (syncVault server clockHost 1 false synced).2.
Proof.
  split; [exact synced_keyed|].
  exact (proj1 (Keyed_preserved server clockHost 1 false "a.md" "a.md" None true "a.md"
                  synced synced_keyed)).
Defined.

(** X7 on a run: the handler of a conflict without ancestor, built with a
    callback that gives up at once. *)
Lemma handleConflict_keeps_store_witness :
  (∀ w0, StoreKept w0 (uploadFile contended clockHost 0 "a.md" w0).2)
  ∧ StoreKept edited
      (handleConflict contended clockHost (uploadFile contended clockHost 0)
         "a.md" rejection edited).2.
Proof.
  assert (Hcb : ∀ w0, StoreKept w0 (uploadFile contended clockHost 0 "a.md" w0).2)
    by (intros w0; split_and!; reflexivity).
  split; [exact Hcb|].
  exact (handleConflict_keeps_store contended clockHost
           (uploadFile contended clockHost 0) "a.md" rejection edited Hcb).
Defined.

(** X9 on a run: a pass without a connection. *)
Lemma syncVault_listing_fails_witness :
  token (settings synced) ≠ EmptyString
  ∧ isSyncing synced = false
  ∧ NetworkClient.listFiles offline (env synced) = (Rejected "Failed to fetch", 1001)
  ∧ ∃ w', syncVault offline clockHost 1 true synced = (Val tt, w')
          ∧ requests w' = ReqList :: requests synced
          ∧ vault w' = vault synced
          ∧ metadata w' = metadata synced
          ∧ prototype w' = prototype synced
          ∧ persisted w' = persisted synced
          ∧ console w' = ("Sync failed: " +:+ "Failed to fetch")%string :: console synced
          ∧ notices w' = SyncFailed "Failed to fetch" :: notices (started true synced)
          ∧ isSyncing w' = false.
Proof.
  assert (H1 : token (settings synced) ≠ EmptyString) by (vm_compute; discriminate).
  assert (H2 : isSyncing synced = false) by reflexivity.
  assert (H3 : NetworkClient.listFiles offline (env synced)
               = (Rejected "Failed to fetch", 1001)) by (vm_compute; reflexivity).
  assert (H4 : ∀ (res : ListResult) (fs : list RemoteFile),
             @Rejected ListResult "Failed to fetch" = Returned res ->
             lr_success res = true -> lr_files res = Some fs -> False)
    by (intros res fs Heq; discriminate Heq).
  split; [exact H1|]. split; [exact H2|]. split; [exact H3|].
  exact (syncVault_listing_fails offline clockHost 1 true synced
           (Rejected "Failed to fetch") 1001 H1 H2 H3 H4).
Defined.

(** X11 on a run: [a.md] deleted on the server. *)
Lemma deleteFile_true_witness :
  let w' := (deleteFile server clockHost "a.md" synced).2 in
  deleteFile server clockHost "a.md" synced = (Val true, w')
  ∧ ∃ result e',
      NetworkClient.deleteFile server "a.md" (optionsFor synced "a.md") (env synced)
      = (Returned result, e')
      ∧ del_success result = true
      ∧ requests w' = ReqDelete "a.md" (optionsFor synced "a.md") :: requests synced
      ∧ metadata w' = delete "a.md" (metadata synced)
      ∧ prototype w' = prototype synced
      ∧ served w' "a.md" = Obj.or_null (Obj.inherited (prototype synced) "a.md")
      ∧ (is_Some (served synced "a.md") -> persisted w' = metadata w')
      ∧ (served synced "a.md" = None ->
         persisted w' = persisted synced ∧ metadata w' = metadata synced)
      ∧ vault w' = vault synced
      ∧ console w' = console synced
      ∧ notices w' = (if bool_decide (is_Some (del_conflict result))
                      then [DeleteConflict "a.md"] else []) ++ notices synced.
Proof.
  intros w'.
  assert (Hrun : deleteFile server clockHost "a.md" synced = (Val true, w'))
    by (vm_compute; reflexivity).
  split; [exact Hrun|].
  exact (deleteFile_true server clockHost "a.md" synced w' Hrun).
Defined.

(** X12 on a run: revision 5 of [a.md] downloaded over the local file. *)
Lemma downloadFile_true_witness :
  let w' := (downloadFile server clockHost "a.md" (Some 5) synced).2 in
  downloadFile server clockHost "a.md" (Some 5) synced = (Val true, w')
  ∧ vault synced !! "a.md" = Some (TFile "local" 800)
  ∧ vault w' !! "a.md" = Some (TFile "remote" 1001)
  ∧ ∃ result content,
      (NetworkClient.downloadFile server "a.md" (Some 5) (env synced)).1 = Returned result
      ∧ dr_content result = Some content
      ∧ (vault synced !! "a.md" = Some TFolder ->
         vault w' !! "a.md" = Some TFolder ∧ metadata w' = metadata synced
         ∧ prototype w' = prototype synced ∧ persisted w' = persisted synced)
      ∧ (vault synced !! "a.md" ≠ Some TFolder ->
         vault w' !! "a.md" = Some (TFile content (Host.now clockHost (env w')))
         ∧ persisted w' = metadata w'
         ∧ ∃ m, served w' "a.md" = Some (VRecord m)
                ∧ ("a.md"%string ≠ "__proto__"%string ∨ is_Some (metadata synced !! "a.md") ->
                   persisted w' !! "a.md" = Some m ∧ prototype w' = prototype synced)
                ∧ ("a.md"%string = "__proto__"%string -> metadata synced !! "a.md" = None ->
                   persisted w' !! "a.md" = None ∧ prototype w' = Some m))
      ∧ (JS.before_last "/" "a.md" ≠ EmptyString ->
         is_Some (vault w' !! JS.before_last "/" "a.md"))
      ∧ (∀ q, q ≠ "a.md"%string -> q ≠ JS.before_last "/" "a.md" ->
              vault w' !! q = vault synced !! q).
Proof.
  intros w'.
  assert (Hrun : downloadFile server clockHost "a.md" (Some 5) synced = (Val true, w'))
    by (vm_compute; reflexivity).
  split; [exact Hrun|]. split; [vm_compute; reflexivity|].
  split; [vm_compute; reflexivity|].
  exact (downloadFile_true server clockHost "a.md" (Some 5) synced w' Hrun).
Defined.

(** X13 on a run: the edited [a.md] is accepted as revision 4, the
    metadata file cannot be written. *)
Lemma accepted_upload_unwritten_witness :
  let result :=
    {| ur_success := true; ur_file := Some (descriptor "a.md" 4 3);
       ur_error := None; ur_conflict := None |} in
  vault edited !! "a.md" = Some (TFile "edited" 950)
  ∧ NetworkClient.uploadFile server "a.md" "edited" (optionsFor edited "a.md") (env edited)
    = (Returned result, 1001)
  ∧ Host.refuses lockedStore 1001 (Host.metadataPath lockedStore) = true
  ∧ ∃ w', uploadFile server lockedStore 1 "a.md" edited = (Val false, w')
          ∧ served w' "a.md"
            = Some (VRecord
                 (spread (default (VRecord (blank "a.md")) (served edited "a.md"))
                    (uploadedMeta edited "a.md" result (Host.now lockedStore 1001)) "a.md"))
          ∧ ("a.md"%string ≠ "__proto__"%string ∨ is_Some (metadata edited !! "a.md") ->
             metadata w' !! "a.md"
             = Some (spread (default (VRecord (blank "a.md")) (served edited "a.md"))
                       (uploadedMeta edited "a.md" result (Host.now lockedStore 1001))
                       "a.md"))
          ∧ persisted w' = persisted edited
          ∧ requests w'
            = ReqUpload "a.md" "edited" (optionsFor edited "a.md") :: requests edited
          ∧ console w'
            = ("Error uploading " +:+ "a.md" +:+ ": " +:+ "EIO")%string :: console edited.
Proof.
  intros result.
  assert (H1 : vault edited !! "a.md" = Some (TFile "edited" 950))
    by (vm_compute; reflexivity).
  assert (H2 : Host.refuses lockedStore (env edited) "a.md" = false) by reflexivity.
  assert (H3 : NetworkClient.uploadFile server "a.md" "edited" (optionsFor edited "a.md")
                 (env edited) = (Returned result, 1001)) by (vm_compute; reflexivity).
  assert (H4 : ur_success result = true) by reflexivity.
  assert (H5 : Host.refuses lockedStore 1001 (Host.metadataPath lockedStore) = true)
    by reflexivity.
  split; [exact H1|]. split; [exact H3|]. split; [exact H5|].
  exact (accepted_upload_unwritten server lockedStore 0 "a.md" edited "edited" 950
           result 1001 H1 H2 H3 H4 H5).
Defined.

(** X14 on a run: the download of a file named [__proto__] into the
    empty store returns true, the store serves its record and the file of
    the store does not hold it. *)
Lemma true_results_are_flushed_witness :
  let w' := (downloadFile server clockHost "__proto__" (Some 5) fresh).2 in
  Flushed fresh
  ∧ downloadFile server clockHost "__proto__" (Some 5) fresh = (Val true, w')
  ∧ Flushed w'
  ∧ (vault fresh !! "__proto__" ≠ Some TFolder ->
     ∃ m, served w' "__proto__" = Some (VRecord m)
          ∧ ("__proto__"%string ≠ "__proto__"%string
             ∨ is_Some (metadata fresh !! "__proto__") ->
             persisted w' !! "__proto__" = Some m)
          ∧ ("__proto__"%string = "__proto__"%string ->
             metadata fresh !! "__proto__" = None ->
             persisted w' !! "__proto__" = None ∧ prototype w' = Some m)).
Proof.
  intros w'.
  assert (H1 : Flushed fresh) by reflexivity.
  assert (Hrun : downloadFile server clockHost "__proto__" (Some 5) fresh = (Val true, w'))
    by (vm_compute; reflexivity).
  split; [exact H1|]. split; [exact Hrun|].
  exact (proj1 (proj2 (true_results_are_flushed server clockHost 1 fresh H1))
           "__proto__"%string (Some 5) w' Hrun).
Defined.

(** X15 on a run: a new revision saved for [a.md] keeps the other fields of
    its record. *)
Lemma saveMetadata_lookup_witness :
  let run := saveMetadata clockHost "a.md" (revisionOnly 6) synced in
  run = (run.1, run.2)
  ∧ served run.2 "a.md"
    = Some (VRecord (spread (default (VRecord (blank "a.md")) (served synced "a.md"))
                       (revisionOnly 6) "a.md"))
  ∧ metadata run.2 !! "a.md" ≫= revision = Some 6
  ∧ metadata run.2 !! "a.md" ≫= lastSyncedAt = Some 900.
Proof.
  intros run.
  assert (Hrun : run = (run.1, run.2)) by (vm_compute; reflexivity).
  split; [exact Hrun|].
  split; [exact (proj1 (saveMetadata_lookup clockHost "a.md" (revisionOnly 6) synced
                          run.1 run.2 Hrun))|].
  split; vm_compute; reflexivity.
Defined.

(** X16 on a run: the record of [a.md] renamed to [a.md] is lost. *)
Lemma renameMetadata_moves_witness :
  let run := renameMetadata clockHost "a.md" "a.md" synced in
  run = (run.1, run.2)
  ∧ served synced "a.md" = Some (VRecord (record "a.md" 5 900))
  ∧ metadata run.2 !! "a.md" = None.
Proof.
  intros run.
  assert (Hrun : run = (run.1, run.2)) by (vm_compute; reflexivity).
  assert (Hm : served synced "a.md" = Some (VRecord (record "a.md" 5 900)))
    by (vm_compute; reflexivity).
  split; [exact Hrun|]. split; [exact Hm|].
  exact (proj1 (proj2 (renameMetadata_moves clockHost "a.md" "a.md" synced
                         run.1 run.2 Hrun) (VRecord (record "a.md" 5 900)) Hm)).
Defined.

(** X17 on a run: a record saved for [a.md] in the empty store and deleted
    again. *)
Lemma save_then_delete_restores_witness :
  let w1 := (saveMetadata clockHost "a.md" (revisionOnly 6) fresh).2 in
  let run := deleteMetadata clockHost "a.md" w1 in
  served fresh "a.md" = None
  ∧ saveMetadata clockHost "a.md" (revisionOnly 6) fresh = (Val tt, w1)
  ∧ run = (run.1, run.2)
  ∧ metadata run.2 = metadata fresh
  ∧ prototype run.2 = prototype fresh
  ∧ (run.1 = Val tt -> Flushed fresh -> persisted run.2 = persisted fresh).
Proof.
  intros w1 run.
  assert (H1 : served fresh "a.md" = None) by (vm_compute; reflexivity).
  assert (H2 : saveMetadata clockHost "a.md" (revisionOnly 6) fresh = (Val tt, w1))
    by (vm_compute; reflexivity).
  assert (H3 : run = (run.1, run.2)) by (vm_compute; reflexivity).
  split; [exact H1|]. split; [exact H2|]. split; [exact H3|].
  exact (save_then_delete_restores clockHost "a.md" (revisionOnly 6) fresh w1
           run.1 run.2 H1 H2 H3).
Defined.

(** X18 on a run: [old.md] renamed to [new.md], the server answers the
    deletion. *)
Lemma onRename_answered_witness :
  token (settings renamed) ≠ EmptyString
  ∧ Obj.or_null (Obj.inherited (prototype renamed) "old.md") = None
  ∧ NetworkClient.deleteFile server "old.md" (optionsFor renamed "old.md") (env renamed)
    = (Returned {| del_success := true; del_conflict := None |}, 1001)
  ∧ ∃ b w1,
      deleteFile server clockHost "old.md" renamed = (Val b, w1)
      ∧ metadata w1 !! "old.md" = None
      ∧ served w1 "old.md" = None
      ∧ onRename server clockHost 1 true "new.md" "old.md" renamed
        = bind (uploadFile server clockHost 1 "new.md") (fun _ => ret tt) w1.
Proof.
  assert (H1 : token (settings renamed) ≠ EmptyString) by (vm_compute; discriminate).
  assert (H2 : "old.md"%string ≠ "new.md"%string) by discriminate.
  assert (H2' : "new.md"%string ≠ "__proto__"%string) by discriminate.
  assert (H2'' : Obj.or_null (Obj.inherited (prototype renamed) "old.md") = None)
    by (vm_compute; reflexivity).
  assert (H3 : NetworkClient.deleteFile server "old.md" (optionsFor renamed "old.md")
                 (env renamed)
               = (Returned {| del_success := true; del_conflict := None |}, 1001))
    by (vm_compute; reflexivity).
  split; [exact H1|]. split; [exact H2''|]. split; [exact H3|].
  exact (proj2 (proj2 (onRename_answered server clockHost 1 "new.md" "old.md" renamed))
           H1 H2 H2' H2'' _ _ H3).
Defined.

(** X19 on a run: the deletion of [old.md] fails, [new.md] is uploaded as
    revision 1, and the record left for [new.md] is the one of [old.md], at
    revision 5. *)
Lemma onRename_stale_record_witness :
  let run := onRename undeletable clockHost 1 true "new.md" "old.md" renamed in
  token (settings renamed) ≠ EmptyString
  ∧ metadata renamed !! "old.md" = Some (record "old.md" 5 900)
  ∧ NetworkClient.deleteFile undeletable "old.md" (optionsFor renamed "old.md") (env renamed)
    = (Rejected "Failed to fetch", 1001)
  ∧ run.1 = Val tt
  ∧ (uploadFile undeletable clockHost 1 "new.md" renamed).1 = Val true
  ∧ metadata (uploadFile undeletable clockHost 1 "new.md" renamed).2 !! "new.md"
    ≫= revision = Some 1
  ∧ metadata run.2 !! "new.md" ≫= revision = Some 5
  ∧ (run.1 = OutOfFuel
     ∨ (served run.2 "new.md"
        = Some (VRecord (with_path (VRecord (record "old.md" 5 900)) "new.md"))
        ∧ ("new.md"%string ≠ "__proto__"%string ->
           metadata run.2 !! "new.md"
           = Some (with_path (VRecord (record "old.md" 5 900)) "new.md"))
        ∧ metadata run.2 !! "old.md" = None)).
Proof.
  intros run.
  assert (H1 : token (settings renamed) ≠ EmptyString) by (vm_compute; discriminate).
  assert (H2 : "old.md"%string ≠ "new.md"%string) by discriminate.
  assert (H3 : metadata renamed !! "old.md" = Some (record "old.md" 5 900))
    by (vm_compute; reflexivity).
  assert (H4 : NetworkClient.deleteFile undeletable "old.md" (optionsFor renamed "old.md")
                 (env renamed) = (Rejected "Failed to fetch", 1001))
    by (vm_compute; reflexivity).
  split; [exact H1|]. split; [exact H3|]. split; [exact H4|].
  split; [vm_compute; reflexivity|]. split; [vm_compute; reflexivity|].
  split; [vm_compute; reflexivity|]. split; [vm_compute; reflexivity|].
  exact (onRename_stale_record undeletable clockHost 1 "new.md" "old.md" renamed
           (record "old.md" 5 900) "Failed to fetch" 1001 H1 H2 H3 H4).
Defined.

(** X20 on a run: the edited [a.md], rejected at revision 3, is merged and
    uploaded again with parent revision 3. *)
Lemma merge_success_uploads_again_witness :
  let conflict := {| currentRevision := 5; yourParentRevision := 3 |} in
  let w4 := merged_state clockHost "a.md" "edited" conflict "merged" 1001 1002 1003 edited in
  handleConflict merging clockHost (uploadFile merging clockHost 1) "a.md"
    staleRejection edited
  = bind (uploadFile merging clockHost 1 "a.md") (fun _ => ret tt) w4
  ∧ vault w4 = <["a.md"%string := TFile "merged" (Host.now clockHost 1003)]> (vault edited)
  ∧ metadata w4 = metadata edited
  ∧ prototype w4 = prototype edited
  ∧ ∀ n r w5,
      uploadFile merging clockHost (S n) "a.md" w4 = (r, w5) ->
      ∃ l, requests w5
           = l ++ ReqUpload "a.md" "merged" (optionsFor edited "a.md") :: requests w4.
Proof.
  intros conflict w4.
  exact (merge_success_uploads_again merging clockHost 1 "a.md" staleRejection conflict
           edited
           {| dr_success := true; dr_file := Some (descriptor "a.md" 5 4);
              dr_content := Some "remote"%string; dr_isConflict := false |} 1001
           {| dr_success := true; dr_file := Some (descriptor "a.md" 3 2);
              dr_content := Some "remote"%string; dr_isConflict := false |} 1002
           "edited" 950
           {| mr_success := true; mr_hasConflict := false;
              mr_mergedContent := Some "merged"%string |} 1003 "merged"
           ltac:(reflexivity) ltac:(vm_compute; reflexivity)
           ltac:(vm_compute; reflexivity) ltac:(vm_compute; reflexivity)
           ltac:(vm_compute; reflexivity) ltac:(reflexivity)
           ltac:(vm_compute; reflexivity) ltac:(reflexivity) ltac:(reflexivity)
           ltac:(reflexivity) ltac:(discriminate) ltac:(reflexivity)).
Defined.

(** X21 on a run: against [merging], the upload of the edited [a.md] is
    not over at depth 5. *)
Lemma stale_parent_never_settles_witness :
  (uploadFile merging clockHost 5 "a.md" edited).1 = OutOfFuel.
Proof.
  refine (stale_parent_never_settles merging clockHost (fun _ => True) "a.md" edited
            _ _ _ _ _ _ 5%nat).
  - vm_compute. reflexivity.
  - exact I.
  - intros e _. reflexivity.
  - intros content e _.
    exists {| ur_success := false; ur_file := None;
              ur_error := Some "Conflict detected"%string;
              ur_conflict := Some {| currentRevision := 5; yourParentRevision := 3 |} |},
           {| currentRevision := 5; yourParentRevision := 3 |}, (e + 1).
    split; [vm_compute; reflexivity|]. split; [exact I|].
    split; [reflexivity|]. split; [reflexivity|]. split; [reflexivity|].
    vm_compute. reflexivity.
  - intros rev e _. eexists _, _. split; [reflexivity|exact I].
  - intros request e _.
    exists {| mr_success := true; mr_hasConflict := false;
              mr_mergedContent := Some "merged"%string |}, "merged"%string, (e + 1).
    split; [reflexivity|]. split; [exact I|].
    split; [reflexivity|]. split; [reflexivity|]. split; [reflexivity|discriminate].
Defined.

(** X23 on a run: the manual fallback on the edited [a.md]. *)
Lemma manual_backup_is_enumerated_witness :
  let w' := (handleManualConflict clockHost "a.md" "edited" "remote" edited).2 in
  is_TFile (vault edited !! "a.md") = true
  ∧ shouldSyncFile "a.md" = true
  ∧ handleManualConflict clockHost "a.md" "edited" "remote" edited = (Val tt, w')
  ∧ ∃ backupPath,
      BackupCreatable clockHost edited "a.md" backupPath
      ∧ vault w' !! backupPath = Some (TFile "remote" (Host.now clockHost (env edited)))
      ∧ In backupPath (List.filter shouldSyncFile (getFiles w')).
Proof.
  intros w'.
  assert (H1 : is_TFile (vault edited !! "a.md") = true) by (vm_compute; reflexivity).
  assert (H2 : shouldSyncFile "a.md" = true) by (vm_compute; reflexivity).
  assert (H3 : handleManualConflict clockHost "a.md" "edited" "remote" edited = (Val tt, w'))
    by (vm_compute; reflexivity).
  split; [exact H1|]. split; [exact H2|]. split; [exact H3|].
  exact (manual_backup_is_enumerated clockHost "a.md" "edited" "remote" edited w' H1 H2 H3).
Defined.

(** X25. The rename handler for a file whose old path is the name of a
    method the store object inherits: [constructor] has just been renamed
    to [new.md] and the store is empty. The deletion and the upload
    succeed, and the upload stores the record of [new.md] at the revision
    the server assigned; the rename of the record that ends the handler
    then finds the inherited function under the old path and puts its
    spread, a record with the new path and nothing else, over the record
    of the upload: no revision is left for [new.md], in memory and in the
    file. *)
Theorem onRename_inherited_old_path :
  let w := world ∅ {[ "new.md"%string := TFile "local" 800 ]} in
  let uploaded := uploadFile server clockHost 1 "new.md"
                    (deleteFile server clockHost "constructor" w).2 in
  let run := onRename server clockHost 1 true "new.md" "constructor" w in
  served w "constructor" = Some VNative
  ∧ (deleteFile server clockHost "constructor" w).1 = Val true
  ∧ uploaded.1 = Val true
  ∧ metadata uploaded.2 !! "new.md" ≫= revision = Some 1
  ∧ run.1 = Val tt
  ∧ metadata run.2 !! "new.md" = Some (with_path VNative "new.md")
  ∧ metadata run.2 !! "new.md" ≫= revision = None
  ∧ persisted run.2 = metadata run.2.
Proof. vm_compute. split_and!; reflexivity. Qed.

End FurtherExamples.
